(** * Deployment lifecycle orchestrator: DeployAgent and MonitorAgent

    A shallow embedding of the two Kubernetes-facing agents of the MCP
    DevOps server:

    - [DeployAgent]  (src/project/src/agents/codeReviewAgent.js, l.779-1080):
      [deployToKubernetes], [waitForDeployment], [getServiceUrl], [rollback];
    - [MonitorAgent] (src/unnamed/part_001): [monitor], [findDeploymentById],
      [performMonitoring], [performHealthCheck], [getServiceUrl],
      [generateMonitoringReport], [calculateAverage].

    The agents are asynchronous JavaScript methods that talk to a cluster
    through the [@kubernetes/client-node] clients, to an HTTP endpoint
    through [axios], and to the clock through [Date.now] and [setTimeout].
    Every [await] is a sequencing point of one sequential flow, so a method
    is embedded as a function in a state-and-exception monad over a world
    [W]; the clients are interfaces (type classes) over [W]. *)

From Stdlib Require Import Ascii String ZArith QArith Lia Lqa.
From stdpp Require Import base option strings gmap list pretty.

Local Open Scope string_scope.
Local Open Scope list_scope.
Local Open Scope Z_scope.

(* ===================================================================== *)
(** * JavaScript values, exceptions and sequencing *)
(* ===================================================================== *)

Module Js.

(** A thrown [Error].  [statusCode] is what [error.response?.statusCode]
    evaluates to: [None] when the error carries no HTTP response. *)
Record Error := { message : string; statusCode : option Z }.

#[global] Instance Error_eq_dec : EqDecision Error.
Proof. solve_decision. Defined.

(** Outcome of evaluating an expression: a value or a thrown error. *)
Inductive result (A : Type) : Type :=
| Ok (a : A)
| Throw (e : Error).
Arguments Ok {A} a.
Arguments Throw {A} e.

(** An [async] method over world [W]. *)
Definition M (W A : Type) : Type := W -> result A * W.

Definition ret {W A} (a : A) : M W A := fun w => (Ok a, w).

Definition throw {W A} (e : Error) : M W A := fun w => (Throw e, w).

Definition bind {W A B} (c : M W A) (k : A -> M W B) : M W B :=
  fun w => match c w with
           | (Ok a, w') => k a w'
           | (Throw e, w') => (Throw e, w')
           end.

(** [try { body } catch (error) { handler }]: effects performed by [body]
    before it threw stay in the world. *)
Definition try_catch {W A} (body : M W A) (handler : Error -> M W A) : M W A :=
  fun w => match body w with
           | (Ok a, w') => (Ok a, w')
           | (Throw e, w') => handler e w'
           end.

(** Truthiness of a string value: only the empty string is falsy. *)
Definition truthy (s : string) : bool :=
  match s with
  | EmptyString => false
  | String _ _ => true
  end.

(** Truthiness of a possibly [undefined] string. *)
Definition truthy_opt (o : option string) : bool :=
  match o with
  | Some s => truthy s
  | None => false
  end.

(** [x || d] for a possibly [undefined] number: [undefined] and [0] are
    falsy. *)
Definition num_or (x : option Z) (d : Z) : Z :=
  match x with
  | Some n => if n =? 0 then d else n
  | None => d
  end.

(** [a || b] for possibly [undefined] strings. *)
Definition str_or (a b : option string) : option string :=
  if truthy_opt a then a else b.

(** A possibly [undefined] string interpolated in a template literal. *)
Definition show_opt (o : option string) : string :=
  match o with
  | Some s => s
  | None => "undefined"
  end.

(** Optional chaining [o?.f]: [undefined] when [o] is. *)
Definition chain {A B} (o : option A) (f : A -> option B) : option B :=
  match o with
  | Some a => f a
  | None => None
  end.

(** [xs[0]]: [undefined] on an empty array. *)
Definition first {A} (xs : list A) : option A :=
  match xs with
  | [] => None
  | x :: _ => Some x
  end.

(** An integer interpolated in a template literal. *)
Definition show_num (n : Z) : string := pretty n.

End Js.

Import Js.

Declare Scope js_scope.
Delimit Scope js_scope with js.
Notation "'let*' x ':=' c 'in' k" := (bind c (fun x => k))
  (at level 10, x pattern, c at level 100, k at level 200) : js_scope.
Notation "o ?. f" := (chain o f) (at level 40, left associativity) : js_scope.
Notation "c ';;' k" := (bind c (fun _ => k))
  (at level 100, k at level 200, right associativity) : js_scope.
Local Open Scope js_scope.

(* ===================================================================== *)
(** * Cluster objects *)
(* ===================================================================== *)

Module K8s.

(** [metadata]: the name and the label map.  An absent [labels] spreads to
    nothing, which is the empty map. *)
Record ObjectMeta := { name : string; labels : gmap string string }.

Record DeploymentSpec := { replicas : option Z; template : string }.
Record DeploymentStatus := { readyReplicas : option Z }.
Record Deployment := {
  dep_metadata : ObjectMeta;
  dep_spec : option DeploymentSpec;
  dep_status : option DeploymentStatus }.

Record ServicePort := { port : option Z }.
Record LoadBalancerIngress := { hostname : option string; ip : option string }.
Record LoadBalancerStatus := { lb_ingress : option (list LoadBalancerIngress) }.
Record ServiceStatus := { loadBalancer : option LoadBalancerStatus }.
Record ServiceSpec := {
  svc_type : option string;
  clusterIP : option string;
  ports : option (list ServicePort) }.
Record Service := {
  svc_metadata : ObjectMeta;
  svc_spec : option ServiceSpec;
  svc_status : option ServiceStatus }.

Record IngressRule := { host : option string }.
Record IngressTLS := { secretName : option string }.
Record IngressSpec := {
  rules : option (list IngressRule);
  tls : option (list IngressTLS) }.
Record Ingress := {
  ing_metadata : ObjectMeta;
  ing_spec : option IngressSpec }.

(** [kubernetes_config]: each of the three descriptors is optional. *)
Record KubernetesConfig := {
  deployment : option Deployment;
  service : option Service;
  ingress : option Ingress }.

(** The response of [axios.get] as the monitor reads it. *)
Record HttpResponse := { status : Z; x_response_time : option string }.

(** ** Client interfaces

    One class per client object of the agents.  The namespace comes first,
    as in the client library; the label selector is the last argument of
    the list call. *)

Class AppsV1Api (W : Type) := {
  createNamespacedDeployment : string -> Deployment -> M W unit;
  replaceNamespacedDeployment : string -> string -> Deployment -> M W unit;
  readNamespacedDeployment : string -> string -> M W Deployment;
  listNamespacedDeployment : string -> string -> M W (list Deployment) }.

Class CoreV1Api (W : Type) := {
  createNamespacedService : string -> Service -> M W unit;
  readNamespacedService : string -> string -> M W Service }.

Class NetworkingV1Api (W : Type) := {
  createNamespacedIngress : string -> Ingress -> M W unit;
  replaceNamespacedIngress : string -> string -> Ingress -> M W unit;
  readNamespacedIngress : string -> string -> M W Ingress }.

(** [Date.now()] and [sleep(ms)] (a [setTimeout] promise, which never
    rejects). *)
Class Timer (W : Type) := {
  Date_now : W -> Z;
  sleep : Z -> W -> W }.

Class Axios (W : Type) := {
  axios_get : string -> M W HttpResponse }.

End K8s.

Import K8s.

(* ===================================================================== *)
(** * DeployAgent *)
(* ===================================================================== *)

Module DeployAgent.

Inductive ResourceType := TDeployment | TService | TIngress.
Inductive ResourceStatus := created | updated | exists_.

(** An entry of [deployedResources]. *)
Record DeployedResource := {
  r_type : ResourceType;
  r_name : string;
  r_status : ResourceStatus }.

#[global] Instance ResourceType_eq_dec : EqDecision ResourceType.
Proof. solve_decision. Defined.
#[global] Instance ResourceStatus_eq_dec : EqDecision ResourceStatus.
Proof. solve_decision. Defined.
#[global] Instance DeployedResource_eq_dec : EqDecision DeployedResource.
Proof. solve_decision. Defined.

(** [{ ...metadata, labels: { ...metadata.labels, 'deployment-id': id,
      'managed-by': 'mcp-devops-server' } }] *)
Definition stamp (m : ObjectMeta) (deploymentId : string) : ObjectMeta :=
  {| name := name m;
     labels := <["managed-by" := "mcp-devops-server"]>
                 (<["deployment-id" := deploymentId]> (labels m)) |}.

Definition stampDeployment (d : Deployment) (deploymentId : string) : Deployment :=
  {| dep_metadata := stamp (dep_metadata d) deploymentId;
     dep_spec := dep_spec d;
     dep_status := dep_status d |}.

Definition stampService (s : Service) (deploymentId : string) : Service :=
  {| svc_metadata := stamp (svc_metadata s) deploymentId;
     svc_spec := svc_spec s;
     svc_status := svc_status s |}.

Definition stampIngress (i : Ingress) (deploymentId : string) : Ingress :=
  {| ing_metadata := stamp (ing_metadata i) deploymentId;
     ing_spec := ing_spec i |}.

(** [error.response?.statusCode === 409] *)
Definition isConflict (error : Error) : bool :=
  bool_decide (statusCode error = Some 409).

Section Methods.
Context {W : Type}.
Context `{!AppsV1Api W, !CoreV1Api W, !NetworkingV1Api W}.

(** The three blocks of [deployToKubernetes] (l.868-898, l.900-924,
    l.926-955).  Each takes the array collected so far and returns it
    with one more entry pushed. *)

Definition applyDeployment (namespace deploymentId : string)
    (d : Deployment) (deployedResources : list DeployedResource)
  : M W (list DeployedResource) :=
  let deployment := stampDeployment d deploymentId in
  let nm := name (dep_metadata deployment) in
  try_catch
    (createNamespacedDeployment namespace deployment ;;
     ret (deployedResources ++ [ {| r_type := TDeployment; r_name := nm; r_status := created |} ]))
    (fun error =>
       if isConflict error then
         replaceNamespacedDeployment nm namespace deployment ;;
         ret (deployedResources ++ [ {| r_type := TDeployment; r_name := nm; r_status := updated |} ])
       else throw error).

Definition applyService (namespace deploymentId : string)
    (s : Service) (deployedResources : list DeployedResource)
  : M W (list DeployedResource) :=
  let service := stampService s deploymentId in
  let nm := name (svc_metadata service) in
  try_catch
    (createNamespacedService namespace service ;;
     ret (deployedResources ++ [ {| r_type := TService; r_name := nm; r_status := created |} ]))
    (fun error =>
       if isConflict error then
         ret (deployedResources ++ [ {| r_type := TService; r_name := nm; r_status := exists_ |} ])
       else throw error).

Definition applyIngress (namespace deploymentId : string)
    (i : Ingress) (deployedResources : list DeployedResource)
  : M W (list DeployedResource) :=
  let ingress := stampIngress i deploymentId in
  let nm := name (ing_metadata ingress) in
  try_catch
    (createNamespacedIngress namespace ingress ;;
     ret (deployedResources ++ [ {| r_type := TIngress; r_name := nm; r_status := created |} ]))
    (fun error =>
       if isConflict error then
         replaceNamespacedIngress nm namespace ingress ;;
         ret (deployedResources ++ [ {| r_type := TIngress; r_name := nm; r_status := updated |} ])
       else throw error).

(** [deployToKubernetes]: the outer [try]/[catch] logs and rethrows the
    same error, so it is the identity on outcomes.  The method returns
    [{ resources: deployedResources }]. *)
Definition deployToKubernetes (kubernetesConfig : KubernetesConfig)
    (namespace appName deploymentId : string)
  : M W (list DeployedResource) :=
  let deployedResources := [] in
  let* deployedResources :=
    match deployment kubernetesConfig with
    | Some d => applyDeployment namespace deploymentId d deployedResources
    | None => ret deployedResources
    end in
  let* deployedResources :=
    match service kubernetesConfig with
    | Some s => applyService namespace deploymentId s deployedResources
    | None => ret deployedResources
    end in
  let* deployedResources :=
    match ingress kubernetesConfig with
    | Some i => applyIngress namespace deploymentId i deployedResources
    | None => ret deployedResources
    end in
  ret deployedResources.

(** [waitForDeployment] (l.965-990).

    [isReady] is the convergence test of one poll:
    [readyReplicas === replicas && replicas > 0] after the two
    [|| 0] defaults. *)
Definition isReady (d : Deployment) : bool :=
  let readyReplicas := num_or (dep_status d ?. readyReplicas) 0 in
  let replicas := num_or (dep_spec d ?. replicas) 0 in
  (readyReplicas =? replicas) && (replicas >? 0).

Definition timeoutError (appName : string) (timeoutMs : Z) : Error :=
  {| message := "Deployment " +:+ appName +:+ " did not become ready within "
                  +:+ show_num timeoutMs +:+ "ms";
     statusCode := None |}.

Context `{!Timer W}.

Definition sleepM (ms : Z) : M W unit := fun w => (Ok tt, sleep ms w).

(** The body of the [while] loop: [Some true] stands for [return true],
    [None] for falling through to the next test of the loop condition. *)
Definition pollOnce (appName namespace : string) : M W (option bool) :=
  try_catch
    (let* deployment := readNamespacedDeployment appName namespace in
     if isReady deployment then ret (Some true)
     else (sleepM 5000 ;; ret None))
    (fun error => sleepM 5000 ;; ret None).

(** The [while (Date.now() - startTime < timeoutMs)] loop, unrolled at
    most [fuel] times; [None] means the fuel ran out before the loop
    was left. *)
Fixpoint waitLoop (fuel : nat) (appName namespace : string)
    (timeoutMs startTime : Z) (w : W) : option (result bool * W) :=
  match fuel with
  | O => None
  | S fuel' =>
      if Date_now w - startTime <? timeoutMs then
        match pollOnce appName namespace w with
        | (Ok (Some b), w') => Some (Ok b, w')
        | (Ok None, w') => waitLoop fuel' appName namespace timeoutMs startTime w'
        | (Throw e, w') => Some (Throw e, w')
        end
      else Some (Throw (timeoutError appName timeoutMs), w)
  end.

Definition defaultTimeoutMs : Z := 300000.

(** [timeoutMs = 300000]: an omitted argument takes the default. *)
Definition waitForDeployment (fuel : nat) (appName namespace : string)
    (timeoutMs : option Z) (w : W) : option (result bool * W) :=
  let timeoutMs := default defaultTimeoutMs timeoutMs in
  let startTime := Date_now w in
  waitLoop fuel appName namespace timeoutMs startTime w.

(** [getServiceUrl] (l.992-1037). *)

Definition clusterLocalUrl (appName namespace : string) : string :=
  "http://" +:+ appName +:+ "-service." +:+ namespace +:+ ".svc.cluster.local".

(** [ingress.spec?.rules?.[0]?.host] *)
Definition firstRuleHost (i : Ingress) : option string :=
  ing_spec i ?. rules ?. first ?. host.

(** The ingress tier: [Some url] stands for the [return] inside the inner
    [try]; [None] for leaving the inner [try]/[catch] without returning. *)
Definition ingressTier (appName namespace : string) : M W (option string) :=
  try_catch
    (let* ingress := readNamespacedIngress (appName +:+ "-ingress") namespace in
     if truthy_opt (firstRuleHost ingress) then
       let protocol := match ing_spec ingress ?. tls with
                       | Some _ => "https"
                       | None => "http"
                       end in
       ret (Some (protocol +:+ "://" +:+ show_opt (firstRuleHost ingress)))
     else ret None)
    (fun error => ret None).

(** [service.spec.ports?.[0]?.port || 80] *)
Definition firstPort (s : Service) : Z :=
  num_or (svc_spec s ?. ports ?. first ?. port) 80.

(** The service tiers, once the service was read. *)
Definition serviceTiers (appName namespace : string) (s : Service) : string :=
  match (if bool_decide (svc_spec s ?. svc_type = Some "LoadBalancer")
         then svc_status s ?. loadBalancer ?. lb_ingress ?. first
         else None) with
  | Some lb =>
      let host := str_or (hostname lb) (ip lb) in
      let port := firstPort s in
      "http://" +:+ show_opt host +:+ ":" +:+ show_num port
  | None =>
      let clusterIP := svc_spec s ?. clusterIP in
      let port := firstPort s in
      if truthy_opt clusterIP && negb (bool_decide (clusterIP = Some "None"))
      then "http://" +:+ show_opt clusterIP +:+ ":" +:+ show_num port
      else clusterLocalUrl appName namespace
  end.

Definition getServiceUrl (appName namespace environment : string) : M W string :=
  try_catch
    (let* fromIngress := ingressTier appName namespace in
     match fromIngress with
     | Some url => ret url
     | None =>
         let* service := readNamespacedService (appName +:+ "-service") namespace in
         ret (serviceTiers appName namespace service)
     end)
    (fun error => ret (clusterLocalUrl appName namespace)).

(** [rollback] (l.1039-1075); the [catch] logs and rethrows.

    [this.k8sApi] is the client of the [apps/v1] API (l.784), which has no
    rollback call: the member [createNamespacedDeploymentRollback] is
    [undefined] on it, and calling it at l.1058 throws a [TypeError] before
    any request is made.  The statements after the call are kept as the
    source has them. *)

Record RollbackResult := { rb_status : string; rb_message : string }.

Definition notFoundError (deploymentId : string) : Error :=
  {| message := "No deployment found with ID " +:+ deploymentId;
     statusCode := None |}.

(** The [TypeError] of calling a member that is [undefined]; it carries no
    HTTP response. *)
Definition notAFunction (callee : string) : Error :=
  {| message := callee +:+ " is not a function"; statusCode := None |}.

(** A call of a member that the object does not have. *)
Definition callMissing (callee : string) : M W unit :=
  throw (notAFunction callee).

Definition rollback (deploymentId namespace : string) : M W RollbackResult :=
  let* items := listNamespacedDeployment namespace ("deployment-id=" +:+ deploymentId) in
  match items with
  | [] => throw (notFoundError deploymentId)
  | deployment :: _ =>
      let nm := name (dep_metadata deployment) in
      callMissing "this.k8sApi.createNamespacedDeploymentRollback" ;;
      ret {| rb_status := "success";
             rb_message := "Deployment " +:+ nm +:+ " rolled back successfully" |}
  end.

End Methods.

End DeployAgent.

(* ===================================================================== *)
(** * MonitorAgent *)
(* ===================================================================== *)

Module MonitorAgent.

(** ** Samples

    A part of a sample is what a [get...Metrics] helper returned: the
    metrics, or [{ error: error.message }] when the helper caught an
    error. *)
Inductive Part (A : Type) : Type :=
| Measured (a : A)
| Unavailable (error : string).
Arguments Measured {A} a.
Arguments Unavailable {A} error.

Record DeploymentMetrics := {
  m_replicas : Z;
  ready_replicas : Z;
  available_replicas : Z;
  unavailable_replicas : Z;
  updated_replicas : Z }.

Record PodMetrics := {
  total_pods : Z;
  running_pods : Z;
  ready_pods : Z }.

Record ServiceMetrics := {
  sm_type : option string;
  cluster_ip : option string }.

(** The result of [performHealthCheck]; [status_code] and [response_time]
    are present only when a response arrived. *)
Record HealthCheck := {
  hc_status : string;
  status_code : option Z;
  response_time : option string;
  hc_message : string }.

(** What [collectMetrics] returns. *)
Record Metrics := {
  deployment : Part DeploymentMetrics;
  pods : Part PodMetrics;
  service : Part ServiceMetrics;
  health : HealthCheck }.

(** An element of [results]: [{ timestamp, ...metrics }] or
    [{ timestamp, error: error.message }].  The timestamp is kept as the
    epoch milliseconds that the ISO string denotes. *)
Inductive Sample :=
| Collected (timestamp : Z) (metrics : Metrics)
| Failure (timestamp : Z) (error : string).

(** ** The report *)

Record ReportMetrics := {
  monitoring_duration : nat;
  average_ready_replicas : Q;
  average_running_pods : Q;
  health_success_rate : Q;     (* the percentage, before [toFixed(1)] *)
  data_points : nat }.

(** [metrics] is [None] for the empty object [{}]. *)
Record Report := {
  overall_health : string;
  metrics : option ReportMetrics;
  alerts : list string;
  recommendations : list string }.

(** [!r.error]: a sample is kept when it has no [error] field or when the
    field is the empty string. *)
Definition isValid (r : Sample) : bool :=
  match r with
  | Collected _ _ => true
  | Failure _ error => negb (truthy error)
  end.

(** [getNestedValue(r, 'deployment.ready_replicas')], restricted to the
    values that pass [typeof v === 'number']. *)
Definition readyReplicasOf (r : Sample) : option Z :=
  match r with
  | Collected _ m =>
      match deployment m with
      | Measured d => Some (ready_replicas d)
      | Unavailable _ => None
      end
  | Failure _ _ => None
  end.

(** [getNestedValue(r, 'pods.running_pods')], likewise. *)
Definition runningPodsOf (r : Sample) : option Z :=
  match r with
  | Collected _ m =>
      match pods m with
      | Measured p => Some (running_pods p)
      | Unavailable _ => None
      end
  | Failure _ _ => None
  end.

(** [r.health?.status === 'healthy'] *)
Definition isHealthy (r : Sample) : bool :=
  match r with
  | Collected _ m => bool_decide (hc_status (health m) = "healthy")
  | Failure _ _ => false
  end.

Definition sumZ (values : list Z) : Z := foldl Z.add 0 values.

(** [calculateAverage]: the mean of the numeric values found at the path,
    [0] when there is none. *)
Definition calculateAverage (results : list Sample) (path : Sample -> option Z) : Q :=
  let values := omap path results in
  if (0 <? length values)%nat
  then (inject_Z (sumZ values) / inject_Z (Z.of_nat (length values)))%Q
  else 0%Q.

Definition Qltb (a b : Q) : bool := negb (Qle_bool b a).

(** [generateMonitoringReport] (l.276-317). *)
Definition generateMonitoringReport (appName namespace : string)
    (monitoringResults : list Sample) : Report :=
  let validResults := filter (fun r => isValid r = true) monitoringResults in
  if (length validResults =? 0)%nat then
    {| overall_health := "unknown";
       metrics := None;
       alerts := ["No valid monitoring data collected"];
       recommendations := ["Check monitoring configuration and connectivity"] |}
  else
    let avgReadyReplicas := calculateAverage validResults readyReplicasOf in
    let avgRunningPods := calculateAverage validResults runningPodsOf in
    let healthyChecks := length (filter (fun r => isHealthy r = true) validResults) in
    let healthPercentage :=
      ((inject_Z (Z.of_nat healthyChecks) / inject_Z (Z.of_nat (length validResults)))
       * 100)%Q in
    let alerts := [] in
    let alerts := if Qltb avgReadyReplicas 1
                  then alerts ++ ["Low replica count detected"] else alerts in
    let alerts := if Qltb avgRunningPods 1
                  then alerts ++ ["Insufficient running pods"] else alerts in
    let alerts := if Qltb healthPercentage 80
                  then alerts ++ ["Health check success rate below 80%"] else alerts in
    let recommendations := [] in
    let recommendations :=
      if Qltb avgReadyReplicas 2
      then recommendations ++ ["Consider increasing replica count for high availability"]
      else recommendations in
    let recommendations :=
      if Qltb healthPercentage 90
      then recommendations ++ ["Investigate health check failures"]
      else recommendations in
    {| overall_health :=
         if Qle_bool 90 healthPercentage then "healthy"
         else if Qle_bool 70 healthPercentage then "warning"
         else "unhealthy";
       metrics := Some {| monitoring_duration := length monitoringResults;
                          average_ready_replicas := avgReadyReplicas;
                          average_running_pods := avgRunningPods;
                          health_success_rate := healthPercentage;
                          data_points := length validResults |};
       alerts := alerts;
       recommendations := recommendations |}.

(** ** Methods that talk to the cluster *)

Section Methods.
Context {W : Type}.
Context `{!AppsV1Api W, !CoreV1Api W, !Axios W, !Timer W}.

(** [findDeploymentById] (l.73-89): [deployments.items[0] || null], and
    [null] from the [catch]. *)
Definition findDeploymentById (deploymentId namespace : string)
  : M W (option Deployment) :=
  try_catch
    (let* items := listNamespacedDeployment namespace ("deployment-id=" +:+ deploymentId) in
     ret (first items))
    (fun error => ret None).

(** [getServiceUrl] of the monitor (l.256-274). *)
Definition getServiceUrl (appName namespace : string) : M W (option string) :=
  try_catch
    (let* service := readNamespacedService (appName +:+ "-service") namespace in
     let clusterIP := svc_spec service ?. clusterIP in
     let port := num_or (svc_spec service ?. ports ?. first ?. port) 80 in
     if truthy_opt clusterIP && negb (bool_decide (clusterIP = Some "None"))
     then ret (Some ("http://" +:+ show_opt clusterIP +:+ ":" +:+ show_num port))
     else ret None)
    (fun error => ret None).

(** [performHealthCheck] (l.227-254). *)
Definition performHealthCheck (appName namespace : string) : M W HealthCheck :=
  try_catch
    (let* serviceUrl := getServiceUrl appName namespace in
     match serviceUrl with
     | None =>
         ret {| hc_status := "unknown"; status_code := None; response_time := None;
                hc_message := "Service URL not available" |}
     | Some serviceUrl =>
         let* response := axios_get (serviceUrl +:+ "/health") in
         ret {| hc_status := if status response =? 200 then "healthy" else "unhealthy";
                status_code := Some (status response);
                response_time :=
                  Some (show_opt (str_or (x_response_time response) (Some "unknown")));
                hc_message := if status response =? 200 then "Health check passed"
                              else "Health check failed" |}
     end)
    (fun error =>
       ret {| hc_status := "unhealthy"; status_code := None; response_time := None;
              hc_message := "Health check failed: " +:+ message error |}).

(** [new Date()] read as epoch milliseconds. *)
Definition now : M W Z := fun w => (Ok (Date_now w), w).

Definition sleepM (ms : Z) : M W unit := fun w => (Ok tt, sleep ms w).

(** [collectMetrics] is taken as it comes: [performMonitoring] is
    embedded for every behaviour of the collection, returning or
    throwing. *)
Variable collectMetrics : string -> string -> M W Metrics.

(** One iteration of the [for] loop of [performMonitoring]: the sample is
    pushed before the pause, and nothing after the push can throw. *)
Definition monitoringIteration (appName namespace : string)
    (i iterations : Z) (results : list Sample) : M W (list Sample) :=
  let monitoringInterval := 30 in
  try_catch
    (let* timestamp := now in
     let* metrics := collectMetrics appName namespace in
     let results := results ++ [Collected timestamp metrics] in
     (if i <? iterations - 1 then sleepM (monitoringInterval * 1000) else ret tt) ;;
     ret results)
    (fun error =>
       let* timestamp := now in
       ret (results ++ [Failure timestamp (message error)])).

(** [for (let i = 0; i < iterations; i++)]: [remaining] counts the
    iterations still to run, so [i = iterations - remaining]. *)
Fixpoint monitoringLoop (remaining : nat) (appName namespace : string)
    (i iterations : Z) (results : list Sample) : M W (list Sample) :=
  match remaining with
  | O => ret results
  | S remaining' =>
      let* results := monitoringIteration appName namespace i iterations results in
      monitoringLoop remaining' appName namespace (i + 1) iterations results
  end.

(** [performMonitoring] (l.91-127). *)
Definition performMonitoring (appName namespace : string) (durationSeconds : Z)
  : M W (list Sample) :=
  let monitoringInterval := 30 in
  let iterations := durationSeconds / monitoringInterval in
  monitoringLoop (Z.to_nat iterations) appName namespace 0 iterations [].

(** [monitor] (l.24-71); the [catch] logs and rethrows. *)

Record MonitorParams := {
  deployment_id : string;
  environment : option string;
  p_monitoring_duration : option Z;
  p_namespace : option string }.

Record MonitorResult := {
  res_deployment_id : string;
  monitoring_status : string;
  duration : Z;
  health_status : string;
  res_metrics : option ReportMetrics;
  res_alerts : list string;
  res_recommendations : list string;
  dashboard_url : string }.

Definition deploymentNotFound (deployment_id : string) : Error :=
  {| message := "Deployment with ID " +:+ deployment_id +:+ " not found";
     statusCode := None |}.

(** [process.env.GRAFANA_URL] *)
Variable GRAFANA_URL : option string.

Definition generateDashboardUrl (appName namespace : string) : string :=
  let grafanaUrl :=
    show_opt (str_or GRAFANA_URL (Some "http://grafana.monitoring.svc.cluster.local")) in
  grafanaUrl +:+ "/d/kubernetes-deployment?var-deployment=" +:+ appName
    +:+ "&var-namespace=" +:+ namespace.

Definition monitor (params : MonitorParams) : M W MonitorResult :=
  let deployment_id := deployment_id params in
  let environment := default "staging" (environment params) in
  let monitoring_duration := default 300 (p_monitoring_duration params) in
  let namespace := default environment (p_namespace params) in
  let* deployment := findDeploymentById deployment_id namespace in
  match deployment with
  | None => throw (deploymentNotFound deployment_id)
  | Some deployment =>
      let appName := name (dep_metadata deployment) in
      let* monitoringResults := performMonitoring appName namespace monitoring_duration in
      let report := generateMonitoringReport appName namespace monitoringResults in
      ret {| res_deployment_id := deployment_id;
             monitoring_status := "completed";
             duration := monitoring_duration;
             health_status := overall_health report;
             res_metrics := metrics report;
             res_alerts := alerts report;
             res_recommendations := recommendations report;
             dashboard_url := generateDashboardUrl appName namespace |}
  end.

End Methods.

End MonitorAgent.

(* ===================================================================== *)
(** * Worlds *)
(* ===================================================================== *)

(** ** A cluster held in memory *)

Module Mem.

(** Modelled from the spec: the cluster-resource API is an external
    collaborator (the [@kubernetes/client-node] clients), not code of the
    repository.  Its contract (spec, section 6 and glossary) is a store
    of named objects per namespace with a distinguishable conflict
    condition (creating a name that exists) and not-found condition
    (reading or replacing a name that does not). *)
Record Cluster := {
  deployments : gmap (string * string) Deployment;
  services : gmap (string * string) Service;
  ingresses : gmap (string * string) Ingress }.

Definition empty : Cluster :=
  {| deployments := ∅; services := ∅; ingresses := ∅ |}.

Definition conflict : Error :=
  {| message := "HTTP request failed"; statusCode := Some 409 |}.
Definition notFound : Error :=
  {| message := "HTTP request failed"; statusCode := Some 404 |}.

Definition setDeployments (f : gmap (string * string) Deployment -> gmap (string * string) Deployment)
    (c : Cluster) : Cluster :=
  {| deployments := f (deployments c); services := services c;
     ingresses := ingresses c |}.
Definition setServices (f : gmap (string * string) Service -> gmap (string * string) Service)
    (c : Cluster) : Cluster :=
  {| deployments := deployments c; services := f (services c);
     ingresses := ingresses c |}.
Definition setIngresses (f : gmap (string * string) Ingress -> gmap (string * string) Ingress)
    (c : Cluster) : Cluster :=
  {| deployments := deployments c; services := services c;
     ingresses := f (ingresses c) |}.

(** Split a [key=value] selector at its first [=]. *)
Fixpoint splitSelector (s : string) : option (string * string) :=
  match s with
  | EmptyString => None
  | String a rest =>
      if Ascii.eqb a "="%char then Some (EmptyString, rest)
      else match splitSelector rest with
           | Some (k, v) => Some (String a k, v)
           | None => None
           end
  end.

Definition selects (labelSelector : string) (m : ObjectMeta) : bool :=
  match splitSelector labelSelector with
  | Some (k, v) => bool_decide (labels m !! k = Some v)
  | None => false
  end.

#[global] Instance apps : AppsV1Api Cluster := {|
  createNamespacedDeployment ns d c :=
    let key := (ns, name (dep_metadata d)) in
    match deployments c !! key with
    | Some _ => (Throw conflict, c)
    | None => (Ok tt, setDeployments (insert key d) c)
    end;
  replaceNamespacedDeployment nm ns d c :=
    match deployments c !! (ns, nm) with
    | Some _ => (Ok tt, setDeployments (insert (ns, nm) d) c)
    | None => (Throw notFound, c)
    end;
  readNamespacedDeployment nm ns c :=
    match deployments c !! (ns, nm) with
    | Some d => (Ok d, c)
    | None => (Throw notFound, c)
    end;
  listNamespacedDeployment ns labelSelector c :=
    (Ok (omap (fun kd : string * string * Deployment =>
                 if bool_decide (kd.1.1 = ns) && selects labelSelector (dep_metadata kd.2)
                 then Some kd.2 else None)
              (map_to_list (deployments c))), c) |}.

#[global] Instance core : CoreV1Api Cluster := {|
  createNamespacedService ns s c :=
    let key := (ns, name (svc_metadata s)) in
    match services c !! key with
    | Some _ => (Throw conflict, c)
    | None => (Ok tt, setServices (insert key s) c)
    end;
  readNamespacedService nm ns c :=
    match services c !! (ns, nm) with
    | Some s => (Ok s, c)
    | None => (Throw notFound, c)
    end |}.

#[global] Instance networking : NetworkingV1Api Cluster := {|
  createNamespacedIngress ns i c :=
    let key := (ns, name (ing_metadata i)) in
    match ingresses c !! key with
    | Some _ => (Throw conflict, c)
    | None => (Ok tt, setIngresses (insert key i) c)
    end;
  replaceNamespacedIngress nm ns i c :=
    match ingresses c !! (ns, nm) with
    | Some _ => (Ok tt, setIngresses (insert (ns, nm) i) c)
    | None => (Throw notFound, c)
    end;
  readNamespacedIngress nm ns c :=
    match ingresses c !! (ns, nm) with
    | Some i => (Ok i, c)
    | None => (Throw notFound, c)
    end |}.

End Mem.

(** ** A scripted, recording world

    The answer of every call is fixed in advance by a script, indexed by the
    number of calls made before it; the world records each call with the
    answer it got, and a clock that each call advances.  Since an agent is
    one sequential flow, every behaviour of a cluster, an HTTP endpoint or
    a sample collection towards one run is a script. *)

Module Scripted.

Inductive Call :=
| Mutation (method name namespace : string) (answer : result unit)
| ReadDeployment (name namespace : string) (answer : result Deployment)
| ListDeployments (namespace labelSelector : string) (answer : result (list Deployment))
| ReadService (name namespace : string) (answer : result Service)
| ReadIngress (name namespace : string) (answer : result Ingress)
| HttpGet (url : string) (answer : result HttpResponse)
| Collect (appName namespace : string) (answer : result MonitorAgent.Metrics)
| Sleep (ms : Z).

Record Script := {
  unit_answers : nat -> result unit;
  deployment_answers : nat -> result Deployment;
  deployments_answers : nat -> result (list Deployment);
  service_answers : nat -> result Service;
  ingress_answers : nat -> result Ingress;
  http_answers : nat -> result HttpResponse;
  metrics_answers : nat -> result MonitorAgent.Metrics;
  (** the time the [n]-th call takes; for a pause, the time by which the
      timer fires late *)
  latency : nat -> Z }.

Record World := { script : Script; clock : Z; calls : list Call }.

Definition start (s : Script) (t : Z) : World :=
  {| script := s; clock := t; calls := [] |}.

Definition record (c : Call) (dt : Z) (w : World) : World :=
  {| script := script w; clock := clock w + dt; calls := calls w ++ [c] |}.

Definition call {A} (answers : Script -> nat -> result A) (mk : result A -> Call)
  : M World A :=
  fun w =>
    let n := length (calls w) in
    let answer := answers (script w) n in
    (answer, record (mk answer) (latency (script w) n) w).

#[global] Instance apps : AppsV1Api World := {|
  createNamespacedDeployment ns d :=
    call unit_answers (Mutation "createNamespacedDeployment" (name (dep_metadata d)) ns);
  replaceNamespacedDeployment nm ns d :=
    call unit_answers (Mutation "replaceNamespacedDeployment" nm ns);
  readNamespacedDeployment nm ns := call deployment_answers (ReadDeployment nm ns);
  listNamespacedDeployment ns labelSelector :=
    call deployments_answers (ListDeployments ns labelSelector) |}.

#[global] Instance core : CoreV1Api World := {|
  createNamespacedService ns s :=
    call unit_answers (Mutation "createNamespacedService" (name (svc_metadata s)) ns);
  readNamespacedService nm ns := call service_answers (ReadService nm ns) |}.

#[global] Instance networking : NetworkingV1Api World := {|
  createNamespacedIngress ns i :=
    call unit_answers (Mutation "createNamespacedIngress" (name (ing_metadata i)) ns);
  replaceNamespacedIngress nm ns i :=
    call unit_answers (Mutation "replaceNamespacedIngress" nm ns);
  readNamespacedIngress nm ns := call ingress_answers (ReadIngress nm ns) |}.

#[global] Instance timer : Timer World := {|
  Date_now w := clock w;
  sleep ms w := record (Sleep ms) (ms + latency (script w) (length (calls w))) w |}.

#[global] Instance axios : Axios World := {|
  axios_get url := call http_answers (HttpGet url) |}.

Definition collectMetrics (appName namespace : string) : M World MonitorAgent.Metrics :=
  call metrics_answers (Collect appName namespace).

(** Calls take time, never give it back. *)
Definition timely (s : Script) : Prop := forall n, 0 <= latency s n.

Definition isMutation (c : Call) : bool :=
  match c with
  | Mutation _ _ _ _ => true
  | _ => false
  end.

Definition isSleep (c : Call) : bool :=
  match c with
  | Sleep _ => true
  | _ => false
  end.

End Scripted.

(* ===================================================================== *)
(** * DeployAgent: namespace and application name *)
(* ===================================================================== *)

Module Provision.

(** The namespace calls of the core client, [this.k8sCoreApi.readNamespace]
    and [createNamespace]; the manifest passed to the latter is its
    [metadata]. *)
Class NamespaceApi (W : Type) := {
  readNamespace : string -> M W unit;
  createNamespace : ObjectMeta -> M W unit }.

(** [error.response?.statusCode === 404] *)
Definition isNotFound (error : Error) : bool :=
  bool_decide (statusCode error = Some 404).

Definition namespaceManifest (namespace : string) : ObjectMeta :=
  {| name := namespace;
     labels := <["managed-by" := "mcp-devops-server"]> (<["name" := namespace]> ∅) |}.

(** [ensureNamespace] (l.839-862): only the read is inside the [try]; the
    create runs in the [catch] block, so what it throws is not caught. *)
Definition ensureNamespace {W} `{!NamespaceApi W} (namespace : string) : M W unit :=
  try_catch
    (readNamespace namespace)
    (fun error =>
       if isNotFound error then createNamespace (namespaceManifest namespace)
       else throw error).

(** ** The application name (l.803-804, and l.583 of the image handler)

    The embedding covers ASCII text, which is what the names of
    repositories and of their owners are made of.  On ASCII text a
    character is one UTF-16 code unit, [toLowerCase] shifts [A-Z] by 32 and
    changes nothing else, and the replacement of [/[^a-z0-9-]/g] acts
    character by character.  Beyond ASCII the lower-casing of the runtime
    follows the Unicode tables and can change the length of the string
    (U+0130 becomes two code units); such strings are outside the
    embedding, and every statement about the application name takes ASCII
    input as its hypothesis. *)

Definition inRange (lo hi : N) (c : ascii) : bool :=
  ((lo <=? N_of_ascii c) && (N_of_ascii c <=? hi))%N.

(** A code unit below 128. *)
Definition isAsciiChar (c : ascii) : bool := inRange 0 127 c.

Definition toLowerCaseChar (c : ascii) : ascii :=
  if inRange 65 90 c then ascii_of_N (N_of_ascii c + 32) else c.

(** A character of the class [[a-z0-9-]]. *)
Definition isNameChar (c : ascii) : bool :=
  inRange 97 122 c || inRange 48 57 c || Ascii.eqb c "-".

Fixpoint mapChars (f : ascii -> ascii) (s : string) : string :=
  match s with
  | EmptyString => EmptyString
  | String c s' => String (f c) (mapChars f s')
  end.

Definition toLowerCase (s : string) : string := mapChars toLowerCaseChar s.

(** [s.replace(/[^a-z0-9-]/g, '-')] *)
Definition replaceOthers (s : string) : string :=
  mapChars (fun c => if isNameChar c then c else "-"%char) s.

(** [s.split(sep)] for a one-character separator: the pieces between the
    separators, [[""]] for the empty string. *)
Fixpoint split (sep : ascii) (s : string) : list string :=
  match s with
  | EmptyString => [EmptyString]
  | String c s' =>
      if Ascii.eqb c sep then EmptyString :: split sep s'
      else match split sep s' with
           | piece :: pieces => String c piece :: pieces
           | [] => [String c EmptyString]
           end
  end.

(** [`${owner}-${repo}`.toLowerCase().replace(/[^a-z0-9-]/g, '-')] *)
Definition appNameOf (owner : string) (repo : option string) : string :=
  replaceOthers (toLowerCase (owner +:+ "-" +:+ show_opt repo)).

(** [const [owner, repo] = repository.split('/')] followed by the above:
    [repo] is [undefined] when the repository has no [/]. *)
Definition appNameOfRepository (repository : string) : string :=
  let pieces := split "/" repository in
  appNameOf (show_opt (first pieces)) (first (tail pieces)).

End Provision.

(** ** A namespace store *)

Module Namespaces.

(** Modelled from the spec: the namespaces of the cluster, each with its
    labels; reading an absent namespace is the not-found condition,
    creating a present one the conflict condition. *)
#[global] Instance store : Provision.NamespaceApi (gmap string (gmap string string)) := {|
  Provision.readNamespace ns m :=
    match m !! ns with
    | Some _ => (Ok tt, m)
    | None => (Throw Mem.notFound, m)
    end;
  Provision.createNamespace meta m :=
    match m !! name meta with
    | Some _ => (Throw Mem.conflict, m)
    | None => (Ok tt, <[name meta := labels meta]> m)
    end |}.

End Namespaces.

(* ===================================================================== *)
(** * TestWriterAgent: file names *)
(* ===================================================================== *)

Module TestWriterAgent.

(** [s.startsWith(prefix)] *)
Fixpoint startsWith (s prefix : string) : bool :=
  match prefix, s with
  | EmptyString, _ => true
  | String p prefix', String c s' => Ascii.eqb c p && startsWith s' prefix'
  | String _ _, EmptyString => false
  end.

(** [s.includes(pattern)] *)
Fixpoint includes (s pattern : string) : bool :=
  startsWith s pattern
  || match s with
     | EmptyString => false
     | String _ s' => includes s' pattern
     end.

(** [s.endsWith(suffix)] *)
Fixpoint endsWith (s suffix : string) : bool :=
  String.eqb s suffix
  || match s with
     | EmptyString => false
     | String _ s' => endsWith s' suffix
     end.

Fixpoint dropChars (n : nat) (s : string) : string :=
  match n, s with
  | O, _ => s
  | S n', String _ s' => dropChars n' s'
  | S _, EmptyString => EmptyString
  end.

(** [s.replace(pattern, '')] for a string pattern: the first occurrence is
    removed. *)
Fixpoint removeFirst (pattern s : string) : string :=
  if startsWith s pattern then dropChars (String.length pattern) s
  else match s with
       | EmptyString => EmptyString
       | String c s' => String c (removeFirst pattern s')
       end.

(** [filename.split('.').pop()] *)
Definition extensionOf (filename : string) : string :=
  default EmptyString (last (Provision.split "." filename)).

(** A value read from an object literal by a computed key: a string of the
    literal, or, for a key that the literal does not define but
    [Object.prototype] does, the inherited member (a function or an object,
    always truthy). *)
Inductive Value :=
| Str (s : string)
| Inherited (key : string).

Definition objectPrototypeKeys : list string :=
  [ "constructor"; "hasOwnProperty"; "isPrototypeOf"; "propertyIsEnumerable";
    "toLocaleString"; "toString"; "valueOf"; "__proto__";
    "__defineGetter__"; "__defineSetter__"; "__lookupGetter__"; "__lookupSetter__" ].

(** [table[key] || fallback] for a literal [table] with non-empty string
    values. *)
Definition lookupOr (table : list (string * string)) (key fallback : string) : Value :=
  match List.find (fun kv => String.eqb (fst kv) key) table with
  | Some kv => Str (snd kv)
  | None =>
      if existsb (String.eqb key) objectPrototypeKeys then Inherited key
      else Str fallback
  end.

(** [shouldGenerateTests] (l.280-288). *)
Definition testableExtensions : list string := [".js"; ".ts"; ".py"; ".java"; ".go"; ".rb"].
Definition excludePatterns : list string :=
  ["/test/"; "/tests/"; ".test."; ".spec."; "/node_modules/"].

Definition shouldGenerateTests (filename : string) : bool :=
  let hasTestableExtension := existsb (endsWith filename) testableExtensions in
  let isNotTestFile := negb (existsb (includes filename) excludePatterns) in
  hasTestableExtension && isNotTestFile.

(** [getTestFileName] (l.323-338). *)
Definition getTestFileName (originalFile : string) : Value :=
  let ext := extensionOf originalFile in
  let nameWithoutExt := removeFirst ("." +:+ ext) originalFile in
  let conventions :=
    [ ("js", nameWithoutExt +:+ ".test.js");
      ("ts", nameWithoutExt +:+ ".test.ts");
      ("py", "test_" +:+ originalFile);
      ("java", nameWithoutExt +:+ "Test.java");
      ("go", nameWithoutExt +:+ "_test.go");
      ("rb", nameWithoutExt +:+ "_spec.rb") ] in
  lookupOr conventions ext (nameWithoutExt +:+ ".test." +:+ ext).

(** [detectTestFramework] (l.340-353). *)
Definition frameworks : list (string * string) :=
  [ ("js", "Jest"); ("ts", "Jest"); ("py", "pytest");
    ("java", "JUnit"); ("go", "testing"); ("rb", "RSpec") ].

Definition detectTestFramework (filename : string) : Value :=
  lookupOr frameworks (extensionOf filename) "Unknown".

(** [getLanguageFromExtension] (l.375-386). *)
Definition languages : list (string * string) :=
  [ ("js", "javascript"); ("ts", "typescript"); ("py", "python");
    ("java", "java"); ("go", "go"); ("rb", "ruby") ].

Definition getLanguageFromExtension (filename : string) : Value :=
  lookupOr languages (extensionOf filename) (extensionOf filename).

(** [(content.match(/test|it\(/g) || []).length]: the matches are taken
    from left to right and do not overlap; [skip] counts the characters of
    the current match still to pass. *)
Fixpoint countMatches (skip : nat) (content : string) : nat :=
  match content with
  | EmptyString => O
  | String _ rest =>
      match skip with
      | S skip' => countMatches skip' rest
      | O =>
          if startsWith content "test" then S (countMatches 3 rest)
          else if startsWith content "it(" then S (countMatches 2 rest)
          else countMatches 0 rest
      end
  end.

(** An element of [generatedTests]. *)
Record GeneratedTest := {
  original_file : string;
  test_file : Value;
  test_content : string;
  framework : Value }.

(** [estimateCoverage] (l.388-397). *)
Definition estimateCoverage (generatedTests : list GeneratedTest) : Z :=
  let totalTests :=
    foldl (fun sum test => sum + Z.of_nat (countMatches 0 (test_content test)))
          0 generatedTests in
  Z.min (totalTests * 10) 95.

End TestWriterAgent.

(* ===================================================================== *)
(** * DockerHandlerAgent: applying manifests *)
(* ===================================================================== *)

Module DockerHandlerAgent.

(** An entry of [results]: the type and the status, without the name. *)
Record Outcome := {
  o_type : DeployAgent.ResourceType;
  o_status : DeployAgent.ResourceStatus }.

Record DeployParams := {
  k8s_manifests : KubernetesConfig;
  p_namespace : option string }.

Record DeployResult := {
  deployment_status : string;
  deployed_resources : list Outcome;
  namespace : string }.

Definition notInitialized : Error :=
  {| message := "Kubernetes client not initialized"; statusCode := None |}.

Section Methods.
Context {W : Type}.
Context `{!AppsV1Api W, !CoreV1Api W}.

(** [this.k8sApi] is set by the constructor unless the client configuration
    could not be loaded. *)
Variable k8sApi : bool.

(** [deployToKubernetes] (l.712-766): the manifests are applied as they
    are; the ingress manifest is not looked at.  The outer [catch] logs and
    rethrows. *)
Definition deployToKubernetes (params : DeployParams) : M W DeployResult :=
  let k8s_manifests := k8s_manifests params in
  let namespace := default "default" (p_namespace params) in
  if negb k8sApi then throw notInitialized
  else
    let results := [] in
    let* results :=
      match deployment k8s_manifests with
      | Some d =>
          try_catch
            (createNamespacedDeployment namespace d ;;
             ret (results ++ [ {| o_type := DeployAgent.TDeployment;
                                  o_status := DeployAgent.created |} ]))
            (fun error =>
               if DeployAgent.isConflict error then
                 replaceNamespacedDeployment (name (dep_metadata d)) namespace d ;;
                 ret (results ++ [ {| o_type := DeployAgent.TDeployment;
                                      o_status := DeployAgent.updated |} ])
               else throw error)
      | None => ret results
      end in
    let* results :=
      match service k8s_manifests with
      | Some s =>
          try_catch
            (createNamespacedService namespace s ;;
             ret (results ++ [ {| o_type := DeployAgent.TService;
                                  o_status := DeployAgent.created |} ]))
            (fun error =>
               if DeployAgent.isConflict error then
                 ret (results ++ [ {| o_type := DeployAgent.TService;
                                      o_status := DeployAgent.exists_ |} ])
               else throw error)
      | None => ret results
      end in
    ret {| deployment_status := "success";
           deployed_resources := results;
           namespace := namespace |}.

End Methods.

End DockerHandlerAgent.

(* ===================================================================== *)
(** * MonitorAgent: collecting a sample *)
(* ===================================================================== *)

Module Collector.

Import MonitorAgent.

(** ** Objects as the collectors read them *)

Record Condition := { c_type : option string; c_status : option string }.

(** The deployment with the further status fields that
    [getDeploymentMetrics] reads. *)
Record DeploymentView := {
  base : Deployment;
  availableReplicas : option Z;
  unavailableReplicas : option Z;
  updatedReplicas : option Z;
  conditions : option (list Condition) }.

Record ResourceList := { cpu : option string; memory : option string }.
Record ResourceRequirements := {
  requests : option ResourceList;
  limits : option ResourceList }.
Record Container := { resources : option ResourceRequirements }.
Record ContainerStatus := { restartCount : option Z }.
Record PodStatus := {
  phase : option string;
  pod_conditions : option (list Condition);
  containerStatuses : option (list ContainerStatus) }.
Record PodSpec := { containers : option (list Container) }.
Record Pod := {
  pod_metadata : ObjectMeta;
  pod_status : option PodStatus;
  pod_spec : option PodSpec }.

Record EndpointSubset := {
  addresses : option (list string);
  notReadyAddresses : option (list string) }.
Record Endpoints := { subsets : option (list EndpointSubset) }.

(** The reads of the collectors that the other agents do not make:
    the deployment with its full status, the pods selected by a label, the
    endpoints of a service. *)
Class MetricsApi (W : Type) := {
  readNamespacedDeployment : string -> string -> M W DeploymentView;
  listNamespacedPod : string -> string -> M W (list Pod);
  readNamespacedEndpoints : string -> string -> M W Endpoints }.

(** ** [extractResourceValue] (l.328-343)

    A string of the model holds the UTF-8 bytes of the JavaScript string;
    [endsWith] on the bytes is [endsWith] on the characters.

    A JavaScript number is a double.  The embedding does not compute in
    doubles: a number is kept as the expression that denotes it, exact
    where the double is, and named as rounded where it is not. *)
Inductive Number :=
| NaN
(** the integer [z], of magnitude at most [2^53]: every such integer is a
    double *)
| Int (z : Z)
| NegativeZero
(** the double that the runtime gives for the integer [z] of magnitude
    above [2^53]: it need not be [z] *)
| Rounded (z : Z)
(** [x / d] in the arithmetic of doubles *)
| Quotient (x : Number) (d : Z).

(** The result is [null], a number, or the string itself. *)
Inductive ResourceValue :=
| RNull
| RNumber (n : Number)
| RString (s : string).

Definition maxExact : Z := 9007199254740992.

(** The number for the integer [sign * n], [n] not negative. *)
Definition toNumber (sign n : Z) : Number :=
  if n =? 0 then (if sign <? 0 then NegativeZero else Int 0)
  else if n <=? maxExact then Int (sign * n)
  else Rounded (sign * n).

(** White space and line terminators of one byte: TAB, LF, VT, FF, CR and
    the space. *)
Definition isWhiteSpace (c : ascii) : bool :=
  Provision.inRange 9 13 c || Ascii.eqb c " ".

(** The three-byte encodings of the other white space and line terminators:
    U+1680, U+2000 to U+200A, U+2028, U+2029, U+202F, U+205F, U+3000 and
    U+FEFF. *)
Definition isWhiteSpace3 (a b c : N) : bool :=
  ((a =? 225) && (b =? 154) && (c =? 128)
   || (a =? 226) && (b =? 128)
      && ((128 <=? c) && (c <=? 138) || (c =? 168) || (c =? 169) || (c =? 175))
   || (a =? 226) && (b =? 129) && (c =? 159)
   || (a =? 227) && (b =? 128) && (c =? 128)
   || (a =? 239) && (b =? 187) && (c =? 191))%N.

(** The string without its leading white space; U+00A0 is the two bytes
    194, 160. *)
Fixpoint trimStart (s : string) : string :=
  match s with
  | EmptyString => EmptyString
  | String c s1 =>
      if isWhiteSpace c then trimStart s1
      else if (N_of_ascii c =? 194)%N then
        match s1 with
        | String c2 s2 => if (N_of_ascii c2 =? 160)%N then trimStart s2 else s
        | EmptyString => s
        end
      else if Provision.inRange 225 239 c then
        match s1 with
        | String c2 (String c3 s3) =>
            if isWhiteSpace3 (N_of_ascii c) (N_of_ascii c2) (N_of_ascii c3)
            then trimStart s3 else s
        | _ => s
        end
      else s
  end.

(** The value of a digit character in the given radix, if it is one. *)
Definition digitValue (radix : Z) (c : ascii) : option Z :=
  let n := Z.of_N (N_of_ascii c) in
  let v := if (48 <=? n) && (n <=? 57) then Some (n - 48)
           else if (97 <=? n) && (n <=? 122) then Some (n - 87)
           else if (65 <=? n) && (n <=? 90) then Some (n - 55)
           else None in
  match v with
  | Some d => if d <? radix then Some d else None
  | None => None
  end.

(** The longest prefix of digits, read in the radix; [None] when there is no
    digit at all. *)
Fixpoint readDigits (radix : Z) (acc : option Z) (s : string) : option Z :=
  match s with
  | EmptyString => acc
  | String c s' =>
      match digitValue radix c with
      | Some d => readDigits radix (Some (default 0 acc * radix + d)) s'
      | None => acc
      end
  end.

(** What [parseInt(s)] without a radix argument reads: leading white space,
    a sign, a [0x] prefix for radix 16, then digits.  The result is the sign
    and the magnitude; [None] when no digit follows. *)
Definition readInteger (s : string) : option (Z * Z) :=
  let s := trimStart s in
  let '(sign, s) := match s with
                    | String "-" s' => (-1, s')
                    | String "+" s' => (1, s')
                    | _ => (1, s)
                    end in
  let '(radix, s) := match s with
                     | String "0" (String "x" s') => (16, s')
                     | String "0" (String "X" s') => (16, s')
                     | _ => (10, s)
                     end in
  match readDigits radix None s with
  | Some n => Some (sign, n)
  | None => None
  end.

(** [parseInt(s)]: the number for the integer read, [NaN] when none is. *)
Definition parseInt (s : string) : Number :=
  match readInteger s with
  | Some (sign, n) => toNumber sign n
  | None => NaN
  end.

Definition extractResourceValue (resource : option string) : ResourceValue :=
  match resource with
  | None => RNull
  | Some resource =>
      if negb (truthy resource) then RNull
      else if TestWriterAgent.endsWith resource "m" then
        RNumber (Quotient (parseInt resource) 1000)
      else if TestWriterAgent.endsWith resource "Mi" then
        RNumber (parseInt resource)
      else RString resource
  end.

(** ** What the collectors return *)

Record DeploymentMetricsFull := {
  counts : DeploymentMetrics;
  d_conditions : list Condition }.

Record PodInfo := {
  pod_name : string;
  pod_phase : option string;
  ready : bool;
  restarts : Z;
  cpu_requests : ResourceValue;
  memory_requests : ResourceValue;
  cpu_limits : ResourceValue;
  memory_limits : ResourceValue }.

Record PodMetricsFull := {
  pod_counts : PodMetrics;
  pods_list : list PodInfo }.

Record EndpointCounts := { ready_addresses : Z; not_ready_addresses : Z }.

Record ServiceMetricsFull := {
  service_fields : ServiceMetrics;
  service_ports : list ServicePort;
  endpoints : Part EndpointCounts }.

Record FullMetrics := {
  f_deployment : Part DeploymentMetricsFull;
  f_pods : Part PodMetricsFull;
  f_service : Part ServiceMetricsFull;
  f_health : HealthCheck }.

(** [xs?.length || 0] *)
Definition lengthOr0 {A} (xs : option (list A)) : Z :=
  match xs with
  | Some l => Z.of_nat (length l)
  | None => 0
  end.

Section Methods.
Context {W : Type}.
Context `{!MetricsApi W, !CoreV1Api W, !Axios W}.

(** [getDeploymentMetrics] (l.140-156). *)
Definition getDeploymentMetrics (appName namespace : string)
  : M W (Part DeploymentMetricsFull) :=
  try_catch
    (let* deployment := readNamespacedDeployment appName namespace in
     ret (Measured
            {| counts :=
                 {| m_replicas := num_or (dep_spec (base deployment) ?. replicas) 0;
                    ready_replicas :=
                      num_or (dep_status (base deployment) ?. readyReplicas) 0;
                    available_replicas := num_or (availableReplicas deployment) 0;
                    unavailable_replicas := num_or (unavailableReplicas deployment) 0;
                    updated_replicas := num_or (updatedReplicas deployment) 0 |};
               d_conditions := default [] (conditions deployment) |}))
    (fun error => ret (Unavailable (message error))).

(** [pod.status?.conditions?.find(c => c.type === 'Ready')?.status === 'True'] *)
Definition isPodReady (pod : Pod) : bool :=
  match pod_status pod ?. pod_conditions with
  | Some cs =>
      match List.find (fun c => bool_decide (c_type c = Some "Ready")) cs with
      | Some c => bool_decide (c_status c = Some "True")
      | None => false
      end
  | None => false
  end.

Definition firstContainerResources (pod : Pod) : option ResourceRequirements :=
  pod_spec pod ?. containers ?. first ?. resources.

Definition podInfo (pod : Pod) : PodInfo :=
  {| pod_name := name (pod_metadata pod);
     pod_phase := pod_status pod ?. phase;
     ready := isPodReady pod;
     restarts := num_or (pod_status pod ?. containerStatuses ?. first ?. restartCount) 0;
     cpu_requests := extractResourceValue (firstContainerResources pod ?. requests ?. cpu);
     memory_requests :=
       extractResourceValue (firstContainerResources pod ?. requests ?. memory);
     cpu_limits := extractResourceValue (firstContainerResources pod ?. limits ?. cpu);
     memory_limits :=
       extractResourceValue (firstContainerResources pod ?. limits ?. memory) |}.

(** [getPodMetrics] (l.158-190). *)
Definition getPodMetrics (appName namespace : string) : M W (Part PodMetricsFull) :=
  try_catch
    (let* items := listNamespacedPod namespace ("app=" +:+ appName) in
     let podMetrics := map podInfo items in
     ret (Measured
            {| pod_counts :=
                 {| total_pods := Z.of_nat (length items);
                    running_pods :=
                      Z.of_nat (length (List.filter
                                          (fun p => bool_decide (pod_phase p = Some "Running"))
                                          podMetrics));
                    ready_pods := Z.of_nat (length (List.filter ready podMetrics)) |};
               pods_list := podMetrics |}))
    (fun error => ret (Unavailable (message error))).

(** [getServiceEndpoints] (l.211-225). *)
Definition getServiceEndpoints (appName namespace : string) : M W (Part EndpointCounts) :=
  try_catch
    (let* endpoints := readNamespacedEndpoints (appName +:+ "-service") namespace in
     ret (Measured
            {| ready_addresses := lengthOr0 (subsets endpoints ?. first ?. addresses);
               not_ready_addresses :=
                 lengthOr0 (subsets endpoints ?. first ?. notReadyAddresses) |}))
    (fun error => ret (Unavailable (message error))).

(** [getServiceMetrics] (l.192-209). *)
Definition getServiceMetrics (appName namespace : string) : M W (Part ServiceMetricsFull) :=
  try_catch
    (let* service := readNamespacedService (appName +:+ "-service") namespace in
     let* endpoints := getServiceEndpoints appName namespace in
     ret (Measured
            {| service_fields :=
                 {| sm_type := svc_spec service ?. svc_type;
                    cluster_ip := svc_spec service ?. clusterIP |};
               service_ports := default [] (svc_spec service ?. ports);
               endpoints := endpoints |}))
    (fun error => ret (Unavailable (message error))).

(** [collectMetrics] (l.129-138). *)
Definition collectMetrics (appName namespace : string) : M W FullMetrics :=
  let* deployment := getDeploymentMetrics appName namespace in
  let* pods := getPodMetrics appName namespace in
  let* service := getServiceMetrics appName namespace in
  let* health := performHealthCheck appName namespace in
  ret {| f_deployment := deployment; f_pods := pods;
         f_service := service; f_health := health |}.

End Methods.

(** The fields of a sample that the report reads. *)
Definition mapPart {A B} (f : A -> B) (p : Part A) : Part B :=
  match p with
  | Measured a => Measured (f a)
  | Unavailable e => Unavailable e
  end.

Definition summary (m : FullMetrics) : Metrics :=
  {| deployment := mapPart counts (f_deployment m);
     pods := mapPart pod_counts (f_pods m);
     service := mapPart service_fields (f_service m);
     health := f_health m |}.

(** [collectMetrics] as [performMonitoring] and the report see it. *)
Definition collectSummary {W} `{!MetricsApi W, !CoreV1Api W, !Axios W}
    (appName namespace : string) : M W Metrics :=
  let* m := collectMetrics appName namespace in
  ret (summary m).

End Collector.

(** ** A frozen cluster

    Every read returns the answer fixed in the snapshot, and nothing
    changes: the cluster as one sample of the monitor sees it when nothing
    moves. *)

Module Snapshot.

Record World := {
  the_deployments : result (list Deployment);
  the_deployment : result Collector.DeploymentView;
  the_pods : result (list Collector.Pod);
  the_service : result Service;
  the_endpoints : result Collector.Endpoints;
  the_response : result HttpResponse;
  the_time : Z }.

Definition readOnly : Error :=
  {| message := "HTTP request failed"; statusCode := Some 403 |}.

#[global] Instance apps : AppsV1Api World := {|
  createNamespacedDeployment _ _ w := (Throw readOnly, w);
  replaceNamespacedDeployment _ _ _ w := (Throw readOnly, w);
  K8s.readNamespacedDeployment _ _ w :=
    (match the_deployment w with
     | Ok d => Ok (Collector.base d)
     | Throw e => Throw e
     end, w);
  listNamespacedDeployment _ _ w := (the_deployments w, w) |}.

#[global] Instance core : CoreV1Api World := {|
  createNamespacedService _ _ w := (Throw readOnly, w);
  readNamespacedService _ _ w := (the_service w, w) |}.

#[global] Instance metrics : Collector.MetricsApi World := {|
  Collector.readNamespacedDeployment _ _ w := (the_deployment w, w);
  Collector.listNamespacedPod _ _ w := (the_pods w, w);
  Collector.readNamespacedEndpoints _ _ w := (the_endpoints w, w) |}.

#[global] Instance axios : Axios World := {|
  axios_get _ w := (the_response w, w) |}.

#[global] Instance timer : Timer World := {|
  Date_now w := the_time w;
  sleep ms w :=
    {| the_deployments := the_deployments w; the_deployment := the_deployment w;
       the_pods := the_pods w; the_service := the_service w;
       the_endpoints := the_endpoints w; the_response := the_response w;
       the_time := the_time w + ms |} |}.

End Snapshot.

(* ===================================================================== *)
(** * DeployAgent: the deploy operation *)
(* ===================================================================== *)

Module Deploy.

(** [uuidv4()] of the [uuid] package: a fresh identifier, and a world in
    which it has been issued. *)
Class Uuid (W : Type) := { uuidv4 : W -> string * W }.

(** The request body handed to [deploy]; every field may be absent. *)
Record Params := {
  repository : option string;
  image_tag : option string;
  environment : option string;
  kubernetes_config : option KubernetesConfig;
  namespace : option string }.

(** What [deploy] returns. *)
Record Result := {
  deployment_id : string;
  status : string;
  res_environment : string;
  res_namespace : string;
  deployment_url : string;
  deployed_resources : list DeployAgent.DeployedResource;
  rollout_status : string }.

(** The [TypeError] of reading [property] on [undefined], in the words of
    V8; it carries no HTTP response. *)
Definition typeError (property : string) : Error :=
  {| message := "Cannot read properties of undefined (reading '" +:+ property +:+ "')";
     statusCode := None |}.

Section Methods.
Context {W : Type}.
Context `{!AppsV1Api W, !CoreV1Api W, !NetworkingV1Api W, !Timer W}.
Context `{!Provision.NamespaceApi W, !Uuid W}.

(** [deploy] (l.792-837).  [environment] defaults to ['staging'] and
    [namespace] to the environment; the identifier is drawn first; then
    [repository.split] and, inside [deployToKubernetes],
    [kubernetesConfig.deployment] throw a [TypeError] on an absent value.
    [waitForDeployment] is called without a timeout.  The [catch] logs and
    rethrows. *)
Definition deploy (fuel : nat) (params : Params) (w : W) : option (result Result * W) :=
  let environment := default "staging" (environment params) in
  let namespace := default environment (namespace params) in
  let '(deploymentId, w) := uuidv4 w in
  match repository params with
  | None => Some (Throw (typeError "split"), w)
  | Some repository =>
      let appName := Provision.appNameOfRepository repository in
      match Provision.ensureNamespace namespace w with
      | (Throw e, w) => Some (Throw e, w)
      | (Ok _, w) =>
          match
            match kubernetes_config params with
            | Some kubernetesConfig =>
                DeployAgent.deployToKubernetes kubernetesConfig namespace appName deploymentId w
            | None => (Throw (typeError "deployment"), w)
            end
          with
          | (Throw e, w) => Some (Throw e, w)
          | (Ok resources, w) =>
              match DeployAgent.waitForDeployment fuel appName namespace None w with
              | None => None
              | Some (Throw e, w) => Some (Throw e, w)
              | Some (Ok _, w) =>
                  match DeployAgent.getServiceUrl appName namespace environment w with
                  | (Throw e, w) => Some (Throw e, w)
                  | (Ok serviceUrl, w) =>
                      Some (Ok {| deployment_id := deploymentId;
                                  status := "success";
                                  res_environment := environment;
                                  res_namespace := namespace;
                                  deployment_url := serviceUrl;
                                  deployed_resources := resources;
                                  rollout_status := "completed" |}, w)
                  end
              end
          end
      end
  end.

End Methods.

End Deploy.

(** ** A live cluster

    The in-memory cluster together with its namespaces, a clock that only
    [sleep] advances, and the number of identifiers issued so far. *)

Module Lab.

Record World := {
  cluster : Mem.Cluster;
  namespaces : gmap string (gmap string string);
  now : Z;
  issued : nat }.

Definition onCluster {A} (c : M Mem.Cluster A) : M World A :=
  fun w =>
    let '(r, c') := c (cluster w) in
    (r, {| cluster := c'; namespaces := namespaces w; now := now w; issued := issued w |}).

Definition onNamespaces {A} (c : M (gmap string (gmap string string)) A) : M World A :=
  fun w =>
    let '(r, m') := c (namespaces w) in
    (r, {| cluster := cluster w; namespaces := m'; now := now w; issued := issued w |}).

#[global] Instance apps : AppsV1Api World := {|
  createNamespacedDeployment ns d := onCluster (createNamespacedDeployment ns d);
  replaceNamespacedDeployment nm ns d := onCluster (replaceNamespacedDeployment nm ns d);
  readNamespacedDeployment nm ns := onCluster (readNamespacedDeployment nm ns);
  listNamespacedDeployment ns labelSelector :=
    onCluster (listNamespacedDeployment ns labelSelector) |}.

#[global] Instance core : CoreV1Api World := {|
  createNamespacedService ns s := onCluster (createNamespacedService ns s);
  readNamespacedService nm ns := onCluster (readNamespacedService nm ns) |}.

#[global] Instance networking : NetworkingV1Api World := {|
  createNamespacedIngress ns i := onCluster (createNamespacedIngress ns i);
  replaceNamespacedIngress nm ns i := onCluster (replaceNamespacedIngress nm ns i);
  readNamespacedIngress nm ns := onCluster (readNamespacedIngress nm ns) |}.

#[global] Instance namespaceApi : Provision.NamespaceApi World := {|
  Provision.readNamespace ns := onNamespaces (Provision.readNamespace ns);
  Provision.createNamespace meta := onNamespaces (Provision.createNamespace meta) |}.

#[global] Instance timer : Timer World := {|
  Date_now w := now w;
  sleep ms w :=
    {| cluster := cluster w; namespaces := namespaces w; now := now w + ms;
       issued := issued w |} |}.

(** Modelled from the spec: identifiers differ from call to call. *)
#[global] Instance uuid : Deploy.Uuid World := {|
  Deploy.uuidv4 w :=
    ("id-" +:+ pretty (issued w),
     {| cluster := cluster w; namespaces := namespaces w; now := now w;
        issued := S (issued w) |}) |}.

Definition start (c : Mem.Cluster) : World :=
  {| cluster := c; namespaces := ∅; now := 0; issued := 0 |}.

End Lab.


(* ===================================================================== *)
(** * Vocabulary of the statements *)
(* ===================================================================== *)

Import DeployAgent.

(** A resource descriptor of one of the three kinds, and the configuration
    that holds just that descriptor. *)
Inductive Descriptor :=
| DDeployment (d : Deployment)
| DService (s : Service)
| DIngress (i : Ingress).

Definition single (x : Descriptor) : KubernetesConfig :=
  match x with
  | DDeployment d => {| deployment := Some d; service := None; ingress := None |}
  | DService s => {| deployment := None; service := Some s; ingress := None |}
  | DIngress i => {| deployment := None; service := None; ingress := Some i |}
  end.

Definition descriptorName (x : Descriptor) : string :=
  match x with
  | DDeployment d => name (dep_metadata d)
  | DService s => name (svc_metadata s)
  | DIngress i => name (ing_metadata i)
  end.

Definition descriptorType (x : Descriptor) : ResourceType :=
  match x with
  | DDeployment _ => TDeployment
  | DService _ => TService
  | DIngress _ => TIngress
  end.

(** The outcome record of a descriptor with a given status. *)
Definition outcome (x : Descriptor) (st : ResourceStatus) : DeployedResource :=
  {| r_type := descriptorType x; r_name := descriptorName x; r_status := st |}.

(** The status reported on the conflict condition. *)
Definition conflictStatus (x : Descriptor) : ResourceStatus :=
  match x with
  | DDeployment _ => updated
  | DService _ => exists_
  | DIngress _ => updated
  end.

(** The creation call issued for a descriptor, and the replace call issued
    for it (none for a service). *)
Definition createCall {W} `{!AppsV1Api W, !CoreV1Api W, !NetworkingV1Api W}
    (x : Descriptor) (namespace deploymentId : string) : M W unit :=
  match x with
  | DDeployment d => createNamespacedDeployment namespace (stampDeployment d deploymentId)
  | DService s => createNamespacedService namespace (stampService s deploymentId)
  | DIngress i => createNamespacedIngress namespace (stampIngress i deploymentId)
  end.

Definition replaceCall {W} `{!AppsV1Api W, !CoreV1Api W, !NetworkingV1Api W}
    (x : Descriptor) (namespace deploymentId : string) : M W unit :=
  match x with
  | DDeployment d =>
      replaceNamespacedDeployment (name (dep_metadata d)) namespace (stampDeployment d deploymentId)
  | DService s => ret tt
  | DIngress i =>
      replaceNamespacedIngress (name (ing_metadata i)) namespace (stampIngress i deploymentId)
  end.

(** In the in-memory cluster: an object of the descriptor's name exists. *)
Definition present (x : Descriptor) (namespace : string) (c : Mem.Cluster) : Prop :=
  match x with
  | DDeployment d => is_Some (Mem.deployments c !! (namespace, name (dep_metadata d)))
  | DService s => is_Some (Mem.services c !! (namespace, name (svc_metadata s)))
  | DIngress i => is_Some (Mem.ingresses c !! (namespace, name (ing_metadata i)))
  end.

(** The cluster after the stamped descriptor was stored under its name. *)
Definition stored (x : Descriptor) (namespace deploymentId : string) (c : Mem.Cluster)
  : Mem.Cluster :=
  match x with
  | DDeployment d =>
      Mem.setDeployments
        (insert (namespace, name (dep_metadata d)) (stampDeployment d deploymentId)) c
  | DService s =>
      Mem.setServices
        (insert (namespace, name (svc_metadata s)) (stampService s deploymentId)) c
  | DIngress i =>
      Mem.setIngresses
        (insert (namespace, name (ing_metadata i)) (stampIngress i deploymentId)) c
  end.

(** The cluster after the conflict was handled: a deployment or an ingress
    is overwritten, a service stays as it was. *)
Definition afterConflict (x : Descriptor) (namespace deploymentId : string)
    (c : Mem.Cluster) : Mem.Cluster :=
  match x with
  | DService _ => c
  | _ => stored x namespace deploymentId c
  end.

(** The scheme chosen for an ingress: [ingress.spec.tls ? 'https' : 'http']. *)
Definition scheme (i : Ingress) : string :=
  match ing_spec i ?. tls with
  | Some _ => "https"
  | None => "http"
  end.

(** The first host that the rules of an ingress declare, in declaration
    order: the reading of "has at least one host rule ... the first declared
    host" in which a rule without a host is passed over. *)
Definition firstDeclaredHost (i : Ingress) : option string :=
  first (omap (fun r => if truthy_opt (host r) then host r else None)
              (default [] (ing_spec i ?. rules))).

(** ** Concrete objects *)

Module Examples.

Definition web : Deployment :=
  {| dep_metadata := {| name := "acme-web"; labels := {[ "app" := "acme-web" ]} |};
     dep_spec := Some {| replicas := Some 2; template := "registry/acme-web:1.4" |};
     dep_status := None |}.

Definition webService : Service :=
  {| svc_metadata := {| name := "acme-web-service"; labels := ∅ |};
     svc_spec := Some {| svc_type := Some "LoadBalancer";
                         clusterIP := Some "10.0.0.7";
                         ports := Some [ {| port := Some 8080 |} ] |};
     svc_status :=
       Some {| loadBalancer :=
                 Some {| lb_ingress :=
                           Some [ {| hostname := Some "b.example.com"; ip := None |} ] |} |} |}.

(** An ingress with TLS whose first rule declares the host. *)
Definition webIngress : Ingress :=
  {| ing_metadata := {| name := "acme-web-ingress"; labels := ∅ |};
     ing_spec := Some {| rules := Some [ {| host := Some "a.example.com" |} ];
                         tls := Some [ {| secretName := Some "acme-web-tls" |} ] |} |}.

(** The same ingress with a catch-all rule (no host) declared first. *)
Definition catchAllFirstIngress : Ingress :=
  {| ing_metadata := {| name := "acme-web-ingress"; labels := ∅ |};
     ing_spec := Some {| rules := Some [ {| host := None |};
                                         {| host := Some "a.example.com" |} ];
                         tls := Some [ {| secretName := Some "acme-web-tls" |} ] |} |}.

Definition clusterWith (i : Ingress) : Mem.Cluster :=
  {| Mem.deployments := {[ ("prod", "acme-web") := web ]};
     Mem.services := {[ ("prod", "acme-web-service") := webService ]};
     Mem.ingresses := {[ ("prod", "acme-web-ingress") := i ]} |}.

Definition refused : Error :=
  {| message := "connect ECONNREFUSED 10.96.0.1:443"; statusCode := None |}.

Definition serverError : Error :=
  {| message := "HTTP request failed"; statusCode := Some 500 |}.

Definition internalService : Service :=
  {| svc_metadata := {| name := "acme-web-service"; labels := ∅ |};
     svc_spec := Some {| svc_type := Some "ClusterIP";
                         clusterIP := Some "10.0.0.7";
                         ports := Some [ {| port := Some 8080 |} ] |};
     svc_status := None |}.

Definition someMetrics (healthStatus : string) (ready running : Z) : MonitorAgent.Metrics :=
  {| MonitorAgent.deployment :=
       MonitorAgent.Measured
         {| MonitorAgent.m_replicas := 2; MonitorAgent.ready_replicas := ready;
            MonitorAgent.available_replicas := ready;
            MonitorAgent.unavailable_replicas := 2 - ready;
            MonitorAgent.updated_replicas := 2 |};
     MonitorAgent.pods :=
       MonitorAgent.Measured
         {| MonitorAgent.total_pods := 2; MonitorAgent.running_pods := running;
            MonitorAgent.ready_pods := running |};
     MonitorAgent.service := MonitorAgent.Unavailable "HTTP request failed";
     MonitorAgent.health :=
       {| MonitorAgent.hc_status := healthStatus; MonitorAgent.status_code := None;
          MonitorAgent.response_time := None; MonitorAgent.hc_message := "" |} |}.

(** A script that answers every call the same way. *)
Definition constantScript (deps : result (list Deployment)) (dep : result Deployment)
    (svc : result Service) (http : result HttpResponse)
    (ms : result MonitorAgent.Metrics) : Scripted.Script :=
  {| Scripted.unit_answers := fun _ => Ok tt;
     Scripted.deployment_answers := fun _ => dep;
     Scripted.deployments_answers := fun _ => deps;
     Scripted.service_answers := fun _ => svc;
     Scripted.ingress_answers := fun _ => Throw Mem.notFound;
     Scripted.http_answers := fun _ => http;
     Scripted.metrics_answers := fun _ => ms;
     Scripted.latency := fun _ => 20 |}.

End Examples.

(** ** Aggregates of a sample sequence *)

(** The samples that pass the filter [!r.error]. *)
Definition validSamples (samples : list MonitorAgent.Sample) : list MonitorAgent.Sample :=
  filter (fun r => MonitorAgent.isValid r = true) samples.

(** The health-check success rate, in percent, of a sequence of valid
    samples. *)
Definition successRate (valid : list MonitorAgent.Sample) : Q :=
  ((inject_Z (Z.of_nat (length (filter (fun r => MonitorAgent.isHealthy r = true) valid)))
    / inject_Z (Z.of_nat (length valid))) * 100)%Q.

Definition meanReadyReplicas (valid : list MonitorAgent.Sample) : Q :=
  MonitorAgent.calculateAverage valid MonitorAgent.readyReplicasOf.

Definition meanRunningPods (valid : list MonitorAgent.Sample) : Q :=
  MonitorAgent.calculateAverage valid MonitorAgent.runningPodsOf.

(** The report returned when no valid sample remains. *)
Definition noDataReport : MonitorAgent.Report :=
  {| MonitorAgent.overall_health := "unknown";
     MonitorAgent.metrics := None;
     MonitorAgent.alerts := ["No valid monitoring data collected"];
     MonitorAgent.recommendations := ["Check monitoring configuration and connectivity"] |}.

(** [healthy] samples whose probe passed followed by [failing] samples whose
    probe failed, all with two ready replicas and two running pods. *)
Definition probeSamples (healthy failing : nat) : list MonitorAgent.Sample :=
  replicate healthy (MonitorAgent.Collected 0 (Examples.someMetrics "healthy" 2 2))
  ++ replicate failing (MonitorAgent.Collected 0 (Examples.someMetrics "unhealthy" 2 2)).

(** ** Shape of a monitoring campaign

    The calls that a campaign may record, in order: one collection per
    iteration; after a collection that returned, and only when another
    iteration follows, a pause of 30000 ms; after a collection that threw,
    no pause. *)
Inductive CampaignTrace (appName namespace : string) : list Scripted.Call -> Prop :=
| campaign_none : CampaignTrace appName namespace []
| campaign_last (answer : result MonitorAgent.Metrics) :
    CampaignTrace appName namespace [Scripted.Collect appName namespace answer]
| campaign_failed (e : Error) (rest : list Scripted.Call) :
    rest <> [] ->
    CampaignTrace appName namespace rest ->
    CampaignTrace appName namespace (Scripted.Collect appName namespace (Throw e) :: rest)
| campaign_pause (m : MonitorAgent.Metrics) (rest : list Scripted.Call) :
    rest <> [] ->
    CampaignTrace appName namespace rest ->
    CampaignTrace appName namespace
      (Scripted.Collect appName namespace (Ok m) :: Scripted.Sleep 30000 :: rest).

Definition isCollect (c : Scripted.Call) : bool :=
  match c with
  | Scripted.Collect _ _ _ => true
  | _ => false
  end.

Definition sleepCount (trace : list Scripted.Call) : nat :=
  length (List.filter Scripted.isSleep trace).

Definition collectCount (trace : list Scripted.Call) : nat :=
  length (List.filter isCollect trace).

(** ** Readiness wait *)

(** The polls still possible when [remaining] milliseconds are left before
    the deadline and each unsuccessful poll costs at least 5000 ms. *)
Definition pollsLeft (remaining : Z) : nat :=
  Z.to_nat ((Z.max 0 remaining + 4999) / 5000).

(** The calls of a readiness wait: reads of the deployment and pauses of
    5000 ms. *)
Definition isPollCall (appName namespace : string) (c : Scripted.Call) : Prop :=
  c = Scripted.Sleep 5000 \/ exists answer, c = Scripted.ReadDeployment appName namespace answer.

(** Some poll among the recorded calls observed convergence. *)
Definition observedReady (appName namespace : string) (trace : list Scripted.Call) : Prop :=
  exists d : Deployment,
    In (Scripted.ReadDeployment appName namespace (Ok d)) trace /\ isReady d = true.

(** ** Scripted runs *)

Definition notReadyYet : Deployment :=
  {| dep_metadata := dep_metadata Examples.web;
     dep_spec := dep_spec Examples.web;
     dep_status := Some {| readyReplicas := Some 1 |} |}.

Definition allReady : Deployment :=
  {| dep_metadata := dep_metadata Examples.web;
     dep_spec := dep_spec Examples.web;
     dep_status := Some {| readyReplicas := Some 2 |} |}.

(** The first read fails, the second sees one replica of two, the third and
    later ones see both; every call takes 20 ms. *)
Definition rolloutScript : Scripted.Script :=
  {| Scripted.unit_answers := fun _ => Ok tt;
     Scripted.deployment_answers :=
       fun n => match n with
                | O => Throw Examples.refused
                | 1%nat | 2%nat => Ok notReadyYet
                | _ => Ok allReady
                end;
     Scripted.deployments_answers := fun _ => Ok [];
     Scripted.service_answers := fun _ => Throw Mem.notFound;
     Scripted.ingress_answers := fun _ => Throw Mem.notFound;
     Scripted.http_answers := fun _ => Throw Examples.refused;
     Scripted.metrics_answers :=
       fun n => match n with
                | 2%nat => Throw Examples.refused
                | _ => Ok (Examples.someMetrics "healthy" 2 2)
                end;
     Scripted.latency := fun _ => 20 |}.

(** The deployment never reports all replicas ready. *)
Definition stuckScript : Scripted.Script :=
  let refused := Examples.refused in
  (Examples.constantScript (Ok []) (Ok notReadyYet) (Throw Mem.notFound)
     (Throw refused) (Throw refused)).

(** The deadline in force: [timeoutMs], 300000 ms when it is omitted. *)
Definition deadline (timeoutMs : option Z) : Z := default defaultTimeoutMs timeoutMs.

(** Tests of the loop condition that suffice for a deadline of [T] ms. *)
Definition enoughPolls (T : Z) : nat := (Z.to_nat (T / 5000) + 2)%nat.

(** ** Monitor requests *)

(** The namespace that [monitor] looks in. *)
Definition monitorNamespace (params : MonitorAgent.MonitorParams) : string :=
  default (default "staging" (MonitorAgent.environment params))
          (MonitorAgent.p_namespace params).

Definition monitorParams (id : string) : MonitorAgent.MonitorParams :=
  {| MonitorAgent.deployment_id := id; MonitorAgent.environment := None;
     MonitorAgent.p_monitoring_duration := None; MonitorAgent.p_namespace := None |}.

(** A cluster that refuses every connection. *)
Definition unreachableCluster : Scripted.World :=
  Scripted.start
    (Examples.constantScript (Throw Examples.refused) (Throw Examples.refused)
       (Throw Examples.refused) (Throw Examples.refused) (Throw Examples.refused))
    0.

(** A world where the service has a cluster address and the probe is
    answered with status [code]. *)
Definition probeWorld (code : Z) : Scripted.World :=
  Scripted.start
    (Examples.constantScript (Ok []) (Throw Mem.notFound) (Ok Examples.internalService)
       (Ok {| status := code; x_response_time := None |}) (Throw Examples.refused))
    0.

(** ** Lookup by correlation identifier *)

(** No deployment of the namespace, other than the one named [nm], carries
    the label [deployment-id = id]. *)
Definition idUnusedElsewhere (id ns nm : string) (c : Mem.Cluster) : Prop :=
  forall (k : string * string) (d : Deployment),
    Mem.deployments c !! k = Some d ->
    k <> (ns, nm) ->
    k.1 = ns ->
    labels (dep_metadata d) !! "deployment-id" <> Some id.

(** The desired replica count that a poll compares against:
    [deployment.spec?.replicas || 0]. *)
Definition desiredReplicas (d : Deployment) : Z := num_or (dep_spec d ?. replicas) 0.

(** Every deployment that the script hands out asks for no replica. *)
Definition scaledToZero (s : Scripted.Script) : Prop :=
  forall (n : nat) (d : Deployment),
    Scripted.deployment_answers s n = Ok d -> desiredReplicas d <= 0.

(** No call of the script takes longer than [L] ms. *)
Definition latencyAtMost (L : Z) (s : Scripted.Script) : Prop :=
  forall n, Scripted.latency s n <= L.

(** A deployment scaled to zero, fully converged: no replica wanted, none
    ready. *)
Definition scaledDown : Deployment :=
  {| dep_metadata := dep_metadata Examples.web;
     dep_spec := Some {| replicas := Some 0; template := "registry/acme-web:1.4" |};
     dep_status := Some {| readyReplicas := None |} |}.

Definition scaledDownScript : Scripted.Script :=
  let refused := Examples.refused in
  (Examples.constantScript (Ok []) (Ok scaledDown) (Throw Mem.notFound)
     (Throw refused) (Throw refused)).

(** ** Strings, character by character *)

Fixpoint allChars (p : ascii -> bool) (s : string) : bool :=
  match s with
  | EmptyString => true
  | String c s' => p c && allChars p s'
  end.

(** ASCII text. *)
Definition isAscii (s : string) : bool := allChars Provision.isAsciiChar s.

(** The extensions, without the dot, of the files that tests are generated
    for, and the frameworks that the agent knows. *)
Definition testedExtensions : list string := ["js"; "ts"; "py"; "java"; "go"; "rb"].
Definition knownFrameworks : list string := ["Jest"; "pytest"; "JUnit"; "testing"; "RSpec"].

Definition testWith (content : string) : TestWriterAgent.GeneratedTest :=
  {| TestWriterAgent.original_file := "src/app.js";
     TestWriterAgent.test_file := TestWriterAgent.Str "src/app.test.js";
     TestWriterAgent.test_content := content;
     TestWriterAgent.framework := TestWriterAgent.Str "Jest" |}.

(** ** Manifests applied by the image handler *)

(** No deployment of the namespace carries the label [deployment-id = id]. *)
Definition idUnused (id ns : string) (c : Mem.Cluster) : Prop :=
  forall (k : string * string) (d : Deployment),
    Mem.deployments c !! k = Some d ->
    k.1 = ns ->
    labels (dep_metadata d) !! "deployment-id" <> Some id.

Definition handlerParams (cfg : KubernetesConfig) (ns : string)
  : DockerHandlerAgent.DeployParams :=
  {| DockerHandlerAgent.k8s_manifests := cfg;
     DockerHandlerAgent.p_namespace := Some ns |}.

(** ** Samples of a campaign *)

Definition isCollected (r : MonitorAgent.Sample) : bool :=
  match r with
  | MonitorAgent.Collected _ _ => true
  | MonitorAgent.Failure _ _ => false
  end.

(** The three statuses that a liveness probe can record. *)
Definition probeStatuses : list string := ["healthy"; "unhealthy"; "unknown"].

(** The duration that [monitor] runs for: [monitoring_duration = 300]. *)
Definition monitorDuration (params : MonitorAgent.MonitorParams) : Z :=
  default 300 (MonitorAgent.p_monitoring_duration params).

(** ** Frozen clusters *)

(** The deployment is found by its identifier, and every later read is
    refused. *)
Definition blackout : Snapshot.World :=
  {| Snapshot.the_deployments := Ok [Examples.web];
     Snapshot.the_deployment := Throw Examples.refused;
     Snapshot.the_pods := Throw Examples.refused;
     Snapshot.the_service := Throw Examples.refused;
     Snapshot.the_endpoints := Throw Examples.refused;
     Snapshot.the_response := Throw Examples.refused;
     Snapshot.the_time := 0 |}.

Definition podIn (nm : string) (phase : option string) (readyStatus : string)
  : Collector.Pod :=
  {| Collector.pod_metadata := {| name := nm; labels := {[ "app" := "acme-web" ]} |};
     Collector.pod_status :=
       Some {| Collector.phase := phase;
               Collector.pod_conditions :=
                 Some [ {| Collector.c_type := Some "Initialized";
                           Collector.c_status := Some "True" |};
                        {| Collector.c_type := Some "Ready";
                           Collector.c_status := Some readyStatus |} ];
               Collector.containerStatuses :=
                 Some [ {| Collector.restartCount := Some 3 |} ] |};
     Collector.pod_spec :=
       Some {| Collector.containers :=
                 Some [ {| Collector.resources :=
                             Some {| Collector.requests :=
                                       Some {| Collector.cpu := Some "100m";
                                               Collector.memory := Some "128Mi" |};
                                     Collector.limits :=
                                       Some {| Collector.cpu := Some "2";
                                               Collector.memory := Some "1Gi" |} |} |} ] |} |}.

(** Two pods, one of them running and ready, behind a service that answers
    the probe. *)
Definition steady : Snapshot.World :=
  {| Snapshot.the_deployments := Ok [Examples.web];
     Snapshot.the_deployment :=
       Ok {| Collector.base := allReady;
             Collector.availableReplicas := Some 2;
             Collector.unavailableReplicas := None;
             Collector.updatedReplicas := Some 2;
             Collector.conditions := None |};
     Snapshot.the_pods :=
       Ok [ podIn "acme-web-7d4f-abcde" (Some "Running") "True";
            podIn "acme-web-7d4f-fghij" (Some "Pending") "False" ];
     Snapshot.the_service := Ok Examples.internalService;
     Snapshot.the_endpoints :=
       Ok {| Collector.subsets :=
               Some [ {| Collector.addresses := Some ["10.1.0.4"];
                         Collector.notReadyAddresses := Some ["10.1.0.5"] |} ] |};
     Snapshot.the_response := Ok {| status := 200; x_response_time := Some "12ms" |};
     Snapshot.the_time := 0 |}.

Definition monitorFor (id : string) (seconds : Z) : MonitorAgent.MonitorParams :=
  {| MonitorAgent.deployment_id := id; MonitorAgent.environment := Some "prod";
     MonitorAgent.p_monitoring_duration := Some seconds;
     MonitorAgent.p_namespace := None |}.

Definition data_points_of (res : MonitorAgent.MonitorResult) : option nat :=
  MonitorAgent.data_points <$> MonitorAgent.res_metrics res.

(** ** Decimal numerals *)

Definition digitChar (d : Z) : ascii := ascii_of_N (Z.to_N (48 + d)).

Fixpoint numeral (ds : list Z) : string :=
  match ds with
  | [] => EmptyString
  | d :: ds' => String (digitChar d) (numeral ds')
  end.

(** The number that a list of decimal digits denotes, most significant
    digit first. *)
Definition numeralValue (ds : list Z) : Z := foldl (fun acc d => acc * 10 + d) 0 ds.

Definition isDigit (d : Z) : Prop := 0 <= d < 10.

(** [environment = 'staging'] and [namespace = environment] of a request. *)
Definition environmentOf (params : Deploy.Params) : string :=
  default "staging" (Deploy.environment params).

Definition namespaceOf (params : Deploy.Params) : string :=
  default (environmentOf params) (Deploy.namespace params).

(** The live cluster at a later time, nothing else changed. *)
Definition atTime (t : Z) (w : Lab.World) : Lab.World :=
  {| Lab.cluster := Lab.cluster w; Lab.namespaces := Lab.namespaces w;
     Lab.now := t; Lab.issued := Lab.issued w |}.

(** No deployment of that name in the namespace. *)
Definition noDeployment (ns nm : string) (w : Lab.World) : Prop :=
  Mem.deployments (Lab.cluster w) !! (ns, nm) = None.


(** A request for the environment [prod] with nothing else set. *)
Definition requestFor (repository : option string) (cfg : option KubernetesConfig)
  : Deploy.Params :=
  {| Deploy.repository := repository; Deploy.image_tag := None;
     Deploy.environment := Some "prod"; Deploy.kubernetes_config := cfg;
     Deploy.namespace := None |}.

(** A configuration with the deployment descriptor only. *)
Definition onlyDeployment (d : Deployment) : KubernetesConfig :=
  {| deployment := Some d; service := None; ingress := None |}.


(** A deployment descriptor named as the repository [acme/site] is, and
    carrying a converged status. *)
Definition siteDeployment : Deployment :=
  {| dep_metadata := {| name := "acme-site"; labels := ∅ |};
     dep_spec := Some {| replicas := Some 1; template := "registry/acme-site:1.0" |};
     dep_status := Some {| readyReplicas := Some 1 |} |}.


(* ===================================================================== *)
(** * Properties *)
(* ===================================================================== *)

(** ** Resource applier *)

Section Applier.
Context {W : Type}.
Context `{!AppsV1Api W, !CoreV1Api W, !NetworkingV1Api W}.

(** What [deployToKubernetes] does with a single descriptor, in terms of
    the two calls it may issue. *)
Lemma deployToKubernetes_single (x : Descriptor) (ns app id : string) (w : W) :
  deployToKubernetes (single x) ns app id w =
  match createCall x ns id w with
  | (Ok _, w1) => (Ok [outcome x created], w1)
  | (Throw e, w1) =>
      if isConflict e then
        match replaceCall x ns id w1 with
        | (Ok _, w2) => (Ok [outcome x (conflictStatus x)], w2)
        | (Throw e', w2) => (Throw e', w2)
        end
      else (Throw e, w1)
  end.
Proof.
  destruct x as [d|s|i]; cbn -[isConflict stampDeployment stampService stampIngress];
    unfold deployToKubernetes, applyDeployment, applyService, applyIngress,
      bind, try_catch, ret, throw;
    cbn -[isConflict stampDeployment stampService stampIngress].
  - destruct (createNamespacedDeployment _ _ w) as [[[]|e] w1]; [done|].
    destruct (isConflict e); [|done].
    by destruct (replaceNamespacedDeployment _ _ _ w1) as [[[]|e'] w2].
  - destruct (createNamespacedService _ _ w) as [[[]|e] w1]; [done|].
    by destruct (isConflict e).
  - destruct (createNamespacedIngress _ _ w) as [[[]|e] w1]; [done|].
    destruct (isConflict e); [|done].
    by destruct (replaceNamespacedIngress _ _ _ w1) as [[[]|e'] w2].
Qed.

End Applier.

(** The two calls in the in-memory cluster. *)
Lemma Mem_createCall_present (x : Descriptor) (ns id : string) (c : Mem.Cluster) :
  present x ns c -> createCall x ns id c = (Throw Mem.conflict, c).
Proof.
  destruct x as [d|s|i]; intros [old Hold]; cbn in *; by rewrite Hold.
Qed.

Lemma Mem_createCall_absent (x : Descriptor) (ns id : string) (c : Mem.Cluster) :
  ~ present x ns c -> createCall x ns id c = (Ok tt, stored x ns id c).
Proof.
  destruct x as [d|s|i]; intros Habs; cbn in *.
  - destruct (Mem.deployments c !! _) eqn:E; [by destruct Habs; eauto | done].
  - destruct (Mem.services c !! _) eqn:E; [by destruct Habs; eauto | done].
  - destruct (Mem.ingresses c !! _) eqn:E; [by destruct Habs; eauto | done].
Qed.

Lemma Mem_replaceCall_present (x : Descriptor) (ns id : string) (c : Mem.Cluster) :
  present x ns c -> replaceCall x ns id c = (Ok tt, afterConflict x ns id c).
Proof.
  destruct x as [d|s|i]; intros [old Hold]; cbn in *; [by rewrite Hold | done | by rewrite Hold].
Qed.

Lemma present_stored (x : Descriptor) (ns id : string) (c : Mem.Cluster) :
  present x ns (stored x ns id c).
Proof.
  destruct x as [d|s|i]; cbn; rewrite lookup_insert_eq; by eexists.
Qed.

Lemma conflictStatus_not_created (x : Descriptor) : conflictStatus x <> created.
Proof. by destruct x. Qed.

(** C2.  For every resource descriptor [x]:
    - on the conflict condition (the creation call fails with status 409),
      whatever the cluster API does, [deployToKubernetes] reports the
      descriptor as [updated] (deployment, ingress) or [exists] (service),
      never as [created]; the only error it can then raise is the one of
      the replace call, unchanged;
    - in a cluster where an object of that name exists, the call returns
      normally with that status; a deployment or an ingress is overwritten
      by the stamped descriptor, a service leaves the cluster as it was;
    - applying the descriptor twice in succession, starting where the name
      is free, yields [created], then [updated] or [exists];
    - a creation failure other than the conflict is raised to the caller
      unchanged. *)
Theorem deployToKubernetes_create_or_update (x : Descriptor) (ns app : string) :
  (forall (W : Type) (A : AppsV1Api W) (C : CoreV1Api W) (N : NetworkingV1Api W)
          (id : string) (w w1 : W) (e : Error),
      createCall x ns id w = (Throw e, w1) ->
      statusCode e = Some 409 ->
      match deployToKubernetes (single x) ns app id w with
      | (Ok rs, _) => rs = [outcome x (conflictStatus x)] /\
                      Forall (fun r => r_status r <> created) rs
      | (Throw e', w2) => replaceCall x ns id w1 = (Throw e', w2)
      end) /\
  (forall (c : Mem.Cluster) (id : string),
      present x ns c ->
      deployToKubernetes (single x) ns app id c
      = (Ok [outcome x (conflictStatus x)], afterConflict x ns id c)) /\
  (forall (c : Mem.Cluster) (id1 id2 : string),
      ~ present x ns c ->
      let c1 := stored x ns id1 c in
      deployToKubernetes (single x) ns app id1 c = (Ok [outcome x created], c1) /\
      deployToKubernetes (single x) ns app id2 c1
      = (Ok [outcome x (conflictStatus x)], afterConflict x ns id2 c1)) /\
  (forall (W : Type) (A : AppsV1Api W) (C : CoreV1Api W) (N : NetworkingV1Api W)
          (id : string) (w w1 : W) (e : Error),
      createCall x ns id w = (Throw e, w1) ->
      statusCode e <> Some 409 ->
      deployToKubernetes (single x) ns app id w = (Throw e, w1)) /\
  conflictStatus x <> created.
Proof.
  assert (Hexists : forall (c : Mem.Cluster) (id : string),
             present x ns c ->
             deployToKubernetes (single x) ns app id c
             = (Ok [outcome x (conflictStatus x)], afterConflict x ns id c)).
  { intros c id Hp. rewrite deployToKubernetes_single.
    rewrite (Mem_createCall_present _ _ _ _ Hp). cbn.
    by rewrite (Mem_replaceCall_present _ _ _ _ Hp). }
  repeat split.
  - intros W A C N id w w1 e Hcreate Hcode.
    rewrite deployToKubernetes_single, Hcreate.
    unfold isConflict. rewrite bool_decide_eq_true_2 by done.
    destruct (replaceCall x ns id w1) as [[[]|e'] w2]; [|done].
    split; [done|]. repeat constructor. cbn. apply conflictStatus_not_created.
  - exact Hexists.
  - rewrite deployToKubernetes_single. by rewrite Mem_createCall_absent.
  - apply Hexists, present_stored.
  - intros W A C N id w w1 e Hcreate Hcode.
    rewrite deployToKubernetes_single, Hcreate.
    unfold isConflict. by rewrite bool_decide_eq_false_2.
  - apply conflictStatus_not_created.
Qed.

Lemma deployToKubernetes_create_or_update_witness :
  ~ present (DDeployment Examples.web) "prod" Mem.empty /\
  deployToKubernetes (single (DDeployment Examples.web)) "prod" "acme-web" "id-1" Mem.empty
  = (Ok [ {| r_type := TDeployment; r_name := "acme-web"; r_status := created |} ],
     stored (DDeployment Examples.web) "prod" "id-1" Mem.empty) /\
  deployToKubernetes (single (DDeployment Examples.web)) "prod" "acme-web" "id-2"
    (stored (DDeployment Examples.web) "prod" "id-1" Mem.empty)
  = (Ok [ {| r_type := TDeployment; r_name := "acme-web"; r_status := updated |} ],
     stored (DDeployment Examples.web) "prod" "id-2"
       (stored (DDeployment Examples.web) "prod" "id-1" Mem.empty)).
Proof.
  assert (Habs : ~ present (DDeployment Examples.web) "prod" Mem.empty).
  { cbn. rewrite lookup_empty. intros [? ?]; discriminate. }
  split; [exact Habs|].
  exact (proj1 (proj2 (proj2
           (deployToKubernetes_create_or_update (DDeployment Examples.web) "prod" "acme-web")))
         Mem.empty "id-1" "id-2" Habs).
Defined.

(** The whole configuration applied twice to an empty cluster, under two
    correlation identifiers: the service keeps the labels of the first
    invocation, the deployment and the ingress take those of the second. *)
Example deployToKubernetes_twice :
  let cfg := {| deployment := Some Examples.web;
                service := Some Examples.webService;
                ingress := Some Examples.webIngress |} in
  let '(first_run, c1) := deployToKubernetes cfg "prod" "acme-web" "id-1" Mem.empty in
  let '(second_run, c2) := deployToKubernetes cfg "prod" "acme-web" "id-2" c1 in
  first_run = Ok [ {| r_type := TDeployment; r_name := "acme-web"; r_status := created |};
                   {| r_type := TService; r_name := "acme-web-service"; r_status := created |};
                   {| r_type := TIngress; r_name := "acme-web-ingress"; r_status := created |} ] /\
  second_run = Ok [ {| r_type := TDeployment; r_name := "acme-web"; r_status := updated |};
                    {| r_type := TService; r_name := "acme-web-service"; r_status := exists_ |};
                    {| r_type := TIngress; r_name := "acme-web-ingress"; r_status := updated |} ] /\
  Mem.services c2 = Mem.services c1 /\
  (labels ∘ dep_metadata <$> Mem.deployments c2 !! ("prod", "acme-web"))
    ≫= (.!! "deployment-id") = Some "id-2" /\
  (labels ∘ svc_metadata <$> Mem.services c2 !! ("prod", "acme-web-service"))
    ≫= (.!! "deployment-id") = Some "id-1".
Proof. vm_compute. repeat split. Qed.

(** A failure of the create call that is not the conflict reaches the
    caller as it is, and nothing is reported. *)
Example deployToKubernetes_server_error :
  let script :=
    {| Scripted.unit_answers := fun _ => Throw Examples.serverError;
       Scripted.deployment_answers := fun _ => Throw Examples.serverError;
       Scripted.deployments_answers := fun _ => Throw Examples.serverError;
       Scripted.service_answers := fun _ => Throw Examples.serverError;
       Scripted.ingress_answers := fun _ => Throw Examples.serverError;
       Scripted.http_answers := fun _ => Throw Examples.serverError;
       Scripted.metrics_answers := fun _ => Throw Examples.serverError;
       Scripted.latency := fun _ => 20 |} in
  let run := deployToKubernetes (single (DService Examples.webService)) "prod" "acme-web"
               "id-1" (Scripted.start script 0) in
  fst run = Throw Examples.serverError /\
  Scripted.calls (snd run)
  = [ Scripted.Mutation "createNamespacedService" "acme-web-service" "prod"
        (Throw Examples.serverError) ].
Proof. split; reflexivity. Qed.

(** ** Address resolver *)

Lemma clusterLocalUrl_nonempty (app ns : string) : clusterLocalUrl app ns <> "".
Proof. done. Qed.

Lemma serviceTiers_nonempty (app ns : string) (s : Service) : serviceTiers app ns s <> "".
Proof.
  unfold serviceTiers.
  destruct (if bool_decide _ then _ else _); [done|].
  by destruct (_ && _).
Qed.

Section Resolver.
Context {W : Type}.
Context `{!CoreV1Api W, !NetworkingV1Api W}.

(** The ingress tier never throws: it yields a URL or passes. *)
Lemma ingressTier_total (app ns : string) (w : W) :
  exists (o : option string) (w1 : W),
    ingressTier app ns w = (Ok o, w1) /\
    snd (readNamespacedIngress (app +:+ "-ingress") ns w) = w1 /\
    (forall url, o = Some url -> url <> "").
Proof.
  unfold ingressTier, try_catch, bind, ret.
  destruct (readNamespacedIngress _ ns w) as [[i|e] w1]; cbn.
  - destruct (truthy_opt (firstRuleHost i)).
    + eexists _, _. split; [done|]. split; [done|].
      intros url [= <-]. by destruct (ing_spec i ?. tls).
    + eexists _, _. by repeat split.
  - eexists _, _. by repeat split.
Qed.

Lemma ingressTier_error (app ns : string) (w w1 : W) (e : Error) :
  readNamespacedIngress (app +:+ "-ingress") ns w = (Throw e, w1) ->
  ingressTier app ns w = (Ok None, w1).
Proof. intros H. unfold ingressTier, try_catch, bind. by rewrite H. Qed.

Lemma ingressTier_first_host (app ns : string) (w w1 : W) (i : Ingress)
    (h : string) (others : list IngressRule) :
  readNamespacedIngress (app +:+ "-ingress") ns w = (Ok i, w1) ->
  ing_spec i ?. rules = Some ({| host := Some h |} :: others) ->
  truthy h = true ->
  ingressTier app ns w = (Ok (Some (scheme i +:+ "://" +:+ h)), w1).
Proof.
  intros Hread Hrules Hh. unfold ingressTier, try_catch, bind, firstRuleHost.
  rewrite Hread, Hrules. cbn. by rewrite Hh.
Qed.

Lemma ingressTier_no_first_host (app ns : string) (w w1 : W) (i : Ingress) :
  readNamespacedIngress (app +:+ "-ingress") ns w = (Ok i, w1) ->
  truthy_opt (firstRuleHost i) = false ->
  ingressTier app ns w = (Ok None, w1).
Proof.
  intros Hread Hh. unfold ingressTier, try_catch, bind. by rewrite Hread, Hh.
Qed.

(** C6.  [getServiceUrl] always returns, and what it returns is not the
    empty string.  An error of the ingress lookup is swallowed and the
    service tiers are tried; an error of the service lookup is swallowed
    too; when both lookups fail the cluster-local name
    [http://{appName}-service.{namespace}.svc.cluster.local] is returned. *)
Theorem getServiceUrl_always_resolves (app ns env : string) (w : W) :
  (exists (url : string) (w' : W),
      getServiceUrl app ns env w = (Ok url, w') /\ url <> "") /\
  (forall (e1 e2 : Error) (w1 w2 : W),
      readNamespacedIngress (app +:+ "-ingress") ns w = (Throw e1, w1) ->
      readNamespacedService (app +:+ "-service") ns w1 = (Throw e2, w2) ->
      getServiceUrl app ns env w
      = (Ok ("http://" +:+ app +:+ "-service." +:+ ns +:+ ".svc.cluster.local"), w2)) /\
  (forall (e1 : Error) (s : Service) (w1 w2 : W),
      readNamespacedIngress (app +:+ "-ingress") ns w = (Throw e1, w1) ->
      readNamespacedService (app +:+ "-service") ns w1 = (Ok s, w2) ->
      getServiceUrl app ns env w = (Ok (serviceTiers app ns s), w2)) /\
  (forall (i : Ingress) (e2 : Error) (w1 w2 : W),
      readNamespacedIngress (app +:+ "-ingress") ns w = (Ok i, w1) ->
      truthy_opt (firstRuleHost i) = false ->
      readNamespacedService (app +:+ "-service") ns w1 = (Throw e2, w2) ->
      getServiceUrl app ns env w = (Ok (clusterLocalUrl app ns), w2)).
Proof.
  repeat split.
  - destruct (ingressTier_total app ns w) as (o & w1 & Htier & _ & Hne).
    unfold getServiceUrl, try_catch, bind, ret. rewrite Htier.
    destruct o as [url|].
    + eexists _, _. split; [done|]. by apply Hne.
    + destruct (readNamespacedService _ ns w1) as [[s|e] w2].
      * eexists _, _. split; [done|]. apply serviceTiers_nonempty.
      * eexists _, _. split; [done|]. apply clusterLocalUrl_nonempty.
  - intros e1 e2 w1 w2 Hing Hsvc.
    unfold getServiceUrl, try_catch, bind, ret.
    by rewrite (ingressTier_error _ _ _ _ _ Hing), Hsvc.
  - intros e1 s w1 w2 Hing Hsvc.
    unfold getServiceUrl, try_catch, bind, ret.
    by rewrite (ingressTier_error _ _ _ _ _ Hing), Hsvc.
  - intros i e2 w1 w2 Hing Hhost Hsvc.
    unfold getServiceUrl, try_catch, bind, ret.
    by rewrite (ingressTier_no_first_host _ _ _ _ _ Hing Hhost), Hsvc.
Qed.

(** C7, as the code has it.  When the ingress exists and its first rule
    declares a non-empty host, [getServiceUrl] returns that host, with
    [https://] when the ingress has a [tls] field and [http://]
    otherwise; the service is not even looked up, so no service, of
    whatever type, can take precedence. *)
Theorem getServiceUrl_first_rule_host_wins (app ns env : string) (w w1 : W)
    (i : Ingress) (h : string) (others : list IngressRule) :
  readNamespacedIngress (app +:+ "-ingress") ns w = (Ok i, w1) ->
  ing_spec i ?. rules = Some ({| host := Some h |} :: others) ->
  truthy h = true ->
  getServiceUrl app ns env w = (Ok (scheme i +:+ "://" +:+ h), w1) /\
  (is_Some (ing_spec i ?. tls) -> scheme i = "https") /\
  (ing_spec i ?. tls = None -> scheme i = "http").
Proof.
  intros Hread Hrules Hh. split.
  - unfold getServiceUrl, try_catch, bind, ret.
    by rewrite (ingressTier_first_host _ _ _ _ _ _ _ Hread Hrules Hh).
  - unfold scheme. split.
    + by intros [t ->].
    + by intros ->.
Qed.

End Resolver.

Lemma getServiceUrl_always_resolves_witness :
  readNamespacedIngress ("acme-web" +:+ "-ingress") "prod" Mem.empty
  = (Throw Mem.notFound, Mem.empty) /\
  readNamespacedService ("acme-web" +:+ "-service") "prod" Mem.empty
  = (Throw Mem.notFound, Mem.empty) /\
  getServiceUrl "acme-web" "prod" "prod" Mem.empty
  = (Ok "http://acme-web-service.prod.svc.cluster.local", Mem.empty).
Proof.
  split; [reflexivity|]. split; [reflexivity|].
  exact (proj1 (proj2 (getServiceUrl_always_resolves "acme-web" "prod" "prod" Mem.empty))
           Mem.notFound Mem.notFound Mem.empty Mem.empty eq_refl eq_refl).
Defined.

(** The example of the specification: ingress host [a.example.com] with TLS
    and a load-balanced service at [b.example.com]. *)
Lemma getServiceUrl_first_rule_host_wins_witness :
  getServiceUrl "acme-web" "prod" "prod" (Examples.clusterWith Examples.webIngress)
  = (Ok "https://a.example.com", Examples.clusterWith Examples.webIngress).
Proof.
  pose (c := Examples.clusterWith Examples.webIngress).
  exact (proj1 (getServiceUrl_first_rule_host_wins "acme-web" "prod" "prod" c c
                  (Examples.webIngress) "a.example.com" [] eq_refl eq_refl eq_refl)).
Defined.

(** C7, as stated, fails: the ingress below exists, has a host rule (its
    second rule declares [a.example.com]) and TLS, yet the address of the
    load-balanced service is returned, because only the first rule is
    inspected. *)
Lemma getServiceUrl_catch_all_first_rule :
  readNamespacedIngress "acme-web-ingress" "prod"
    (Examples.clusterWith Examples.catchAllFirstIngress)
  = (Ok Examples.catchAllFirstIngress, Examples.clusterWith Examples.catchAllFirstIngress) /\
  firstDeclaredHost Examples.catchAllFirstIngress = Some "a.example.com" /\
  scheme Examples.catchAllFirstIngress = "https" /\
  getServiceUrl "acme-web" "prod" "prod" (Examples.clusterWith Examples.catchAllFirstIngress)
  = (Ok "http://b.example.com:8080", Examples.clusterWith Examples.catchAllFirstIngress) /\
  fst (getServiceUrl "acme-web" "prod" "prod"
         (Examples.clusterWith Examples.catchAllFirstIngress))
  <> Ok "https://a.example.com".
Proof. repeat split; vm_compute; congruence. Qed.

(** ** Rollback controller *)

(** When the lookup by the [deployment-id] label returns no deployment,
    [rollback] fails with the not-found error and issues no further call:
    the world is the one the lookup left (for every cluster API), the
    recorded calls are the list call alone, and the in-memory cluster is
    unchanged. *)
Lemma rollback_not_found (id ns : string) :
  (forall (W : Type) (A : AppsV1Api W) (w w1 : W),
      listNamespacedDeployment ns ("deployment-id=" +:+ id) w = (Ok [], w1) ->
      rollback id ns w = (Throw (notFoundError id), w1)) /\
  (forall (w : Scripted.World),
      Scripted.deployments_answers (Scripted.script w) (length (Scripted.calls w)) = Ok [] ->
      exists w' : Scripted.World,
        rollback id ns w = (Throw (notFoundError id), w') /\
        Scripted.calls w'
        = Scripted.calls w ++ [Scripted.ListDeployments ns ("deployment-id=" +:+ id) (Ok [])] /\
        filter (fun c => Scripted.isMutation c = true) (Scripted.calls w')
        = filter (fun c => Scripted.isMutation c = true) (Scripted.calls w)) /\
  (forall (c : Mem.Cluster),
      fst (listNamespacedDeployment ns ("deployment-id=" +:+ id) c) = Ok [] ->
      rollback id ns c = (Throw (notFoundError id), c)).
Proof.
  assert (Hnone : forall (W : Type) (A : AppsV1Api W) (w w1 : W),
             listNamespacedDeployment ns ("deployment-id=" +:+ id) w = (Ok [], w1) ->
             rollback id ns w = (Throw (notFoundError id), w1)).
  { intros W A w w1 Hlist. unfold rollback, bind. by rewrite Hlist. }
  repeat split.
  - exact Hnone.
  - intros w Hanswer. eexists. split; [|split].
    + apply Hnone. cbn. unfold Scripted.call. rewrite Hanswer. reflexivity.
    + reflexivity.
    + cbn. rewrite filter_app. cbn. case_decide; [done|]. by rewrite app_nil_r.
  - intros c Hlist. apply Hnone.
    cbn in *. by rewrite Hlist.
Qed.

(** When the lookup returns one or more deployments, [rollback] throws the
    [TypeError] of the missing client method, for every cluster API, and
    the world is the one the lookup left: no request is issued for the
    first match, nor for any other. *)
Lemma rollback_first_match (W : Type) (A : AppsV1Api W) (id ns : string) (w w1 : W)
    (d : Deployment) (ds : list Deployment) :
  listNamespacedDeployment ns ("deployment-id=" +:+ id) w = (Ok (d :: ds), w1) ->
  rollback id ns w
  = (Throw (notAFunction "this.k8sApi.createNamespacedDeploymentRollback"), w1).
Proof. intros Hlist. unfold rollback, bind, callMissing, throw. by rewrite Hlist. Qed.

(** C8.  The code at the failing input.  In the namespace [prod] the
    deployment [acme-web] carries the identifier [id-7], and the lookup by
    label returns it as the only match.  [rollback "id-7" "prod"] then
    throws [this.k8sApi.createNamespacedDeploymentRollback is not a function]
    and leaves the cluster as it was: the revision-rollback request that
    the claim expects for the first match is never issued.  With no match
    (the empty cluster) it throws the not-found error, as the claim says. *)
Theorem rollback_with_a_match_throws :
  let c := stored (DDeployment Examples.web) "prod" "id-7" Mem.empty in
  listNamespacedDeployment "prod" "deployment-id=id-7" c
  = (Ok [stampDeployment Examples.web "id-7"], c) /\
  rollback "id-7" "prod" c
  = (Throw (notAFunction "this.k8sApi.createNamespacedDeploymentRollback"), c) /\
  (forall r : RollbackResult, fst (rollback "id-7" "prod" c) <> Ok r) /\
  rollback "id-7" "prod" Mem.empty = (Throw (notFoundError "id-7"), Mem.empty).
Proof.
  intros c.
  assert (Hlist : listNamespacedDeployment "prod" "deployment-id=id-7" c
                  = (Ok [stampDeployment Examples.web "id-7"], c)) by reflexivity.
  pose proof (rollback_first_match _ _ "id-7" "prod" c c _ _ Hlist) as Hrun.
  split; [exact Hlist|]. split; [exact Hrun|]. split.
  - intros r. by rewrite Hrun.
  - exact (proj2 (proj2 (rollback_not_found "id-7" "prod")) Mem.empty eq_refl).
Qed.

(** ** Monitor: lookup and liveness probe *)

Section MonitorLookup.
Context {W : Type}.
Context `{!AppsV1Api W, !Timer W}.
Variable collectMetrics : string -> string -> M W MonitorAgent.Metrics.
Variable GRAFANA_URL : option string.

(** C9, as the code has it.  An error raised by the cluster API during the
    lookup of [monitor] (whatever its status code) is caught by
    [findDeploymentById], which returns [null]; [monitor] then fails with
    "Deployment with ID ... not found", the same failure as for a lookup
    that succeeds with zero matches.  The error of the cluster API is not
    what the caller receives. *)
Theorem monitor_lookup_error_reported_as_not_found
    (params : MonitorAgent.MonitorParams) (w w1 : W) (e : Error) :
  listNamespacedDeployment (monitorNamespace params)
    ("deployment-id=" +:+ MonitorAgent.deployment_id params) w = (Throw e, w1) ->
  MonitorAgent.findDeploymentById (MonitorAgent.deployment_id params)
    (monitorNamespace params) w = (Ok None, w1) /\
  MonitorAgent.monitor collectMetrics GRAFANA_URL params w
  = (Throw (MonitorAgent.deploymentNotFound (MonitorAgent.deployment_id params)), w1) /\
  (forall w0 w2 : W,
      listNamespacedDeployment (monitorNamespace params)
        ("deployment-id=" +:+ MonitorAgent.deployment_id params) w0 = (Ok [], w2) ->
      MonitorAgent.monitor collectMetrics GRAFANA_URL params w0
      = (Throw (MonitorAgent.deploymentNotFound (MonitorAgent.deployment_id params)), w2)).
Proof.
  intros Hlist.
  assert (Hfind : MonitorAgent.findDeploymentById (MonitorAgent.deployment_id params)
                    (monitorNamespace params) w = (Ok None, w1)).
  { unfold MonitorAgent.findDeploymentById, try_catch, bind. by rewrite Hlist. }
  split; [exact Hfind|]. split.
  - unfold MonitorAgent.monitor, bind. fold (monitorNamespace params).
    by rewrite Hfind.
  - intros w0 w2 Hempty.
    unfold MonitorAgent.monitor, bind. fold (monitorNamespace params).
    unfold MonitorAgent.findDeploymentById, try_catch, bind. by rewrite Hempty.
Qed.

End MonitorLookup.

Lemma monitor_lookup_error_reported_as_not_found_witness :
  fst (MonitorAgent.monitor Scripted.collectMetrics None (monitorParams "id-7")
         unreachableCluster)
  = Throw {| message := "Deployment with ID id-7 not found"; statusCode := None |}.
Proof.
  exact (f_equal fst
           (proj1 (proj2 (monitor_lookup_error_reported_as_not_found
                            Scripted.collectMetrics None (monitorParams "id-7")
                            unreachableCluster _ Examples.refused eq_refl)))).
Defined.

(** C9, as stated, fails: the lookup of [monitor] is refused by the cluster
    with a connection error, and the caller receives the not-found failure
    instead of that error. *)
Lemma monitor_masks_cluster_error :
  fst (listNamespacedDeployment "staging" "deployment-id=id-7" unreachableCluster)
  = Throw Examples.refused /\
  fst (MonitorAgent.monitor Scripted.collectMetrics None (monitorParams "id-7")
         unreachableCluster)
  = Throw (MonitorAgent.deploymentNotFound "id-7") /\
  fst (MonitorAgent.monitor Scripted.collectMetrics None (monitorParams "id-7")
         unreachableCluster)
  <> Throw Examples.refused.
Proof. repeat split; vm_compute; congruence. Qed.

Section Probe.
Context {W : Type}.
Context `{!CoreV1Api W, !Axios W}.

(** The monitor's own address lookup never throws. *)
Lemma Monitor_getServiceUrl_total (app ns : string) (w : W) :
  exists (o : option string) (w1 : W), MonitorAgent.getServiceUrl app ns w = (Ok o, w1).
Proof.
  unfold MonitorAgent.getServiceUrl, try_catch, bind, ret.
  destruct (readNamespacedService _ ns w) as [[s|e] w1]; [|by eexists _, _].
  destruct (_ && _); by eexists _, _.
Qed.

(** C10.  [performHealthCheck] always returns a result.  Its status is
    ['healthy'] exactly when an address was found and the request to
    [{address}/health] was answered with status code 200.  Every other
    status code, 201 and 204 included, gives ['unhealthy'] with the code
    kept in [status_code]; a request that throws gives ['unhealthy'] as
    well, and the error is not propagated. *)
Theorem performHealthCheck_healthy_iff_200 (app ns : string) (w : W) :
  exists (hc : MonitorAgent.HealthCheck) (w' : W),
    MonitorAgent.performHealthCheck app ns w = (Ok hc, w') /\
    (MonitorAgent.hc_status hc = "healthy" <->
     exists (url : string) (w1 : W) (response : HttpResponse),
       MonitorAgent.getServiceUrl app ns w = (Ok (Some url), w1) /\
       axios_get (url +:+ "/health") w1 = (Ok response, w') /\
       status response = 200) /\
    (forall (url : string) (w1 w2 : W) (response : HttpResponse),
        MonitorAgent.getServiceUrl app ns w = (Ok (Some url), w1) ->
        axios_get (url +:+ "/health") w1 = (Ok response, w2) ->
        status response <> 200 ->
        MonitorAgent.hc_status hc = "unhealthy" /\
        MonitorAgent.status_code hc = Some (status response)) /\
    (forall (url : string) (w1 w2 : W) (e : Error),
        MonitorAgent.getServiceUrl app ns w = (Ok (Some url), w1) ->
        axios_get (url +:+ "/health") w1 = (Throw e, w2) ->
        MonitorAgent.hc_status hc = "unhealthy" /\
        MonitorAgent.status_code hc = None /\ w' = w2).
Proof.
  destruct (Monitor_getServiceUrl_total app ns w) as (o & w1 & Hurl).
  unfold MonitorAgent.performHealthCheck, try_catch, bind, ret. rewrite Hurl.
  destruct o as [url|].
  - destruct (axios_get (url +:+ "/health") w1) as [[response|e] w2] eqn:Hget.
    + eexists _, _. split; [reflexivity|]. cbn. split; [|split].
      * split.
        -- intros Hst. exists url, w1, response. split; [done|]. split; [done|].
           destruct (status response =? 200) eqn:E; [by apply Z.eqb_eq | discriminate].
        -- intros (url' & w1' & response' & Hu & Hget' & H200).
           injection Hu as <- <-. rewrite Hget in Hget'. injection Hget' as <-.
           destruct (status _ =? 200) eqn:E; [done | by apply Z.eqb_neq in E].
      * intros url' w1' w2' response' Hu Hget' Hne.
        injection Hu as <- <-. rewrite Hget in Hget'. injection Hget' as <- <-.
        destruct (status _ =? 200) eqn:E; [by apply Z.eqb_eq in E | done].
      * intros url' w1' w2' e' Hu Hget'.
        injection Hu as <- <-. rewrite Hget in Hget'. discriminate.
    + eexists _, _. split; [reflexivity|]. cbn. split; [|split].
      * split; [discriminate|].
        intros (url' & w1' & response' & Hu & Hget' & _).
        injection Hu as <- <-. rewrite Hget in Hget'. discriminate.
      * intros url' w1' w2' response' Hu Hget' _.
        injection Hu as <- <-. rewrite Hget in Hget'. discriminate.
      * intros url' w1' w2' e' Hu Hget'.
        injection Hu as <- <-. rewrite Hget in Hget'. by injection Hget' as <- <-.
  - eexists _, _. split; [reflexivity|]. cbn. split; [|split].
    + split; [discriminate|]. by intros (? & ? & ? & ? & _).
    + intros url' w1' w2' response' Hu. discriminate.
    + intros url' w1' w2' e' Hu. discriminate.
Qed.

End Probe.

Lemma performHealthCheck_healthy_iff_200_witness :
  exists (hc : MonitorAgent.HealthCheck) (w' : Scripted.World),
    MonitorAgent.performHealthCheck "acme-web" "prod" (probeWorld 204) = (Ok hc, w') /\
    MonitorAgent.hc_status hc = "unhealthy" /\
    MonitorAgent.status_code hc = Some 204.
Proof.
  destruct (performHealthCheck_healthy_iff_200 "acme-web" "prod" (probeWorld 204))
    as (hc & w' & Hrun & _ & Hother & _).
  exists hc, w'. split; [exact Hrun|].
  eapply (Hother "http://10.0.0.7:8080" _ _ {| status := 204; x_response_time := None |});
    [reflexivity | reflexivity | vm_compute; discriminate].
Defined.

Example performHealthCheck_200 :
  fst (MonitorAgent.performHealthCheck "acme-web" "prod" (probeWorld 200))
  = Ok {| MonitorAgent.hc_status := "healthy"; MonitorAgent.status_code := Some 200;
          MonitorAgent.response_time := Some "unknown";
          MonitorAgent.hc_message := "Health check passed" |}.
Proof. reflexivity. Qed.

Example performHealthCheck_201 :
  fst (MonitorAgent.performHealthCheck "acme-web" "prod" (probeWorld 201))
  = Ok {| MonitorAgent.hc_status := "unhealthy"; MonitorAgent.status_code := Some 201;
          MonitorAgent.response_time := Some "unknown";
          MonitorAgent.hc_message := "Health check failed" |}.
Proof. reflexivity. Qed.

Example performHealthCheck_probe_url :
  Scripted.calls (snd (MonitorAgent.performHealthCheck "acme-web" "prod" (probeWorld 200)))
  = [ Scripted.ReadService "acme-web-service" "prod" (Ok Examples.internalService);
      Scripted.HttpGet "http://10.0.0.7:8080/health"
        (Ok {| status := 200; x_response_time := None |}) ].
Proof. reflexivity. Qed.

(** ** Health aggregator *)

Lemma Qltb_lt (a b : Q) : MonitorAgent.Qltb a b = true <-> (a < b)%Q.
Proof.
  unfold MonitorAgent.Qltb. rewrite negb_true_iff.
  destruct (Qle_bool b a) eqn:E.
  - apply Qle_bool_iff in E. split; [discriminate|].
    intros Hlt. by apply Qlt_not_le in Hlt.
  - split; [|done]. intros _. apply Qnot_le_lt. intros Hle.
    apply Qle_bool_iff in Hle. congruence.
Qed.

Lemma Qltb_ge (a b : Q) : MonitorAgent.Qltb a b = false <-> (b <= a)%Q.
Proof.
  unfold MonitorAgent.Qltb. rewrite negb_false_iff. apply Qle_bool_iff.
Qed.

(** With at least one valid sample, the report is the computed one. *)
Lemma generateMonitoringReport_valid (app ns : string) (samples : list MonitorAgent.Sample) :
  validSamples samples <> [] ->
  let valid := validSamples samples in
  let rate := successRate valid in
  let report := MonitorAgent.generateMonitoringReport app ns samples in
  MonitorAgent.overall_health report
  = (if Qle_bool 90 rate then "healthy"
     else if Qle_bool 70 rate then "warning" else "unhealthy") /\
  MonitorAgent.alerts report
  = (if MonitorAgent.Qltb (meanReadyReplicas valid) 1
     then ["Low replica count detected"] else [])
    ++ (if MonitorAgent.Qltb (meanRunningPods valid) 1
        then ["Insufficient running pods"] else [])
    ++ (if MonitorAgent.Qltb rate 80
        then ["Health check success rate below 80%"] else []) /\
  MonitorAgent.recommendations report
  = (if MonitorAgent.Qltb (meanReadyReplicas valid) 2
     then ["Consider increasing replica count for high availability"] else [])
    ++ (if MonitorAgent.Qltb rate 90
        then ["Investigate health check failures"] else []).
Proof.
  intros Hne valid rate report.
  subst report. unfold MonitorAgent.generateMonitoringReport.
  fold (validSamples samples). fold valid.
  destruct (length valid =? 0)%nat eqn:Hlen.
  { apply Nat.eqb_eq in Hlen. by apply nil_length_inv in Hlen. }
  fold (meanReadyReplicas valid). fold (meanRunningPods valid).
  fold (successRate valid). fold rate. cbn.
  split; [done|]. split.
  - by destruct (MonitorAgent.Qltb (meanReadyReplicas valid) 1),
               (MonitorAgent.Qltb (meanRunningPods valid) 1),
               (MonitorAgent.Qltb rate 80).
  - by destruct (MonitorAgent.Qltb (meanReadyReplicas valid) 2),
               (MonitorAgent.Qltb rate 90).
Qed.

Ltac reflect_thresholds :=
  repeat match goal with
         | H : Qle_bool _ _ = true |- _ => apply Qle_bool_iff in H
         | H : Qle_bool ?a ?b = false |- _ =>
             assert (b < a)%Q
               by (apply Qnot_le_lt; intros Hle; apply Qle_bool_iff in Hle; congruence);
             clear H
         | H : MonitorAgent.Qltb _ _ = true |- _ => apply Qltb_lt in H
         | H : MonitorAgent.Qltb _ _ = false |- _ => apply Qltb_ge in H
         end.

(** C4.  For every sample sequence with at least one valid sample, with
    [rate] the health-check success rate of the valid samples in percent:
    the verdict is ['healthy'] when [rate >= 90], ['warning'] when
    [70 <= rate < 90] and ['unhealthy'] when [rate < 70] (so the rates 100,
    85 and 60 give healthy, warning and unhealthy); an alert is emitted
    exactly when the mean ready-replica count is below 1, the mean
    running-pod count is below 1 or [rate < 80], each condition with its own
    alert; a recommendation is emitted exactly when the mean ready-replica
    count is below 2 or [rate < 90], each with its own recommendation. *)
Theorem generateMonitoringReport_verdict (app ns : string)
    (samples : list MonitorAgent.Sample) :
  validSamples samples <> [] ->
  let valid := validSamples samples in
  let rate := successRate valid in
  let report := MonitorAgent.generateMonitoringReport app ns samples in
  ((90 <= rate)%Q -> MonitorAgent.overall_health report = "healthy") /\
  ((70 <= rate)%Q -> (rate < 90)%Q -> MonitorAgent.overall_health report = "warning") /\
  ((rate < 70)%Q -> MonitorAgent.overall_health report = "unhealthy") /\
  ((rate == 100)%Q -> MonitorAgent.overall_health report = "healthy") /\
  ((rate == 85)%Q -> MonitorAgent.overall_health report = "warning") /\
  ((rate == 60)%Q -> MonitorAgent.overall_health report = "unhealthy") /\
  (MonitorAgent.alerts report <> [] <->
   (meanReadyReplicas valid < 1)%Q \/ (meanRunningPods valid < 1)%Q \/ (rate < 80)%Q) /\
  (In "Low replica count detected" (MonitorAgent.alerts report) <->
   (meanReadyReplicas valid < 1)%Q) /\
  (In "Insufficient running pods" (MonitorAgent.alerts report) <->
   (meanRunningPods valid < 1)%Q) /\
  (In "Health check success rate below 80%" (MonitorAgent.alerts report) <->
   (rate < 80)%Q) /\
  (MonitorAgent.recommendations report <> [] <->
   (meanReadyReplicas valid < 2)%Q \/ (rate < 90)%Q) /\
  (In "Consider increasing replica count for high availability"
      (MonitorAgent.recommendations report) <->
   (meanReadyReplicas valid < 2)%Q) /\
  (In "Investigate health check failures" (MonitorAgent.recommendations report) <->
   (rate < 90)%Q).
Proof.
  intros Hne valid rate report.
  destruct (generateMonitoringReport_valid app ns samples Hne) as (Hverdict & Halerts & Hrecs).
  fold valid rate report in Hverdict, Halerts, Hrecs.
  rewrite Hverdict, Halerts, Hrecs.
  generalize (meanReadyReplicas valid) (meanRunningPods valid) rate.
  clear. intros ready running rate.
  destruct (Qle_bool 90 rate) eqn:E90, (Qle_bool 70 rate) eqn:E70;
    destruct (MonitorAgent.Qltb ready 1) eqn:Er1, (MonitorAgent.Qltb running 1) eqn:Ep1,
             (MonitorAgent.Qltb rate 80) eqn:E80, (MonitorAgent.Qltb ready 2) eqn:Er2,
             (MonitorAgent.Qltb rate 90) eqn:E90';
    reflect_thresholds; cbn;
    repeat split; intros; try done; try lra;
      repeat match goal with
             | H : _ \/ _ |- _ => destruct H
             end; try done; try lra; auto.
Qed.

Lemma generateMonitoringReport_verdict_witness :
  validSamples (probeSamples 17 3) <> [] /\
  (successRate (validSamples (probeSamples 17 3)) == 85)%Q /\
  MonitorAgent.overall_health
    (MonitorAgent.generateMonitoringReport "acme-web" "prod" (probeSamples 17 3))
  = "warning".
Proof.
  assert (Hne : validSamples (probeSamples 17 3) <> []) by (vm_compute; discriminate).
  assert (Hrate : (successRate (validSamples (probeSamples 17 3)) == 85)%Q)
    by (vm_compute; reflexivity).
  split; [exact Hne|]. split; [exact Hrate|].
  exact (proj1 (proj2 (proj2 (proj2 (proj2
           (generateMonitoringReport_verdict "acme-web" "prod" (probeSamples 17 3) Hne)))))
         Hrate).
Defined.

(** The three rates of the specification, evaluated. *)
Example generateMonitoringReport_rates :
  map (fun samples =>
         let report := MonitorAgent.generateMonitoringReport "acme-web" "prod" samples in
         (MonitorAgent.overall_health report, MonitorAgent.alerts report,
          MonitorAgent.recommendations report))
      [probeSamples 20 0; probeSamples 17 3; probeSamples 12 8]
  = [ ("healthy", [], []);
      ("warning", [], ["Investigate health check failures"]);
      ("unhealthy", ["Health check success rate below 80%"],
       ["Investigate health check failures"]) ].
Proof. vm_compute. reflexivity. Qed.

(** A valid sample whose deployment metrics failed contributes no value to
    the mean; with no value at all the mean is [0], which raises the
    replica alert. *)
Example generateMonitoringReport_no_replica_values :
  let m := Examples.someMetrics "healthy" 2 2 in
  let blind := {| MonitorAgent.deployment := MonitorAgent.Unavailable "HTTP request failed";
                  MonitorAgent.pods := MonitorAgent.pods m;
                  MonitorAgent.service := MonitorAgent.service m;
                  MonitorAgent.health := MonitorAgent.health m |} in
  MonitorAgent.alerts
    (MonitorAgent.generateMonitoringReport "acme-web" "prod" [MonitorAgent.Collected 0 blind])
  = ["Low replica count detected"].
Proof. vm_compute. reflexivity. Qed.

(** C5.  When every sample is filtered out as an error sample, so that no
    valid sample remains, the report is the fixed one: verdict ['unknown'],
    the single alert "No valid monitoring data collected", the single
    recommendation "Check monitoring configuration and connectivity", and
    an empty [metrics] object: no average is computed.  A sample
    [{ timestamp, error }] with a non-empty message is such a sample. *)
Theorem generateMonitoringReport_no_valid_data (app ns : string)
    (samples : list MonitorAgent.Sample) :
  Forall (fun r => MonitorAgent.isValid r = false) samples ->
  validSamples samples = [] /\
  MonitorAgent.generateMonitoringReport app ns samples = noDataReport /\
  MonitorAgent.overall_health (MonitorAgent.generateMonitoringReport app ns samples)
  = "unknown" /\
  length (MonitorAgent.alerts (MonitorAgent.generateMonitoringReport app ns samples)) = 1%nat /\
  length (MonitorAgent.recommendations (MonitorAgent.generateMonitoringReport app ns samples))
  = 1%nat /\
  MonitorAgent.metrics (MonitorAgent.generateMonitoringReport app ns samples) = None /\
  (forall (t : Z) (e : string), truthy e = true ->
     MonitorAgent.isValid (MonitorAgent.Failure t e) = false).
Proof.
  intros Hall.
  assert (Hnone : validSamples samples = []).
  { unfold validSamples. induction Hall as [|r rs Hr _ IH]; [done|].
    rewrite filter_cons_False; [exact IH | congruence]. }
  assert (Hreport : MonitorAgent.generateMonitoringReport app ns samples = noDataReport).
  { unfold MonitorAgent.generateMonitoringReport.
    fold (validSamples samples). by rewrite Hnone. }
  rewrite Hreport. repeat split; try done.
  intros t e He. cbn. by rewrite He.
Qed.

Lemma generateMonitoringReport_no_valid_data_witness :
  MonitorAgent.generateMonitoringReport "acme-web" "prod"
    [ MonitorAgent.Failure 0 "connect ECONNREFUSED 10.96.0.1:443";
      MonitorAgent.Failure 30000 "socket hang up" ]
  = noDataReport.
Proof.
  refine (proj1 (proj2 (generateMonitoringReport_no_valid_data "acme-web" "prod" _ _))).
  repeat constructor.
Defined.

(** ** Monitoring campaign runner *)

Lemma CampaignTrace_counts (app ns : string) (trace : list Scripted.Call) :
  CampaignTrace app ns trace ->
  (forall ms, last trace <> Some (Scripted.Sleep ms)) /\
  (sleepCount trace <= collectCount trace - 1)%nat /\
  (trace <> [] -> (1 <= collectCount trace)%nat).
Proof.
  unfold sleepCount, collectCount.
  induction 1 as [|answer|e rest Hne _ (IHlast & IHcount & IHpos)
                 |m rest Hne _ (IHlast & IHcount & IHpos)].
  - by repeat split.
  - repeat split; cbn; [done | lia | lia].
  - specialize (IHpos Hne). repeat split.
    + intros ms. rewrite last_cons. destruct (last rest) eqn:E; [apply IHlast|].
      by apply last_None in E.
    + cbn. lia.
    + cbn. lia.
  - specialize (IHpos Hne). repeat split.
    + intros ms. rewrite !last_cons. destruct (last rest) eqn:E; [apply IHlast|].
      by apply last_None in E.
    + cbn. lia.
    + cbn. lia.
Qed.

Section Campaign.
Context {W : Type}.
Context `{!Timer W}.
Variable collectMetrics : string -> string -> M W MonitorAgent.Metrics.

(** An iteration pushes exactly one sample and never throws. *)
Lemma monitoringIteration_pushes_one (app ns : string) (i n : Z)
    (results : list MonitorAgent.Sample) (w : W) :
  exists (r : MonitorAgent.Sample) (w' : W),
    MonitorAgent.monitoringIteration collectMetrics app ns i n results w
    = (Ok (results ++ [r]), w').
Proof.
  unfold MonitorAgent.monitoringIteration, try_catch, bind, ret,
    MonitorAgent.now, MonitorAgent.sleepM.
  destruct (collectMetrics app ns w) as [[m|e] w1]; [|by eexists _, _].
  destruct (i <? n - 1); by eexists _, _.
Qed.

Lemma monitoringIteration_failure (app ns : string) (i n : Z)
    (results : list MonitorAgent.Sample) (w w1 : W) (e : Error) :
  collectMetrics app ns w = (Throw e, w1) ->
  MonitorAgent.monitoringIteration collectMetrics app ns i n results w
  = (Ok (results ++ [MonitorAgent.Failure (Date_now w1) (message e)]), w1).
Proof.
  intros H. unfold MonitorAgent.monitoringIteration, try_catch, bind, ret,
    MonitorAgent.now. by rewrite H.
Qed.

Lemma monitoringLoop_count (remaining : nat) (app ns : string) (i n : Z)
    (results : list MonitorAgent.Sample) (w : W) :
  exists (new : list MonitorAgent.Sample) (w' : W),
    MonitorAgent.monitoringLoop collectMetrics remaining app ns i n results w
    = (Ok (results ++ new), w') /\
    length new = remaining.
Proof.
  revert i results w. induction remaining as [|remaining IH]; intros i results w.
  - exists [], w. by rewrite app_nil_r.
  - cbn [MonitorAgent.monitoringLoop]. unfold bind at 1.
    destruct (monitoringIteration_pushes_one app ns i n results w) as (r & w1 & ->).
    destruct (IH (i + 1) (results ++ [r]) w1) as (new & w' & -> & Hlen).
    exists (r :: new), w'. split; [by rewrite <- app_assoc | cbn; lia].
Qed.

End Campaign.

(** The calls recorded by the loop in the scripted world. *)
Lemma Scripted_monitoringLoop_trace (remaining : nat) (app ns : string) (i n : Z)
    (results : list MonitorAgent.Sample) (w : Scripted.World) :
  i + Z.of_nat remaining = n ->
  exists (results' : list MonitorAgent.Sample) (w' : Scripted.World)
         (new : list Scripted.Call),
    MonitorAgent.monitoringLoop Scripted.collectMetrics remaining app ns i n results w
    = (Ok results', w') /\
    Scripted.calls w' = Scripted.calls w ++ new /\
    CampaignTrace app ns new /\
    collectCount new = remaining /\
    (remaining = 0%nat -> new = []).
Proof.
  revert i results w. induction remaining as [|remaining IH]; intros i results w Hi.
  - exists results, w, []. rewrite app_nil_r. repeat split; constructor.
  - cbn [MonitorAgent.monitoringLoop]. unfold bind at 1.
    unfold MonitorAgent.monitoringIteration, try_catch, bind, ret, MonitorAgent.now,
      MonitorAgent.sleepM, Scripted.collectMetrics, Scripted.call.
    cbn -[Z.mul Z.add Z.sub Z.ltb MonitorAgent.monitoringLoop].
    destruct (Scripted.metrics_answers (Scripted.script w) (length (Scripted.calls w)))
      as [m|e].
    + destruct (i <? n - 1) eqn:Hlt.
      * apply Z.ltb_lt in Hlt.
        cbn -[Z.mul Z.add Z.sub Z.ltb MonitorAgent.monitoringLoop].
        match goal with
        | |- context [MonitorAgent.monitoringLoop _ _ _ _ _ _ ?rs ?w1] =>
            destruct (IH (i + 1) rs w1 ltac:(lia)) as (rs' & w' & new & Hrun & Hcalls & Htrace & Hcount & _)
        end.
        exists rs', w', (Scripted.Collect app ns (Ok m) :: Scripted.Sleep 30000 :: new).
        split; [exact Hrun|]. split.
        { rewrite Hcalls. cbn. by rewrite <- !app_assoc. }
        split.
        { apply campaign_pause; [|done]. intros ->. cbn in Hcount. lia. }
        split; [|done]. unfold collectCount in *. cbn. lia.
      * apply Z.ltb_ge in Hlt. assert (remaining = 0%nat) as -> by lia.
        cbn. eexists _, _, [Scripted.Collect app ns (Ok m)].
        split; [done|]. repeat split; [constructor | done].
    + cbn -[Z.mul Z.add Z.sub Z.ltb MonitorAgent.monitoringLoop].
      match goal with
      | |- context [MonitorAgent.monitoringLoop _ _ _ _ _ _ ?rs ?w1] =>
          destruct (IH (i + 1) rs w1 ltac:(lia)) as (rs' & w' & new & Hrun & Hcalls & Htrace & Hcount & Hnil)
      end.
      exists rs', w', (Scripted.Collect app ns (Throw e) :: new).
      split; [exact Hrun|]. split.
      { rewrite Hcalls. cbn. by rewrite <- !app_assoc. }
      split.
      { destruct remaining as [|k].
        - rewrite (Hnil eq_refl). constructor.
        - apply campaign_failed; [|done]. intros ->. cbn in Hcount. lia. }
      split; [|done]. unfold collectCount in *. cbn. lia.
Qed.

(** C3.  For every non-negative [durationSeconds]:
    - [performMonitoring] returns, with exactly [floor(durationSeconds / 30)]
      samples (none when [durationSeconds < 30]), whatever the collection of
      each sample does, return or throw;
    - a collection that throws is recorded as the sample
      [{ timestamp, error }] and the loop goes on;
    - the recorded calls are one collection per iteration, with a pause of
      30000 ms only after a collection that returned and only when another
      iteration follows: never after the last one. *)
Theorem performMonitoring_sample_count (app ns : string) (durationSeconds : Z) :
  0 <= durationSeconds ->
  (forall (W : Type) (T : Timer W)
          (collectMetrics : string -> string -> M W MonitorAgent.Metrics) (w : W),
      exists (results : list MonitorAgent.Sample) (w' : W),
        MonitorAgent.performMonitoring collectMetrics app ns durationSeconds w
        = (Ok results, w') /\
        Z.of_nat (length results) = durationSeconds / 30 /\
        (durationSeconds < 30 -> results = [])) /\
  (forall (W : Type) (T : Timer W)
          (collectMetrics : string -> string -> M W MonitorAgent.Metrics)
          (i n : Z) (results : list MonitorAgent.Sample) (w w1 : W) (e : Error),
      collectMetrics app ns w = (Throw e, w1) ->
      MonitorAgent.monitoringIteration collectMetrics app ns i n results w
      = (Ok (results ++ [MonitorAgent.Failure (Date_now w1) (message e)]), w1)) /\
  (forall w : Scripted.World,
      exists (results : list MonitorAgent.Sample) (w' : Scripted.World)
             (new : list Scripted.Call),
        MonitorAgent.performMonitoring Scripted.collectMetrics app ns durationSeconds w
        = (Ok results, w') /\
        Scripted.calls w' = Scripted.calls w ++ new /\
        CampaignTrace app ns new /\
        Z.of_nat (collectCount new) = durationSeconds / 30 /\
        (sleepCount new <= collectCount new - 1)%nat /\
        (forall ms, last new <> Some (Scripted.Sleep ms))).
Proof.
  intros Hd.
  assert (Hiter : 0 <= durationSeconds / 30) by (apply Z.div_pos; lia).
  repeat split.
  - intros W T collectMetrics w. unfold MonitorAgent.performMonitoring.
    destruct (monitoringLoop_count collectMetrics (Z.to_nat (durationSeconds / 30))
                app ns 0 (durationSeconds / 30) [] w) as (new & w' & Hrun & Hlen).
    exists new, w'. split; [exact Hrun|]. split; [lia|].
    intros Hsmall. rewrite Z.div_small in Hlen by lia. by destruct new.
  - intros W T collectMetrics i n results w w1 e.
    apply monitoringIteration_failure.
  - intros w. unfold MonitorAgent.performMonitoring.
    destruct (Scripted_monitoringLoop_trace (Z.to_nat (durationSeconds / 30))
                app ns 0 (durationSeconds / 30) [] w ltac:(lia))
      as (results & w' & new & Hrun & Hcalls & Htrace & Hcount & _).
    destruct (CampaignTrace_counts app ns new Htrace) as (Hlast & Hsleeps & _).
    exists results, w', new. repeat split; try done. lia.
Qed.

(** ** Readiness wait *)

Lemma pollsLeft_step (r r' : Z) :
  0 < r -> r' <= r - 5000 -> (pollsLeft r' + 1 <= pollsLeft r)%nat.
Proof.
  intros Hr Hr'. unfold pollsLeft.
  assert (0 <= (Z.max 0 r' + 4999) / 5000) by (apply Z.div_pos; lia).
  assert ((Z.max 0 r' + 4999) / 5000 + 1 <= (Z.max 0 r + 4999) / 5000); [|lia].
  clear H. Z.div_mod_to_equations. lia.
Qed.

Lemma pollsLeft_bound (T : Z) : (pollsLeft T + 1 <= Z.to_nat (T / 5000) + 2)%nat.
Proof.
  unfold pollsLeft.
  assert (0 <= (Z.max 0 T + 4999) / 5000) by (apply Z.div_pos; lia).
  assert ((Z.max 0 T + 4999) / 5000 <= Z.max 0 (T / 5000) + 1); [|lia].
  clear H. Z.div_mod_to_equations. lia.
Qed.

Lemma isReady_spec (d : Deployment) :
  isReady d = true <->
  num_or (dep_status d ?. readyReplicas) 0 = num_or (dep_spec d ?. replicas) 0 /\
  0 < num_or (dep_spec d ?. replicas) 0.
Proof.
  unfold isReady. rewrite andb_true_iff, Z.eqb_eq, Z.gtb_lt. done.
Qed.

(** A read error is transient: the poll pauses 5000 ms and falls through to
    the next test of the deadline, for every cluster API. *)
Lemma pollOnce_read_error {W : Type} `{!AppsV1Api W, !Timer W}
    (app ns : string) (w w1 : W) (e : Error) :
  readNamespacedDeployment app ns w = (Throw e, w1) ->
  pollOnce app ns w = (Ok None, sleep 5000 w1).
Proof. intros H. unfold pollOnce, try_catch, bind. by rewrite H. Qed.

Lemma Scripted_waitLoop (fuel : nat) (app ns : string) (T start : Z) (w : Scripted.World) :
  Scripted.timely (Scripted.script w) ->
  (pollsLeft (T - (Scripted.clock w - start)) + 1 <= fuel)%nat ->
  exists (r : result bool) (w' : Scripted.World) (new : list Scripted.Call),
    waitLoop fuel app ns T start w = Some (r, w') /\
    Scripted.calls w' = Scripted.calls w ++ new /\
    Forall (isPollCall app ns) new /\
    ((r = Ok true /\ observedReady app ns new)
     \/ (r = Throw (timeoutError app T) /\ T <= Scripted.clock w' - start /\
         ~ observedReady app ns new)).
Proof.
  revert w. induction fuel as [|fuel IH]; intros w Htimely Hfuel; [lia|].
  cbn [waitLoop]. cbn [Date_now Scripted.timer].
  destruct (Scripted.clock w - start <? T) eqn:Hdeadline.
  - apply Z.ltb_lt in Hdeadline.
    unfold pollOnce, try_catch, bind, ret, sleepM. cbn [readNamespacedDeployment Scripted.apps].
    unfold Scripted.call.
    pose proof (Htimely (length (Scripted.calls w))) as Hlat1.
    destruct (Scripted.deployment_answers (Scripted.script w) (length (Scripted.calls w)))
      as [d|e] eqn:Hanswer.
    + destruct (isReady d) eqn:Hready.
      * eexists _, _, [Scripted.ReadDeployment app ns (Ok d)].
        split; [reflexivity|]. split; [reflexivity|]. split.
        { constructor; [right; by eexists | constructor]. }
        left. split; [done|].
        exists d. split; [by left | done].
      * cbn [sleep Scripted.timer].
        match goal with
        | |- context [waitLoop fuel app ns T start ?w2] =>
            pose proof (Htimely (length (Scripted.calls w ++ [Scripted.ReadDeployment app ns (Ok d)]))) as Hlat2;
            destruct (IH w2) as (r & w' & new & Hrun & Hcalls & Hpolls & Hres)
        end.
        { exact Htimely. }
        { cbn [Scripted.clock Scripted.record Scripted.script Scripted.calls] in *.
          match goal with
          | |- (pollsLeft ?r' + 1 <= _)%nat =>
              pose proof (pollsLeft_step (T - (Scripted.clock w - start)) r'
                            ltac:(lia) ltac:(lia))
          end. lia. }
        exists r, w', (Scripted.ReadDeployment app ns (Ok d) :: Scripted.Sleep 5000 :: new).
        split; [exact Hrun|]. split.
        { rewrite Hcalls. cbn. by rewrite <- !app_assoc. }
        split.
        { constructor; [right; by eexists|]. constructor; [by left | done]. }
        destruct Hres as [(-> & (d' & Hin & Hd')) | (-> & Hlate & Hnone)].
        -- left. split; [done|].
           exists d'. split; [by do 2 right | done].
        -- right. split; [done|]. split; [done|].
           intros (d' & [Heq | [Heq | Hin]] & Hd'); [| done |].
           ++ injection Heq as <-. congruence.
           ++ apply Hnone. by exists d'.
    + cbn [sleep Scripted.timer].
      match goal with
      | |- context [waitLoop fuel app ns T start ?w2] =>
          pose proof (Htimely (length (Scripted.calls w ++ [Scripted.ReadDeployment app ns (Throw e)]))) as Hlat2;
          destruct (IH w2) as (r & w' & new & Hrun & Hcalls & Hpolls & Hres)
      end.
      { exact Htimely. }
        { cbn [Scripted.clock Scripted.record Scripted.script Scripted.calls] in *.
          match goal with
          | |- (pollsLeft ?r' + 1 <= _)%nat =>
              pose proof (pollsLeft_step (T - (Scripted.clock w - start)) r'
                            ltac:(lia) ltac:(lia))
          end. lia. }
      exists r, w', (Scripted.ReadDeployment app ns (Throw e) :: Scripted.Sleep 5000 :: new).
      split; [exact Hrun|]. split.
      { rewrite Hcalls. cbn. by rewrite <- !app_assoc. }
      split.
      { constructor; [right; by eexists|]. constructor; [by left | done]. }
      destruct Hres as [(-> & (d' & Hin & Hd')) | (-> & Hlate & Hnone)].
      * left. split; [done|].
        exists d'. split; [by do 2 right | done].
      * right. split; [done|]. split; [done|].
        intros (d' & [Heq | [Heq | Hin]] & Hd'); [done | done |].
        apply Hnone. by exists d'.
  - apply Z.ltb_ge in Hdeadline.
    exists (Throw (timeoutError app T)), w, []. rewrite app_nil_r.
    split; [done|]. split; [done|]. split; [constructor|].
    right. split; [done|]. split; [done|]. by intros (d & [] & _).
Qed.

(** C1.  In every world whose calls take a non-negative time, and with
    [timeoutMs] defaulting to 300000:
    - [waitForDeployment] returns or throws (it needs no more than
      [timeoutMs / 5000 + 2] tests of the loop condition);
    - it returns [true] if and only if one of its polls read a deployment
      with [readyReplicas === replicas && replicas > 0];
    - a read that fails is followed by a pause of 5000 ms and the next test
      of the deadline, like a read that finds the deployment not ready: the
      calls are reads and pauses of 5000 ms only, and the error of a read
      is never the outcome;
    - when no poll observes convergence, it throws "Deployment ... did not
      become ready within ...ms", and does so no earlier than [timeoutMs]
      after its start. *)
Theorem waitForDeployment_converges_or_times_out (app ns : string)
    (timeoutMs : option Z) (w : Scripted.World) (fuel : nat) :
  Scripted.timely (Scripted.script w) ->
  (enoughPolls (deadline timeoutMs) <= fuel)%nat ->
  exists (r : result bool) (w' : Scripted.World) (new : list Scripted.Call),
    waitForDeployment fuel app ns timeoutMs w = Some (r, w') /\
    Scripted.calls w' = Scripted.calls w ++ new /\
    Forall (isPollCall app ns) new /\
    (r = Ok true <-> observedReady app ns new) /\
    (~ observedReady app ns new ->
     r = Throw (timeoutError app (deadline timeoutMs)) /\
     deadline timeoutMs <= Scripted.clock w' - Scripted.clock w) /\
    (r = Ok true \/ r = Throw (timeoutError app (deadline timeoutMs))) /\
    (forall (w0 w1 : Scripted.World) (e : Error),
        readNamespacedDeployment app ns w0 = (Throw e, w1) ->
        pollOnce app ns w0 = (Ok None, sleep 5000 w1)).
Proof.
  intros Htimely Hfuel. unfold waitForDeployment.
  fold (deadline timeoutMs). unfold enoughPolls in Hfuel.
  set (T := deadline timeoutMs) in *.
  destruct (Scripted_waitLoop fuel app ns T (Date_now w) w Htimely)
    as (r & w' & new & Hrun & Hcalls & Hpolls & Hres).
  { cbn [Date_now Scripted.timer]. rewrite Z.sub_diag, Z.sub_0_r.
    pose proof (pollsLeft_bound T). lia. }
  exists r, w', new. split; [exact Hrun|]. split; [exact Hcalls|]. split; [exact Hpolls|].
  cbn [Date_now Scripted.timer] in Hres.
  destruct Hres as [(-> & Hobs) | (-> & Hlate & Hnone)].
  - split; [done|]. split; [done|]. split; [by left|].
    intros w0 w1 e. apply pollOnce_read_error.
  - split; [split; [discriminate | done]|]. split; [done|]. split; [by right|].
    intros w0 w1 e. apply pollOnce_read_error.
Qed.

Lemma waitForDeployment_converges_or_times_out_witness :
  Scripted.timely rolloutScript /\
  exists (r : result bool) (w' : Scripted.World) (new : list Scripted.Call),
    waitForDeployment 62 "acme-web" "prod" None (Scripted.start rolloutScript 0)
    = Some (r, w') /\
    Scripted.calls w' = [] ++ new /\
    Forall (isPollCall "acme-web" "prod") new /\
    (r = Ok true <-> observedReady "acme-web" "prod" new) /\
    (~ observedReady "acme-web" "prod" new ->
     r = Throw (timeoutError "acme-web" 300000) /\ 300000 <= Scripted.clock w' - 0) /\
    (r = Ok true \/ r = Throw (timeoutError "acme-web" 300000)) /\
    (forall (w0 w1 : Scripted.World) (e : Error),
        readNamespacedDeployment "acme-web" "prod" w0 = (Throw e, w1) ->
        pollOnce "acme-web" "prod" w0 = (Ok None, sleep 5000 w1)).
Proof.
  assert (Htimely : Scripted.timely rolloutScript) by (intros n; cbn; lia).
  split; [exact Htimely|].
  exact (waitForDeployment_converges_or_times_out "acme-web" "prod" None
           (Scripted.start rolloutScript 0) 62 Htimely ltac:(vm_compute; lia)).
Defined.

(** A run: a failed read, a read that finds one replica of two, a read that
    finds both. *)
Example waitForDeployment_rollout :
  waitForDeployment 62 "acme-web" "prod" None (Scripted.start rolloutScript 0)
  = Some (Ok true,
          {| Scripted.script := rolloutScript;
             Scripted.clock := 10100;
             Scripted.calls :=
               [ Scripted.ReadDeployment "acme-web" "prod" (Throw Examples.refused);
                 Scripted.Sleep 5000;
                 Scripted.ReadDeployment "acme-web" "prod" (Ok notReadyYet);
                 Scripted.Sleep 5000;
                 Scripted.ReadDeployment "acme-web" "prod" (Ok allReady) ] |}).
Proof. reflexivity. Qed.

(** A deployment that never converges, with a deadline of 2000 ms: one poll,
    one pause, then the failure. *)
Example waitForDeployment_stuck :
  waitForDeployment 3 "acme-web" "prod" (Some 2000) (Scripted.start stuckScript 0)
  = Some (Throw {| message := "Deployment acme-web did not become ready within 2000ms";
                   statusCode := None |},
          {| Scripted.script := stuckScript;
             Scripted.clock := 5040;
             Scripted.calls :=
               [ Scripted.ReadDeployment "acme-web" "prod" (Ok notReadyYet);
                 Scripted.Sleep 5000 ] |}).
Proof. reflexivity. Qed.

(** With the default deadline, sixty polls are made before the failure. *)
Example waitForDeployment_stuck_default :
  match waitForDeployment 62 "acme-web" "prod" None (Scripted.start stuckScript 0) with
  | Some (r, w') =>
      r = Throw {| message := "Deployment acme-web did not become ready within 300000ms";
                   statusCode := None |} /\
      Scripted.clock w' = 302400 /\
      length (Scripted.calls w') = 120%nat
  | None => False
  end.
Proof. vm_compute. repeat split. Qed.

Lemma performMonitoring_sample_count_witness :
  0 <= 95 /\
  exists (results : list MonitorAgent.Sample) (w' : Scripted.World)
         (new : list Scripted.Call),
    MonitorAgent.performMonitoring Scripted.collectMetrics "acme-web" "prod" 95
      (Scripted.start rolloutScript 0)
    = (Ok results, w') /\
    Scripted.calls w' = [] ++ new /\
    CampaignTrace "acme-web" "prod" new /\
    Z.of_nat (collectCount new) = 95 / 30 /\
    (sleepCount new <= collectCount new - 1)%nat /\
    (forall ms, last new <> Some (Scripted.Sleep ms)).
Proof.
  split; [lia|].
  exact (proj2 (proj2 (performMonitoring_sample_count "acme-web" "prod" 95 ltac:(lia)))
           (Scripted.start rolloutScript 0)).
Defined.

(** A campaign of 95 seconds: three samples, the second one a recorded
    failure, and a single pause, after the first sample. *)
Example performMonitoring_95 :
  MonitorAgent.performMonitoring Scripted.collectMetrics "acme-web" "prod" 95
    (Scripted.start rolloutScript 0)
  = (Ok [ MonitorAgent.Collected 0 (Examples.someMetrics "healthy" 2 2);
          MonitorAgent.Failure 30060 "connect ECONNREFUSED 10.96.0.1:443";
          MonitorAgent.Collected 30060 (Examples.someMetrics "healthy" 2 2) ],
     {| Scripted.script := rolloutScript;
        Scripted.clock := 30080;
        Scripted.calls :=
          [ Scripted.Collect "acme-web" "prod" (Ok (Examples.someMetrics "healthy" 2 2));
            Scripted.Sleep 30000;
            Scripted.Collect "acme-web" "prod" (Throw Examples.refused);
            Scripted.Collect "acme-web" "prod" (Ok (Examples.someMetrics "healthy" 2 2)) ] |}).
Proof. reflexivity. Qed.

Example performMonitoring_30_and_29 :
  fst (MonitorAgent.performMonitoring Scripted.collectMetrics "acme-web" "prod" 30
         (Scripted.start rolloutScript 0))
  = Ok [MonitorAgent.Collected 0 (Examples.someMetrics "healthy" 2 2)] /\
  fst (MonitorAgent.performMonitoring Scripted.collectMetrics "acme-web" "prod" 29
         (Scripted.start rolloutScript 0)) = Ok [].
Proof. split; reflexivity. Qed.

(* ===================================================================== *)
(** * Further properties *)
(* ===================================================================== *)

(** ** From a rollout to its lookup *)

Lemma isConflict_conflict : isConflict Mem.conflict = true.
Proof. reflexivity. Qed.

(** In the in-memory cluster each block returns, and only the deployment
    block touches the deployments. *)
Lemma Mem_applyDeployment (ns id : string) (d : Deployment)
    (rs : list DeployedResource) (c : Mem.Cluster) :
  exists rs' : list DeployedResource,
    applyDeployment ns id d rs c
    = (Ok rs', Mem.setDeployments
                 (insert (ns, name (dep_metadata d)) (stampDeployment d id)) c).
Proof.
  unfold applyDeployment, bind, try_catch, ret, throw. cbn.
  destruct (Mem.deployments c !! _) eqn:E; [|by eexists].
  rewrite isConflict_conflict. cbn. rewrite E. by eexists.
Qed.

Lemma Mem_applyService (ns id : string) (s : Service)
    (rs : list DeployedResource) (c : Mem.Cluster) :
  exists (rs' : list DeployedResource) (c1 : Mem.Cluster),
    applyService ns id s rs c = (Ok rs', c1) /\
    Mem.deployments c1 = Mem.deployments c /\
    Mem.ingresses c1 = Mem.ingresses c.
Proof.
  unfold applyService, bind, try_catch, ret, throw. cbn.
  destruct (Mem.services c !! _) eqn:E; [|by eexists _, _].
  rewrite isConflict_conflict. by eexists _, _.
Qed.

Lemma Mem_applyIngress (ns id : string) (i : Ingress)
    (rs : list DeployedResource) (c : Mem.Cluster) :
  exists (rs' : list DeployedResource) (c1 : Mem.Cluster),
    applyIngress ns id i rs c = (Ok rs', c1) /\
    Mem.deployments c1 = Mem.deployments c.
Proof.
  unfold applyIngress, bind, try_catch, ret, throw. cbn.
  destruct (Mem.ingresses c !! _) eqn:E; [|by eexists _, _].
  rewrite isConflict_conflict. cbn. rewrite E. by eexists _, _.
Qed.

(** Hence [deployToKubernetes] always returns there, and the deployment of
    the configuration is stored, stamped, under its name. *)
Lemma Mem_deployToKubernetes (cfg : KubernetesConfig) (ns app id : string)
    (c : Mem.Cluster) :
  exists (rs : list DeployedResource) (c1 : Mem.Cluster),
    deployToKubernetes cfg ns app id c = (Ok rs, c1) /\
    Mem.deployments c1
    = match deployment cfg with
      | Some d => <[(ns, name (dep_metadata d)) := stampDeployment d id]> (Mem.deployments c)
      | None => Mem.deployments c
      end.
Proof.
  unfold deployToKubernetes. unfold bind at 1.
  assert (exists rs0 c0,
             match deployment cfg with
             | Some d => applyDeployment ns id d []
             | None => ret []
             end c = (Ok rs0, c0) /\
             Mem.deployments c0
             = match deployment cfg with
               | Some d => <[(ns, name (dep_metadata d)) := stampDeployment d id]>
                             (Mem.deployments c)
               | None => Mem.deployments c
               end) as (rs0 & c0 & -> & Hd0).
  { destruct (deployment cfg) as [d|]; [|by eexists _, _].
    destruct (Mem_applyDeployment ns id d [] c) as (rs' & ->). by eexists _, _. }
  unfold bind at 1.
  assert (exists rs1 c1,
             match service cfg with
             | Some s => applyService ns id s rs0
             | None => ret rs0
             end c0 = (Ok rs1, c1) /\
             Mem.deployments c1 = Mem.deployments c0) as (rs1 & c1 & -> & Hd1).
  { destruct (service cfg) as [s|]; [|by eexists _, _].
    destruct (Mem_applyService ns id s rs0 c0) as (rs' & c' & -> & ? & _).
    by eexists _, _. }
  unfold bind at 1.
  assert (exists rs2 c2,
             match ingress cfg with
             | Some i => applyIngress ns id i rs1
             | None => ret rs1
             end c1 = (Ok rs2, c2) /\
             Mem.deployments c2 = Mem.deployments c1) as (rs2 & c2 & -> & Hd2).
  { destruct (ingress cfg) as [i|]; [|by eexists _, _].
    destruct (Mem_applyIngress ns id i rs1 c1) as (rs' & c' & -> & ?).
    by eexists _, _. }
  exists rs2, c2. split; [done|]. congruence.
Qed.

Lemma splitSelector_deployment_id (id : string) :
  Mem.splitSelector ("deployment-id=" +:+ id) = Some ("deployment-id", id).
Proof. reflexivity. Qed.

Lemma selects_label (m : ObjectMeta) (id : string) :
  Mem.selects ("deployment-id=" +:+ id) m = true <->
  labels m !! "deployment-id" = Some id.
Proof.
  unfold Mem.selects. rewrite splitSelector_deployment_id. apply bool_decide_eq_true.
Qed.

Lemma selects_stamped (m : ObjectMeta) (id : string) :
  Mem.selects ("deployment-id=" +:+ id) (stamp m id) = true.
Proof.
  apply selects_label. cbn. rewrite lookup_insert_ne by done. apply lookup_insert_eq.
Qed.

Lemma omap_all_None {A B} (f : A -> option B) (l : list A) :
  (forall x, x ∈ l -> f x = None) -> omap f l = [].
Proof.
  induction l as [|x l IH]; intros H; [done|].
  cbn. rewrite (H x) by left. apply IH. intros y Hy. apply H. by right.
Qed.

(** The list call after the stamped deployment was stored. *)
Lemma Mem_list_after_store (d : Deployment) (ns id : string)
    (ds : gmap (string * string) Deployment) :
  (forall k d', ds !! k = Some d' -> k <> (ns, name (dep_metadata d)) -> k.1 = ns ->
                labels (dep_metadata d') !! "deployment-id" <> Some id) ->
  omap (fun kd : string * string * Deployment =>
          if bool_decide (kd.1.1 = ns)
             && Mem.selects ("deployment-id=" +:+ id) (dep_metadata kd.2)
          then Some kd.2 else None)
       (map_to_list (<[(ns, name (dep_metadata d)) := stampDeployment d id]> ds))
  = [stampDeployment d id].
Proof.
  intros Hother. apply Permutation_singleton_r.
  rewrite <- insert_delete_eq.
  rewrite map_to_list_insert by apply lookup_delete_eq.
  cbn. rewrite bool_decide_eq_true_2 by done. cbn.
  rewrite selects_stamped. constructor.
  match goal with |- omap ?f ?l ≡ₚ [] => assert (omap f l = []) as ->; [|done] end.
  apply omap_all_None. intros [k d'] Hin. cbn.
  apply elem_of_map_to_list in Hin. apply lookup_delete_Some in Hin as [Hk Hd'].
  destruct (bool_decide (k.1 = ns)) eqn:Hns; [|done]. cbn.
  apply bool_decide_eq_true in Hns.
  destruct (Mem.selects _ _) eqn:Hsel; [|done].
  apply selects_label in Hsel. by destruct (Hother k d' Hd' (not_eq_sym Hk) Hns).
Qed.

(** X1.  The correlation identifier stamped by a rollout is the key that
    finds it again.  In the in-memory cluster, after [deployToKubernetes]
    applied a configuration with a deployment [d] under the identifier [id]
    (no other deployment of the namespace carrying that identifier), the
    lookup of the monitor returns exactly the stamped [d].  The lookup of
    [rollback] finds it as well; [rollback] then throws the [TypeError] of
    the rollback call that the client does not have, and the cluster is as
    the rollout left it. *)
Theorem rollout_then_lookup (cfg : KubernetesConfig) (d : Deployment)
    (ns app id : string) (c : Mem.Cluster) :
  deployment cfg = Some d ->
  idUnusedElsewhere id ns (name (dep_metadata d)) c ->
  exists (rs : list DeployedResource) (c1 : Mem.Cluster),
    deployToKubernetes cfg ns app id c = (Ok rs, c1) /\
    MonitorAgent.findDeploymentById id ns c1 = (Ok (Some (stampDeployment d id)), c1) /\
    listNamespacedDeployment ns ("deployment-id=" +:+ id) c1
    = (Ok [stampDeployment d id], c1) /\
    rollback id ns c1
    = (Throw (notAFunction "this.k8sApi.createNamespacedDeploymentRollback"), c1).
Proof.
  intros Hd Hfresh.
  destruct (Mem_deployToKubernetes cfg ns app id c) as (rs & c1 & Hrun & Hdeps).
  rewrite Hd in Hdeps.
  exists rs, c1. split; [exact Hrun|].
  assert (Hlist : listNamespacedDeployment ns ("deployment-id=" +:+ id) c1
                  = (Ok [stampDeployment d id], c1)).
  { cbn. rewrite Hdeps. by rewrite (Mem_list_after_store d ns id _ Hfresh). }
  split; [|split; [exact Hlist|]].
  - unfold MonitorAgent.findDeploymentById, try_catch, bind, ret. by rewrite Hlist.
  - exact (rollback_first_match _ _ id ns c1 c1 _ _ Hlist).
Qed.

Lemma rollout_then_lookup_witness :
  exists (rs : list DeployedResource) (c1 : Mem.Cluster),
    deployToKubernetes (single (DDeployment Examples.web)) "prod" "acme-web" "id-9"
      (Examples.clusterWith Examples.webIngress)
    = (Ok rs, c1) /\
    MonitorAgent.findDeploymentById "id-9" "prod" c1
    = (Ok (Some (stampDeployment Examples.web "id-9")), c1) /\
    listNamespacedDeployment "prod" "deployment-id=id-9" c1
    = (Ok [stampDeployment Examples.web "id-9"], c1) /\
    rollback "id-9" "prod" c1
    = (Throw (notAFunction "this.k8sApi.createNamespacedDeploymentRollback"), c1).
Proof.
  apply (rollout_then_lookup (single (DDeployment Examples.web)) Examples.web
           "prod" "acme-web" "id-9" (Examples.clusterWith Examples.webIngress) eq_refl).
  intros k d Hk Hne _. cbn in Hk.
  apply lookup_singleton_Some in Hk as [<- _]. by destruct Hne.
Defined.

(** ** Readiness wait: timing and the deployment scaled to zero *)

(** What a finished run of the loop recorded, and when it finished. *)
Lemma Scripted_waitLoop_run (fuel : nat) (app ns : string) (T start L : Z)
    (w w' : Scripted.World) (r : result bool) :
  Scripted.timely (Scripted.script w) ->
  waitLoop fuel app ns T start w = Some (r, w') ->
  exists new : list Scripted.Call,
    Scripted.calls w' = Scripted.calls w ++ new /\
    (r = Ok true ->
     exists (n : nat) (d : Deployment),
       Scripted.deployment_answers (Scripted.script w) n = Ok d /\ isReady d = true) /\
    (latencyAtMost L (Scripted.script w) ->
     (new = [] /\ Scripted.clock w' = Scripted.clock w) \/
     Scripted.clock w' - start < T + 5000 + 2 * L).
Proof.
  revert w. induction fuel as [|fuel IH]; intros w Htimely Hrun; [discriminate|].
  cbn [waitLoop] in Hrun. cbn [Date_now Scripted.timer] in Hrun.
  destruct (Scripted.clock w - start <? T) eqn:Hdeadline.
  - apply Z.ltb_lt in Hdeadline.
    unfold pollOnce, try_catch, bind, ret, sleepM in Hrun.
    cbn [readNamespacedDeployment Scripted.apps] in Hrun. unfold Scripted.call in Hrun.
    pose proof (Htimely (length (Scripted.calls w))) as Hlo1.
    destruct (Scripted.deployment_answers (Scripted.script w) (length (Scripted.calls w)))
      as [d|e] eqn:Hanswer.
    + destruct (isReady d) eqn:Hready.
      * injection Hrun as <- <-.
        exists [Scripted.ReadDeployment app ns (Ok d)]. split; [done|]. split.
        { intros _. by exists (length (Scripted.calls w)), d. }
        intros Hlat. pose proof (Hlat (length (Scripted.calls w))) as Hhi1.
        right. cbn. lia.
      * cbn [sleep Scripted.timer] in Hrun.
        pose proof (Htimely (length (Scripted.calls w ++ [Scripted.ReadDeployment app ns (Ok d)]))) as Hlo2.
        apply IH in Hrun as (new & Hcalls & Hok & Htime); [|exact Htimely].
        exists (Scripted.ReadDeployment app ns (Ok d) :: Scripted.Sleep 5000 :: new).
        split; [rewrite Hcalls; cbn; by rewrite <- !app_assoc|].
        split; [exact Hok|]. intros Hlat. right.
        pose proof (Hlat (length (Scripted.calls w))) as Hhi1.
        pose proof (Hlat (length (Scripted.calls w ++ [Scripted.ReadDeployment app ns (Ok d)]))) as Hhi2.
        specialize (Htime Hlat).
        cbn [Scripted.clock Scripted.record Scripted.script Scripted.calls] in *.
        destruct Htime as [[_ ->] | Htime]; lia.
    + cbn [sleep Scripted.timer] in Hrun.
      pose proof (Htimely (length (Scripted.calls w ++ [Scripted.ReadDeployment app ns (Throw e)]))) as Hlo2.
      apply IH in Hrun as (new & Hcalls & Hok & Htime); [|exact Htimely].
      exists (Scripted.ReadDeployment app ns (Throw e) :: Scripted.Sleep 5000 :: new).
      split; [rewrite Hcalls; cbn; by rewrite <- !app_assoc|].
      split; [exact Hok|]. intros Hlat. right.
      pose proof (Hlat (length (Scripted.calls w))) as Hhi1.
      pose proof (Hlat (length (Scripted.calls w ++ [Scripted.ReadDeployment app ns (Throw e)]))) as Hhi2.
      specialize (Htime Hlat).
      cbn [Scripted.clock Scripted.record Scripted.script Scripted.calls] in *.
      destruct Htime as [[_ ->] | Htime]; lia.
  - injection Hrun as <- <-. exists []. rewrite app_nil_r.
    split; [done|]. split; [discriminate|]. intros _. by left.
Qed.

Lemma isReady_needs_replicas (d : Deployment) : isReady d = true -> 0 < desiredReplicas d.
Proof. intros H. by apply isReady_spec in H as [_ H]. Qed.

(** X2.  A deployment whose desired replica count is zero (or absent) is
    never reported ready: [replicas > 0] fails at every poll, so
    [waitForDeployment] runs to the deadline and throws the timeout error,
    although such a deployment has converged. *)
Theorem waitForDeployment_scaled_to_zero (app ns : string) (timeoutMs : option Z)
    (w : Scripted.World) (fuel : nat) :
  Scripted.timely (Scripted.script w) ->
  scaledToZero (Scripted.script w) ->
  (enoughPolls (deadline timeoutMs) <= fuel)%nat ->
  exists w' : Scripted.World,
    waitForDeployment fuel app ns timeoutMs w
    = Some (Throw (timeoutError app (deadline timeoutMs)), w') /\
    deadline timeoutMs <= Scripted.clock w' - Scripted.clock w.
Proof.
  intros Htimely Hzero Hfuel. unfold waitForDeployment. fold (deadline timeoutMs).
  unfold enoughPolls in Hfuel.
  destruct (Scripted_waitLoop fuel app ns (deadline timeoutMs) (Date_now w) w Htimely)
    as (r & w' & new & Hrun & _ & _ & Hres).
  { cbn [Date_now Scripted.timer]. rewrite Z.sub_diag, Z.sub_0_r.
    pose proof (pollsLeft_bound (deadline timeoutMs)). lia. }
  destruct Hres as [(-> & _) | (-> & Hlate & _)].
  - destruct (Scripted_waitLoop_run fuel app ns (deadline timeoutMs) (Date_now w)
                0 w w' (Ok true) Htimely Hrun) as (_ & _ & Hok & _).
    destruct (Hok eq_refl) as (n & d & Hn & Hd).
    apply isReady_needs_replicas in Hd. specialize (Hzero n d Hn). lia.
  - exists w'. by split.
Qed.

Lemma waitForDeployment_scaled_to_zero_witness :
  Scripted.timely scaledDownScript /\
  scaledToZero scaledDownScript /\
  exists w' : Scripted.World,
    waitForDeployment 62 "acme-web" "prod" None (Scripted.start scaledDownScript 0)
    = Some (Throw (timeoutError "acme-web" 300000), w') /\
    300000 <= Scripted.clock w' - 0.
Proof.
  assert (Htimely : Scripted.timely scaledDownScript) by (intros n; cbn; lia).
  assert (Hzero : scaledToZero scaledDownScript).
  { intros n d [= <-]. vm_compute. discriminate. }
  split; [exact Htimely|]. split; [exact Hzero|].
  exact (waitForDeployment_scaled_to_zero "acme-web" "prod" None
           (Scripted.start scaledDownScript 0) 62 Htimely Hzero ltac:(vm_compute; lia)).
Defined.

(** X3.  The readiness wait ends within one poll period of its deadline.
    When no call takes longer than [L] ms and the deadline [T] is not
    negative, [waitForDeployment] finishes less than [T + 5000 + 2 L] ms
    after its start, whatever the outcome; a timeout is therefore reported
    between [T] and [T + 5000 + 2 L] ms after the start. *)
Theorem waitForDeployment_ends_near_deadline (app ns : string) (timeoutMs : option Z)
    (L : Z) (w : Scripted.World) (fuel : nat) :
  Scripted.timely (Scripted.script w) ->
  latencyAtMost L (Scripted.script w) ->
  0 <= deadline timeoutMs ->
  (enoughPolls (deadline timeoutMs) <= fuel)%nat ->
  exists (r : result bool) (w' : Scripted.World),
    waitForDeployment fuel app ns timeoutMs w = Some (r, w') /\
    Scripted.clock w' - Scripted.clock w < deadline timeoutMs + 5000 + 2 * L /\
    (r <> Ok true -> deadline timeoutMs <= Scripted.clock w' - Scripted.clock w).
Proof.
  intros Htimely Hlat HT Hfuel. unfold waitForDeployment. fold (deadline timeoutMs).
  unfold enoughPolls in Hfuel.
  destruct (Scripted_waitLoop fuel app ns (deadline timeoutMs) (Date_now w) w Htimely)
    as (r & w' & new & Hrun & _ & _ & Hres).
  { cbn [Date_now Scripted.timer]. rewrite Z.sub_diag, Z.sub_0_r.
    pose proof (pollsLeft_bound (deadline timeoutMs)). lia. }
  exists r, w'. split; [exact Hrun|].
  destruct (Scripted_waitLoop_run fuel app ns (deadline timeoutMs) (Date_now w)
              L w w' r Htimely Hrun) as (new' & _ & _ & Htime).
  cbn [Date_now Scripted.timer] in *.
  pose proof (Htimely 0%nat). pose proof (Hlat 0%nat).
  split.
  - destruct (Htime Hlat) as [[_ Heq] | Hlt]; lia.
  - intros Hr. destruct Hres as [(-> & _) | (_ & Hlate & _)]; [done | exact Hlate].
Qed.

Lemma waitForDeployment_ends_near_deadline_witness :
  exists (r : result bool) (w' : Scripted.World),
    waitForDeployment 3 "acme-web" "prod" (Some 2000) (Scripted.start stuckScript 0)
    = Some (r, w') /\
    Scripted.clock w' - 0 < 2000 + 5000 + 2 * 20 /\
    (r <> Ok true -> 2000 <= Scripted.clock w' - 0).
Proof.
  apply (waitForDeployment_ends_near_deadline "acme-web" "prod" (Some 2000) 20
           (Scripted.start stuckScript 0) 3).
  - intros n. cbn. lia.
  - intros n. cbn. lia.
  - cbn. lia.
  - vm_compute. lia.
Defined.

(** ** The report: bounds and the meaning of a mean *)

Lemma ratio_bounds (h v : nat) :
  (h <= v)%nat -> (0 < v)%nat ->
  (0 <= inject_Z (Z.of_nat h) / inject_Z (Z.of_nat v) * 100)%Q /\
  (inject_Z (Z.of_nat h) / inject_Z (Z.of_nat v) * 100 <= 100)%Q.
Proof.
  intros Hle Hpos.
  assert (Hv : (0 < inject_Z (Z.of_nat v))%Q).
  { change 0%Q with (inject_Z 0). rewrite <- Zlt_Qlt. lia. }
  assert (Hlo : (0 <= inject_Z (Z.of_nat h) / inject_Z (Z.of_nat v))%Q).
  { apply Qle_shift_div_l; [exact Hv|]. rewrite Qmult_0_l.
    change 0%Q with (inject_Z 0). rewrite <- Zle_Qle. lia. }
  assert (Hhi : (inject_Z (Z.of_nat h) / inject_Z (Z.of_nat v) <= 1)%Q).
  { apply Qle_shift_div_r; [exact Hv|]. rewrite Qmult_1_l. rewrite <- Zle_Qle. lia. }
  split; lra.
Qed.

(** X4.  Whenever the report carries metrics: [monitoring_duration] is the
    number of samples taken (not a duration in seconds), [data_points] is at
    least 1 and at most that number, and the success rate lies between 0
    and 100 percent. *)
Theorem generateMonitoringReport_metrics_bounds (app ns : string)
    (samples : list MonitorAgent.Sample) (m : MonitorAgent.ReportMetrics) :
  MonitorAgent.metrics (MonitorAgent.generateMonitoringReport app ns samples) = Some m ->
  MonitorAgent.monitoring_duration m = length samples /\
  (1 <= MonitorAgent.data_points m <= MonitorAgent.monitoring_duration m)%nat /\
  MonitorAgent.data_points m = length (validSamples samples) /\
  (0 <= MonitorAgent.health_success_rate m)%Q /\
  (MonitorAgent.health_success_rate m <= 100)%Q.
Proof.
  unfold MonitorAgent.generateMonitoringReport. fold (validSamples samples).
  destruct (length (validSamples samples) =? 0)%nat eqn:Hlen; [discriminate|].
  apply Nat.eqb_neq in Hlen. cbn. intros [= <-]. cbn.
  assert (Hsub : (length (validSamples samples) <= length samples)%nat)
    by apply length_filter.
  split; [done|]. split; [lia|]. split; [done|].
  apply ratio_bounds; [apply length_filter | lia].
Qed.

Lemma generateMonitoringReport_metrics_bounds_witness :
  let m := {| MonitorAgent.monitoring_duration := 3;
              MonitorAgent.average_ready_replicas := (4 # 2)%Q;
              MonitorAgent.average_running_pods := (4 # 2)%Q;
              MonitorAgent.health_success_rate := ((2 # 2) * 100)%Q;
              MonitorAgent.data_points := 2 |} in
  MonitorAgent.monitoring_duration m = 3%nat /\
  (1 <= MonitorAgent.data_points m <= MonitorAgent.monitoring_duration m)%nat.
Proof.
  intros m.
  destruct (generateMonitoringReport_metrics_bounds "acme-web" "prod"
              (MonitorAgent.Failure 0 "socket hang up" :: probeSamples 2 0) m)
    as (H1 & H2 & _).
  - vm_compute. reflexivity.
  - split; [exact H1 | exact H2].
Defined.

Lemma foldl_add_shift (a : Z) (l : list Z) : foldl Z.add a l = a + foldl Z.add 0 l.
Proof.
  revert a. induction l as [|x l IH]; intros a; cbn; [lia|].
  rewrite (IH (a + x)), (IH (0 + x)). lia.
Qed.

Lemma sumZ_at_least (k : Z) (l : list Z) :
  Forall (fun v => k <= v) l -> k * Z.of_nat (length l) <= MonitorAgent.sumZ l.
Proof.
  unfold MonitorAgent.sumZ. induction 1 as [|x l Hx _ IH]; cbn [foldl length]; [lia|].
  rewrite foldl_add_shift. lia.
Qed.

(** The mean of the values found is at least [k] when there is a value and
    every value is; it is [0] when there is none. *)
Lemma calculateAverage_at_least (k : Z) (results : list MonitorAgent.Sample)
    (path : MonitorAgent.Sample -> option Z) :
  omap path results <> [] ->
  Forall (fun v => k <= v) (omap path results) ->
  (inject_Z k <= MonitorAgent.calculateAverage results path)%Q.
Proof.
  intros Hne Hall. unfold MonitorAgent.calculateAverage.
  destruct (0 <? length (omap path results))%nat eqn:Hlen.
  - apply Nat.ltb_lt in Hlen. apply Qle_shift_div_l.
    + change 0%Q with (inject_Z 0). rewrite <- Zlt_Qlt. lia.
    + rewrite <- inject_Z_mult, <- Zle_Qle. by apply sumZ_at_least.
  - apply Nat.ltb_ge in Hlen. destruct (omap path results); [done | cbn in Hlen; lia].
Qed.

Lemma calculateAverage_no_value (results : list MonitorAgent.Sample)
    (path : MonitorAgent.Sample -> option Z) :
  omap path results = [] -> MonitorAgent.calculateAverage results path = 0%Q.
Proof. intros H. unfold MonitorAgent.calculateAverage. by rewrite H. Qed.

(** X5.  What the replica alert measures.  With at least one valid sample:
    - if some valid sample carries deployment metrics and every one that
      does has at least one ready replica, "Low replica count detected" is
      not raised, however many samples lack the metrics (they are left out
      of the mean, not counted as zero);
    - if no valid sample carries deployment metrics (every read of the
      deployment failed), the mean defaults to 0 and the alert is raised,
      together with the recommendation to increase the replica count. *)
Theorem generateMonitoringReport_replica_alert (app ns : string)
    (samples : list MonitorAgent.Sample) :
  validSamples samples <> [] ->
  let values := omap MonitorAgent.readyReplicasOf (validSamples samples) in
  let report := MonitorAgent.generateMonitoringReport app ns samples in
  (values <> [] -> Forall (fun v => 1 <= v) values ->
   ~ In "Low replica count detected" (MonitorAgent.alerts report)) /\
  (values = [] ->
   In "Low replica count detected" (MonitorAgent.alerts report) /\
   In "Consider increasing replica count for high availability"
      (MonitorAgent.recommendations report)).
Proof.
  intros Hne values report.
  destruct (generateMonitoringReport_valid app ns samples Hne) as (_ & Halerts & Hrecs).
  fold report in Halerts, Hrecs. rewrite Halerts, Hrecs. clear Halerts Hrecs.
  unfold meanReadyReplicas. split.
  - intros Hsome Hall.
    pose proof (calculateAverage_at_least 1 _ _ Hsome Hall) as Hmean.
    change (inject_Z 1) with 1%Q in Hmean.
    apply Qltb_ge in Hmean. rewrite Hmean.
    destruct (MonitorAgent.Qltb (meanRunningPods _) 1),
             (MonitorAgent.Qltb (successRate _) 80); cbn; intuition discriminate.
  - intros Hnone. rewrite (calculateAverage_no_value _ _ Hnone).
    split; [by left|]. by left.
Qed.

Lemma generateMonitoringReport_replica_alert_witness :
  In "Low replica count detected"
     (MonitorAgent.alerts
        (MonitorAgent.generateMonitoringReport "acme-web" "prod"
           [MonitorAgent.Failure 0 ""])) /\
  ~ In "Low replica count detected"
      (MonitorAgent.alerts
         (MonitorAgent.generateMonitoringReport "acme-web" "prod"
            (MonitorAgent.Failure 0 "" :: probeSamples 1 1))).
Proof.
  split.
  - refine (proj1 (proj2 (generateMonitoringReport_replica_alert "acme-web" "prod"
                            [MonitorAgent.Failure 0 ""] _) _)).
    + vm_compute. discriminate.
    + reflexivity.
  - refine (proj1 (generateMonitoringReport_replica_alert "acme-web" "prod"
                     (MonitorAgent.Failure 0 "" :: probeSamples 1 1) _) _ _).
    + vm_compute. discriminate.
    + vm_compute. discriminate.
    + vm_compute. repeat constructor; discriminate.
Defined.

(** ** Application name *)

Lemma name_char_is_lower (c : ascii) :
  Provision.isNameChar c = true -> Provision.toLowerCaseChar c = c.
Proof. destruct c as [[] [] [] [] [] [] [] []]; vm_compute; congruence. Qed.

Lemma mapChars_length (f : ascii -> ascii) (s : string) :
  String.length (Provision.mapChars f s) = String.length s.
Proof. induction s as [|c s IH]; cbn; [done | by rewrite IH]. Qed.

Lemma replaceOthers_allowed (s : string) :
  allChars Provision.isNameChar (Provision.replaceOthers s) = true.
Proof.
  unfold Provision.replaceOthers.
  induction s as [|c s IH]; cbn; [done|]. rewrite IH, andb_true_r.
  destruct (Provision.isNameChar c) eqn:E; [exact E | reflexivity].
Qed.

Lemma allowed_fixed (s : string) :
  allChars Provision.isNameChar s = true ->
  Provision.toLowerCase s = s /\ Provision.replaceOthers s = s.
Proof.
  unfold Provision.toLowerCase, Provision.replaceOthers.
  induction s as [|c s IH]; cbn; [done|].
  intros [Hc Hs]%andb_true_iff. destruct (IH Hs) as [IH1 IH2].
  rewrite IH1, IH2, Hc, (name_char_is_lower c Hc). done.
Qed.

Lemma length_append (a b : string) :
  String.length (a +:+ b) = (String.length a + String.length b)%nat.
Proof. induction a as [|c a IH]; simpl; [done | by f_equal]. Qed.

(** X6.  For an owner and a repository name of ASCII text: the application
    name derived from them consists of characters of [[a-z0-9-]] only;
    deriving it again from itself changes nothing (lower-casing and
    replacing are idempotent on it); and it has exactly as many characters
    as [owner-repo], each foreign character being replaced by one [-], so
    that distinct repositories can share an application name. *)
Theorem appNameOf_is_a_name (owner : string) (repo : option string) :
  isAscii owner = true ->
  isAscii (show_opt repo) = true ->
  let appName := Provision.appNameOf owner repo in
  allChars Provision.isNameChar appName = true /\
  Provision.replaceOthers (Provision.toLowerCase appName) = appName /\
  String.length appName
  = (String.length owner + 1 + String.length (show_opt repo))%nat /\
  (forall c1 c2 : ascii,
      Provision.isAsciiChar c1 = true ->
      Provision.isAsciiChar c2 = true ->
      Provision.isNameChar (Provision.toLowerCaseChar c1) = false ->
      Provision.isNameChar (Provision.toLowerCaseChar c2) = false ->
      Provision.appNameOf (String c1 owner) repo = Provision.appNameOf (String c2 owner) repo).
Proof.
  intros _ _ appName. subst appName. unfold Provision.appNameOf.
  pose proof (replaceOthers_allowed (Provision.toLowerCase (owner +:+ "-" +:+ show_opt repo)))
    as Hallowed.
  split; [exact Hallowed|]. split.
  - destruct (allowed_fixed _ Hallowed) as [-> ->]. done.
  - split.
    + unfold Provision.replaceOthers, Provision.toLowerCase.
      rewrite !mapChars_length, !length_append. cbn. lia.
    + intros c1 c2 _ _ H1 H2. unfold Provision.replaceOthers, Provision.toLowerCase.
      change (String ?c owner +:+ ?t) with (String c (owner +:+ t)).
      cbn [Provision.mapChars]. by rewrite H1, H2.
Qed.

Lemma appNameOf_is_a_name_witness :
  String.length (Provision.appNameOf "Acme" (Some "Web_App")) = 12%nat /\
  Provision.appNameOf "_cme" (Some "Web") = Provision.appNameOf ".cme" (Some "Web").
Proof.
  split.
  - exact (proj1 (proj2 (proj2 (appNameOf_is_a_name "Acme" (Some "Web_App")
                                  eq_refl eq_refl)))).
  - exact (proj2 (proj2 (proj2 (appNameOf_is_a_name "cme" (Some "Web") eq_refl eq_refl)))
             "_"%char "."%char eq_refl eq_refl eq_refl eq_refl).
Defined.

Example appNameOfRepository_examples :
  Provision.appNameOfRepository "Acme/Web_App.js" = "acme-web-app-js" /\
  Provision.appNameOfRepository "acme/web.app-js" = "acme-web-app-js" /\
  Provision.appNameOfRepository "acme" = "acme-undefined" /\
  Provision.appNameOfRepository "acme/web/extra" = "acme-web".
Proof. repeat split. Qed.

(** ** Namespace provisioner *)

(** X7.  In a namespace store [ensureNamespace] always succeeds and leaves
    the namespace present.  A namespace that existed keeps its labels (it is
    not stamped as managed); a new one gets the labels [name] and
    [managed-by]; no other namespace changes; and a second call changes
    nothing. *)
Theorem ensureNamespace_idempotent (ns : string) (m : gmap string (gmap string string)) :
  let m' := match m !! ns with
            | Some _ => m
            | None => <[ns := labels (Provision.namespaceManifest ns)]> m
            end in
  Provision.ensureNamespace ns m = (Ok tt, m') /\
  Provision.ensureNamespace ns m' = (Ok tt, m') /\
  is_Some (m' !! ns) /\
  (forall l, m !! ns = Some l -> m' !! ns = Some l) /\
  (forall other, other <> ns -> m' !! other = m !! other).
Proof.
  assert (Hpresent : forall (m0 : gmap string (gmap string string)) l,
             m0 !! ns = Some l -> Provision.ensureNamespace ns m0 = (Ok tt, m0)).
  { intros m0 l H. unfold Provision.ensureNamespace, try_catch. cbn. by rewrite H. }
  destruct (m !! ns) as [l|] eqn:E; cbn.
  - rewrite (Hpresent m l E). split; [done|]. split; [done|].
    split; [by eexists|]. split; [by intros l0 [= <-] | done].
  - rewrite (Hpresent _ _ (lookup_insert_eq m ns _)). rewrite lookup_insert_eq.
    split.
    { unfold Provision.ensureNamespace, try_catch. cbn. rewrite E.
      change (Provision.isNotFound Mem.notFound) with true. cbn. by rewrite E. }
    split; [done|]. split; [by eexists|]. split; [discriminate|].
    intros other Hne. by rewrite lookup_insert_ne.
Qed.

Lemma ensureNamespace_idempotent_witness :
  let m : gmap string (gmap string string) := {["prod" := ∅]} in
  Provision.ensureNamespace "prod" m = (Ok tt, m) /\ m !! "prod" = Some ∅.
Proof.
  intros m.
  assert (Hl : m !! "prod" = Some ∅) by (subst m; by simplify_map_eq).
  pose proof (ensureNamespace_idempotent "prod" m) as H. cbv zeta in H.
  rewrite Hl in H. destruct H as (H1 & _ & _ & H4 & _).
  split; [exact H1 | exact (H4 _ eq_refl)].
Defined.

(** X8.  For every cluster API: a failure of the namespace read other than
    not-found is raised unchanged and no creation is attempted; after a
    not-found the outcome is that of the creation, so a failure of the
    creation is raised unchanged too, the conflict included (a namespace
    created by someone else between the read and the creation makes
    [ensureNamespace] fail). *)
Theorem ensureNamespace_failures {W : Type} `{!Provision.NamespaceApi W}
    (ns : string) (w w1 : W) (e : Error) :
  Provision.readNamespace ns w = (Throw e, w1) ->
  (statusCode e <> Some 404 -> Provision.ensureNamespace ns w = (Throw e, w1)) /\
  (statusCode e = Some 404 ->
   Provision.ensureNamespace ns w
   = Provision.createNamespace (Provision.namespaceManifest ns) w1) /\
  (statusCode e = Some 404 ->
   forall (e' : Error) (w2 : W),
     Provision.createNamespace (Provision.namespaceManifest ns) w1 = (Throw e', w2) ->
     Provision.ensureNamespace ns w = (Throw e', w2)).
Proof.
  intros Hread. unfold Provision.ensureNamespace, try_catch, Provision.isNotFound.
  rewrite Hread. repeat split.
  - intros Hne. by rewrite bool_decide_eq_false_2.
  - intros Heq. by rewrite bool_decide_eq_true_2.
  - intros Heq e' w2 Hcreate. by rewrite bool_decide_eq_true_2.
Qed.

Lemma ensureNamespace_failures_witness :
  Provision.ensureNamespace "prod" (∅ : gmap string (gmap string string))
  = Provision.createNamespace (Provision.namespaceManifest "prod") ∅.
Proof.
  assert (Hread : Provision.readNamespace "prod" (∅ : gmap string (gmap string string))
                  = (Throw Mem.notFound, ∅)) by reflexivity.
  exact (proj1 (proj2 (ensureNamespace_failures "prod" ∅ ∅ Mem.notFound Hread)) eq_refl).
Defined.

(** ** Test writer: which files, which names *)

Lemma split_dot_free (e : string) :
  allChars (fun c => negb (Ascii.eqb c ".")) e = true -> Provision.split "." e = [e].
Proof.
  induction e as [|c e IH]; cbn; [done|].
  intros [Hc He]%andb_true_iff. apply negb_true_iff in Hc. rewrite Hc, (IH He). done.
Qed.

(** A file name that ends with [.e], for [e] without a dot, has [e] as its
    last piece, after at least one other piece. *)
Lemma split_endsWith (f e : string) :
  allChars (fun c => negb (Ascii.eqb c ".")) e = true ->
  TestWriterAgent.endsWith f (String "." e) = true ->
  exists (piece : string) (pieces : list string),
    Provision.split "." f = (piece :: pieces) ++ [e].
Proof.
  intros He. induction f as [|c f IH]; [discriminate|].
  cbn [TestWriterAgent.endsWith]. intros [Heq | Hrec]%orb_true_iff.
  - apply String.eqb_eq in Heq. injection Heq as -> ->.
    exists EmptyString, []. cbn. by rewrite (split_dot_free e He).
  - destruct (IH Hrec) as (piece & pieces & Hsplit).
    cbn [Provision.split]. rewrite Hsplit.
    destruct (Ascii.eqb c "."); cbn.
    + by exists EmptyString, (piece :: pieces).
    + by exists (String c piece), pieces.
Qed.

Lemma extensionOf_endsWith (f e : string) :
  allChars (fun c => negb (Ascii.eqb c ".")) e = true ->
  TestWriterAgent.endsWith f (String "." e) = true ->
  TestWriterAgent.extensionOf f = e.
Proof.
  intros He Hends. destruct (split_endsWith f e He Hends) as (piece & pieces & Hsplit).
  unfold TestWriterAgent.extensionOf. rewrite Hsplit.
  by rewrite last_snoc.
Qed.

(** X9.  The gate and the tables agree: a file that [shouldGenerateTests]
    accepts has one of the six extensions that the tables of
    [detectTestFramework], [getTestFileName] and [getLanguageFromExtension]
    define, so for it the framework is a known one (never ['Unknown'], never
    an inherited member of the table object) and the test file name and the
    language are strings of the tables. *)
Theorem shouldGenerateTests_known_extension (filename : string) :
  TestWriterAgent.shouldGenerateTests filename = true ->
  In (TestWriterAgent.extensionOf filename) testedExtensions /\
  (exists fw : string,
      TestWriterAgent.detectTestFramework filename = TestWriterAgent.Str fw /\
      In fw knownFrameworks) /\
  (exists nm : string, TestWriterAgent.getTestFileName filename = TestWriterAgent.Str nm) /\
  (exists lang : string,
      TestWriterAgent.getLanguageFromExtension filename = TestWriterAgent.Str lang).
Proof.
  unfold TestWriterAgent.shouldGenerateTests. intros [Hext _]%andb_true_iff.
  cbn [existsb TestWriterAgent.testableExtensions] in Hext.
  unfold TestWriterAgent.detectTestFramework, TestWriterAgent.getTestFileName,
    TestWriterAgent.getLanguageFromExtension.
  repeat apply orb_true_iff in Hext as [Hext | Hext]; try discriminate;
    match type of Hext with
    | TestWriterAgent.endsWith _ (String _ ?e) = true =>
        rewrite (extensionOf_endsWith _ e eq_refl Hext)
    end;
    (split; [cbn; tauto|]);
    (split; [eexists; split; [reflexivity | cbn; tauto]|]);
    split; eexists; reflexivity.
Qed.

Lemma shouldGenerateTests_known_extension_witness :
  TestWriterAgent.shouldGenerateTests "src/agents/deployAgent.js" = true /\
  In (TestWriterAgent.extensionOf "src/agents/deployAgent.js") testedExtensions.
Proof.
  split; [reflexivity|].
  exact (proj1 (shouldGenerateTests_known_extension "src/agents/deployAgent.js" eq_refl)).
Defined.

(** Outside the gate the tables answer differently. *)
Example detectTestFramework_outside_the_gate :
  TestWriterAgent.detectTestFramework "README.md" = TestWriterAgent.Str "Unknown" /\
  TestWriterAgent.detectTestFramework "object.constructor"
  = TestWriterAgent.Inherited "constructor" /\
  TestWriterAgent.getTestFileName "src/a.js.map.js"
  = TestWriterAgent.Str "src/a.map.js.test.js" /\
  TestWriterAgent.getTestFileName "pkg/util.py" = TestWriterAgent.Str "test_pkg/util.py".
Proof. repeat split. Qed.

Lemma includes_append (a b pattern : string) :
  TestWriterAgent.includes b pattern = true ->
  TestWriterAgent.includes (a +:+ b) pattern = true.
Proof.
  intros Hb. induction a as [|c a IH]; [exact Hb|].
  change (String c a +:+ b) with (String c (a +:+ b)).
  cbn [TestWriterAgent.includes]. rewrite IH. apply orb_true_r.
Qed.

(** X10.  For a JavaScript or TypeScript file the generated test file is
    named [{name}.test.js] or [{name}.test.ts], and such a name is never
    itself accepted by [shouldGenerateTests]: the tests that the agent
    writes are not taken as sources for further tests. *)
Theorem getTestFileName_is_not_a_source (filename : string) :
  In (TestWriterAgent.extensionOf filename) ["js"; "ts"] ->
  exists nm : string,
    TestWriterAgent.getTestFileName filename = TestWriterAgent.Str nm /\
    nm = TestWriterAgent.removeFirst ("." +:+ TestWriterAgent.extensionOf filename) filename
           +:+ ".test." +:+ TestWriterAgent.extensionOf filename /\
    TestWriterAgent.shouldGenerateTests nm = false.
Proof.
  assert (Hexcluded : forall a e : string,
             TestWriterAgent.includes (".test." +:+ e) ".test." = true ->
             TestWriterAgent.shouldGenerateTests (a +:+ ".test." +:+ e) = false).
  { intros a e He. unfold TestWriterAgent.shouldGenerateTests.
    apply andb_false_iff. right. apply negb_false_iff.
    cbn [existsb TestWriterAgent.excludePatterns].
    rewrite (includes_append a (".test." +:+ e) ".test." He). by rewrite !orb_true_r. }
  intros [Hext | [Hext | []]]; unfold TestWriterAgent.getTestFileName; rewrite <- Hext;
    (eexists; split; [reflexivity|]; split; [reflexivity|]);
    by apply Hexcluded.
Qed.

Lemma getTestFileName_is_not_a_source_witness :
  exists nm : string,
    TestWriterAgent.getTestFileName "src/agents/deployAgent.js" = TestWriterAgent.Str nm /\
    nm = "src/agents/deployAgent" +:+ ".test." +:+ "js" /\
    TestWriterAgent.shouldGenerateTests nm = false.
Proof.
  exact (getTestFileName_is_not_a_source "src/agents/deployAgent.js" (or_introl eq_refl)).
Defined.

(** The other conventions do not have that property. *)
Example getTestFileName_go_is_a_source :
  TestWriterAgent.getTestFileName "pkg/store.go" = TestWriterAgent.Str "pkg/store_test.go" /\
  TestWriterAgent.shouldGenerateTests "pkg/store_test.go" = true.
Proof. split; reflexivity. Qed.

(** ** Test writer: coverage estimate *)

Lemma totalTests_shift (a : Z) (tests : list TestWriterAgent.GeneratedTest) :
  foldl (fun sum test =>
           sum + Z.of_nat (TestWriterAgent.countMatches 0 (TestWriterAgent.test_content test)))
        a tests
  = a + foldl (fun sum test =>
                 sum + Z.of_nat (TestWriterAgent.countMatches 0
                                   (TestWriterAgent.test_content test)))
              0 tests.
Proof.
  revert a. induction tests as [|t tests IH]; intros a; cbn [foldl]; [lia|].
  rewrite (IH (a + _)), (IH (0 + _)). lia.
Qed.

Lemma totalTests_nonneg (tests : list TestWriterAgent.GeneratedTest) :
  0 <= foldl (fun sum test =>
                sum + Z.of_nat (TestWriterAgent.countMatches 0
                                  (TestWriterAgent.test_content test)))
             0 tests.
Proof.
  induction tests as [|t tests IH]; cbn [foldl]; [lia|].
  rewrite totalTests_shift. lia.
Qed.

(** X11.  The coverage estimate is a percentage between 0 and 95: it is 0
    when no test was generated, never reaches 100, and does not decrease
    when further generated tests are added. *)
Theorem estimateCoverage_bounds (tests more : list TestWriterAgent.GeneratedTest) :
  0 <= TestWriterAgent.estimateCoverage tests <= 95 /\
  TestWriterAgent.estimateCoverage [] = 0 /\
  TestWriterAgent.estimateCoverage tests <= TestWriterAgent.estimateCoverage (tests ++ more).
Proof.
  unfold TestWriterAgent.estimateCoverage.
  pose proof (totalTests_nonneg tests) as Htests.
  pose proof (totalTests_nonneg more) as Hmore.
  rewrite foldl_app, (totalTests_shift (foldl _ 0 tests) more).
  cbn [foldl]. lia.
Qed.

Example estimateCoverage_examples :
  TestWriterAgent.estimateCoverage
    [testWith "describe('x', () => { it('a', f); it('b', g); test('c', h); });"] = 30 /\
  TestWriterAgent.estimateCoverage [testWith "def test_latest(): assert latest()"] = 30 /\
  TestWriterAgent.estimateCoverage
    [testWith "test test test test test"; testWith "it( it( it( it( it( it("] = 95.
Proof. repeat split. Qed.

(** ** Image handler: manifests applied as they are *)

Lemma Mem_handler_deployToKubernetes (cfg : KubernetesConfig) (ns : string)
    (c : Mem.Cluster) :
  exists (rs : list DockerHandlerAgent.Outcome) (c1 : Mem.Cluster),
    DockerHandlerAgent.deployToKubernetes true (handlerParams cfg ns) c
    = (Ok {| DockerHandlerAgent.deployment_status := "success";
             DockerHandlerAgent.deployed_resources := rs;
             DockerHandlerAgent.namespace := ns |}, c1) /\
    Mem.deployments c1
    = match deployment cfg with
      | Some d => <[(ns, name (dep_metadata d)) := d]> (Mem.deployments c)
      | None => Mem.deployments c
      end /\
    Mem.ingresses c1 = Mem.ingresses c /\
    length rs = (length (option_list (deployment cfg)) + length (option_list (service cfg)))%nat.
Proof.
  unfold DockerHandlerAgent.deployToKubernetes, bind, try_catch, ret, throw. cbn.
  destruct cfg as [[d|] [s|] i]; cbn;
    repeat match goal with
           | H : ?x = Some _ |- context [?x] => rewrite H; cbn
           | H : ?x = None |- context [?x] => rewrite H; cbn
           | |- context [isConflict Mem.conflict] =>
               rewrite isConflict_conflict; cbn
           | |- context [Mem.deployments c !! ?k] =>
               destruct (Mem.deployments c !! k) eqn:?; cbn
           | |- context [Mem.services c !! ?k] =>
               destruct (Mem.services c !! k) eqn:?; cbn
           end;
    eexists _, _; repeat split; reflexivity.
Qed.

(** X12.  [DockerHandlerAgent.deployToKubernetes]:
    - without an initialised client it throws "Kubernetes client not
      initialized" before any call is made, for every cluster API;
    - in the in-memory cluster it returns [deployment_status = 'success'],
      stores the deployment manifest as it is (no label is added), reports
      one entry per deployment and service manifest, and leaves the
      ingresses untouched: an ingress manifest in [k8s_manifests] is never
      applied. *)
Theorem handler_deployToKubernetes_skips_ingress (cfg : KubernetesConfig) (ns : string) :
  (forall (W : Type) (A : AppsV1Api W) (C : CoreV1Api W) (w : W),
      DockerHandlerAgent.deployToKubernetes false (handlerParams cfg ns) w
      = (Throw DockerHandlerAgent.notInitialized, w)) /\
  (forall c : Mem.Cluster,
      exists (rs : list DockerHandlerAgent.Outcome) (c1 : Mem.Cluster),
        DockerHandlerAgent.deployToKubernetes true (handlerParams cfg ns) c
        = (Ok {| DockerHandlerAgent.deployment_status := "success";
                 DockerHandlerAgent.deployed_resources := rs;
                 DockerHandlerAgent.namespace := ns |}, c1) /\
        Mem.ingresses c1 = Mem.ingresses c /\
        (forall d, deployment cfg = Some d ->
                   Mem.deployments c1 !! (ns, name (dep_metadata d)) = Some d) /\
        length rs
        = (length (option_list (deployment cfg)) + length (option_list (service cfg)))%nat).
Proof.
  split; [done|]. intros c.
  destruct (Mem_handler_deployToKubernetes cfg ns c)
    as (rs & c1 & Hrun & Hdeps & Hing & Hlen).
  exists rs, c1. split; [exact Hrun|]. split; [exact Hing|]. split; [|exact Hlen].
  intros d Hd. rewrite Hdeps, Hd. apply lookup_insert_eq.
Qed.

Lemma handler_deployToKubernetes_skips_ingress_witness :
  exists (rs : list DockerHandlerAgent.Outcome) (c1 : Mem.Cluster),
    DockerHandlerAgent.deployToKubernetes true
      (handlerParams {| deployment := Some Examples.web;
                        service := Some Examples.webService;
                        ingress := Some Examples.webIngress |} "prod") Mem.empty
    = (Ok {| DockerHandlerAgent.deployment_status := "success";
             DockerHandlerAgent.deployed_resources := rs;
             DockerHandlerAgent.namespace := "prod" |}, c1) /\
    Mem.ingresses c1 = ∅ /\
    Mem.deployments c1 !! ("prod", "acme-web") = Some Examples.web.
Proof.
  destruct (proj2 (handler_deployToKubernetes_skips_ingress
                     {| deployment := Some Examples.web;
                        service := Some Examples.webService;
                        ingress := Some Examples.webIngress |} "prod") Mem.empty)
    as (rs & c1 & Hrun & Hing & Hdep & _).
  exists rs, c1. split; [exact Hrun|]. split; [exact Hing|]. exact (Hdep _ eq_refl).
Defined.

(** X13.  A deployment applied by the image handler carries no correlation
    identifier of its own: unless its manifest already has the label, it is
    found neither by [DeployAgent.rollback] nor by the monitor's lookup, for
    any identifier not in use in the namespace. *)
Theorem handler_rollout_has_no_identifier (cfg : KubernetesConfig) (ns id : string)
    (c : Mem.Cluster) :
  idUnused id ns c ->
  (forall d, deployment cfg = Some d ->
             labels (dep_metadata d) !! "deployment-id" <> Some id) ->
  exists (r : DockerHandlerAgent.DeployResult) (c1 : Mem.Cluster),
    DockerHandlerAgent.deployToKubernetes true (handlerParams cfg ns) c = (Ok r, c1) /\
    rollback id ns c1 = (Throw (notFoundError id), c1) /\
    MonitorAgent.findDeploymentById id ns c1 = (Ok None, c1).
Proof.
  intros Hunused Hmanifest.
  destruct (Mem_handler_deployToKubernetes cfg ns c) as (rs & c1 & Hrun & Hdeps & _).
  eexists _, c1. split; [exact Hrun|].
  assert (Hlist : listNamespacedDeployment ns ("deployment-id=" +:+ id) c1 = (Ok [], c1)).
  { cbn. f_equal. f_equal. apply omap_all_None. intros [k d'] Hin. cbn.
    apply elem_of_map_to_list in Hin.
    destruct (bool_decide (k.1 = ns)) eqn:Hns; [|done]. cbn.
    apply bool_decide_eq_true in Hns.
    destruct (Mem.selects _ _) eqn:Hsel; [|done]. apply selects_label in Hsel.
    rewrite Hdeps in Hin. destruct (deployment cfg) as [d|] eqn:Hd.
    - apply lookup_insert_Some in Hin as [[_ <-] | [_ Hin]].
      + by destruct (Hmanifest d eq_refl).
      + by destruct (Hunused k d' Hin Hns).
    - by destruct (Hunused k d' Hin Hns). }
  split.
  - unfold rollback, bind. by rewrite Hlist.
  - unfold MonitorAgent.findDeploymentById, try_catch, bind, ret. by rewrite Hlist.
Qed.

Lemma handler_rollout_has_no_identifier_witness :
  exists (r : DockerHandlerAgent.DeployResult) (c1 : Mem.Cluster),
    DockerHandlerAgent.deployToKubernetes true
      (handlerParams (single (DDeployment Examples.web)) "prod") Mem.empty = (Ok r, c1) /\
    rollback "id-3" "prod" c1 = (Throw (notFoundError "id-3"), c1) /\
    MonitorAgent.findDeploymentById "id-3" "prod" c1 = (Ok None, c1).
Proof.
  apply (handler_rollout_has_no_identifier (single (DDeployment Examples.web)) "prod"
           "id-3" Mem.empty).
  - intros k d Hk. cbn in Hk. by rewrite lookup_empty in Hk.
  - intros d [= <-]. vm_compute. discriminate.
Defined.

(** ** Monitor: what a collected sample is *)

Section Collecting.
Context {W : Type}.
Context `{!Collector.MetricsApi W, !CoreV1Api W, !Axios W}.

Lemma getDeploymentMetrics_total (app ns : string) (w : W) :
  exists (p : MonitorAgent.Part Collector.DeploymentMetricsFull) (w' : W),
    Collector.getDeploymentMetrics app ns w = (Ok p, w') /\
    (forall e, fst (Collector.readNamespacedDeployment app ns w) = Throw e ->
               p = MonitorAgent.Unavailable (message e)).
Proof.
  unfold Collector.getDeploymentMetrics, try_catch, bind, ret.
  destruct (Collector.readNamespacedDeployment app ns w) as [[d|e] w1]; cbn.
  - eexists _, _. split; [done | discriminate].
  - eexists _, _. split; [done|]. by intros e' [= <-].
Qed.

Lemma getPodMetrics_total (app ns : string) (w : W) :
  exists (p : MonitorAgent.Part Collector.PodMetricsFull) (w' : W),
    Collector.getPodMetrics app ns w = (Ok p, w') /\
    (forall pm, p = MonitorAgent.Measured pm ->
       0 <= MonitorAgent.running_pods (Collector.pod_counts pm)
         <= MonitorAgent.total_pods (Collector.pod_counts pm) /\
       0 <= MonitorAgent.ready_pods (Collector.pod_counts pm)
         <= MonitorAgent.total_pods (Collector.pod_counts pm) /\
       MonitorAgent.total_pods (Collector.pod_counts pm)
       = Z.of_nat (length (Collector.pods_list pm))) /\
    (forall e, fst (Collector.listNamespacedPod ns ("app=" +:+ app) w) = Throw e ->
               p = MonitorAgent.Unavailable (message e)).
Proof.
  unfold Collector.getPodMetrics, try_catch, bind, ret.
  destruct (Collector.listNamespacedPod ns _ w) as [[items|e] w1]; cbn.
  - eexists _, _. split; [done|]. split; [|discriminate].
    intros pm [= <-]. cbn.
    pose proof (List.filter_length_le
                  (fun p => bool_decide (Collector.pod_phase p = Some "Running"))
                  (map Collector.podInfo items)) as Hrun.
    pose proof (List.filter_length_le Collector.ready (map Collector.podInfo items))
      as Hready.
    rewrite length_map in *. lia.
  - eexists _, _. split; [done|]. split; [discriminate|]. by intros e' [= <-].
Qed.

Lemma getServiceEndpoints_total (app ns : string) (w : W) :
  exists (p : MonitorAgent.Part Collector.EndpointCounts) (w' : W),
    Collector.getServiceEndpoints app ns w = (Ok p, w').
Proof.
  unfold Collector.getServiceEndpoints, try_catch, bind, ret.
  destruct (Collector.readNamespacedEndpoints _ ns w) as [[ep|e] w1]; by eexists _, _.
Qed.

Lemma getServiceMetrics_total (app ns : string) (w : W) :
  exists (p : MonitorAgent.Part Collector.ServiceMetricsFull) (w' : W),
    Collector.getServiceMetrics app ns w = (Ok p, w').
Proof.
  unfold Collector.getServiceMetrics, try_catch, bind, ret.
  destruct (readNamespacedService _ ns w) as [[s|e] w1]; [|by eexists _, _].
  destruct (getServiceEndpoints_total app ns w1) as (p & w2 & ->). by eexists _, _.
Qed.

Lemma performHealthCheck_total (app ns : string) (w : W) :
  exists (hc : MonitorAgent.HealthCheck) (w' : W),
    MonitorAgent.performHealthCheck app ns w = (Ok hc, w') /\
    In (MonitorAgent.hc_status hc) probeStatuses.
Proof.
  destruct (Monitor_getServiceUrl_total app ns w) as (o & w1 & Hurl).
  unfold MonitorAgent.performHealthCheck, try_catch, bind, ret. rewrite Hurl.
  destruct o as [url|]; [|eexists _, _; split; [done | cbn; tauto]].
  destruct (axios_get _ w1) as [[response|e] w2];
    [|eexists _, _; split; [done | cbn; tauto]].
  eexists _, _. split; [done|]. cbn. destruct (status response =? 200); tauto.
Qed.

Lemma collectMetrics_total (app ns : string) (w : W) :
  exists (m : Collector.FullMetrics) (w' : W),
    Collector.collectMetrics app ns w = (Ok m, w') /\
    Collector.collectSummary app ns w = (Ok (Collector.summary m), w') /\
    (forall e, fst (Collector.readNamespacedDeployment app ns w) = Throw e ->
               Collector.f_deployment m = MonitorAgent.Unavailable (message e) /\
               MonitorAgent.readyReplicasOf
                 (MonitorAgent.Collected 0 (Collector.summary m)) = None) /\
    In (MonitorAgent.hc_status (Collector.f_health m)) probeStatuses.
Proof.
  unfold Collector.collectSummary, Collector.collectMetrics.
  destruct (getDeploymentMetrics_total app ns w) as (d & w1 & Hd & Hfail).
  destruct (getPodMetrics_total app ns w1) as (p & w2 & Hp & _).
  destruct (getServiceMetrics_total app ns w2) as (s & w3 & Hs).
  destruct (performHealthCheck_total app ns w3) as (hc & w4 & Hh & Hstatus).
  unfold bind, ret. rewrite Hd, Hp, Hs, Hh.
  eexists _, _. split; [done|]. split; [done|]. split; [|exact Hstatus].
  intros e He. cbn. by rewrite (Hfail e He).
Qed.


(** X14.  [collectMetrics] never throws, whatever the cluster and the probed
    endpoint do: a read that fails turns into the part [{ error }] of the
    sample with the message of the failure (shown for the deployment, which
    is read first), and the status of the liveness probe is one of
    ['healthy'], ['unhealthy'] and ['unknown'].  The [catch] of
    [performMonitoring] is therefore never entered by a collection. *)
Theorem collectMetrics_never_throws (app ns : string) (w : W) :
  exists (m : Collector.FullMetrics) (w' : W),
    Collector.collectMetrics app ns w = (Ok m, w') /\
    Collector.collectSummary app ns w = (Ok (Collector.summary m), w') /\
    (forall e, fst (Collector.readNamespacedDeployment app ns w) = Throw e ->
               Collector.f_deployment m = MonitorAgent.Unavailable (message e) /\
               MonitorAgent.readyReplicasOf
                 (MonitorAgent.Collected 0 (Collector.summary m)) = None) /\
    In (MonitorAgent.hc_status (Collector.f_health m)) probeStatuses.
Proof. apply collectMetrics_total. Qed.

(** X15.  The pod metrics are consistent counts: when the pods could be
    listed, the number of running pods and the number of ready pods lie
    between 0 and [total_pods], and [total_pods] is the number of entries of
    [pods]; when they could not, the part is [{ error }]: [getPodMetrics]
    never throws. *)
Theorem getPodMetrics_counts (app ns : string) (w : W) :
  exists (p : MonitorAgent.Part Collector.PodMetricsFull) (w' : W),
    Collector.getPodMetrics app ns w = (Ok p, w') /\
    (forall pm, p = MonitorAgent.Measured pm ->
       0 <= MonitorAgent.running_pods (Collector.pod_counts pm)
         <= MonitorAgent.total_pods (Collector.pod_counts pm) /\
       0 <= MonitorAgent.ready_pods (Collector.pod_counts pm)
         <= MonitorAgent.total_pods (Collector.pod_counts pm) /\
       MonitorAgent.total_pods (Collector.pod_counts pm)
       = Z.of_nat (length (Collector.pods_list pm))) /\
    (forall e, fst (Collector.listNamespacedPod ns ("app=" +:+ app) w) = Throw e ->
               p = MonitorAgent.Unavailable (message e)).
Proof. apply getPodMetrics_total. Qed.

End Collecting.

Lemma collectMetrics_never_throws_witness :
  exists (m : Collector.FullMetrics) (w' : Snapshot.World),
    Collector.collectMetrics "acme-web" "prod" blackout = (Ok m, w') /\
    Collector.f_deployment m = MonitorAgent.Unavailable "connect ECONNREFUSED 10.96.0.1:443".
Proof.
  destruct (collectMetrics_never_throws "acme-web" "prod" blackout)
    as (m & w' & Hrun & _ & Hfail & _).
  exists m, w'. split; [exact Hrun|].
  exact (proj1 (Hfail Examples.refused eq_refl)).
Defined.

Lemma getPodMetrics_counts_witness :
  exists (pm : Collector.PodMetricsFull) (w' : Snapshot.World),
    Collector.getPodMetrics "acme-web" "prod" steady = (Ok (MonitorAgent.Measured pm), w') /\
    0 <= MonitorAgent.running_pods (Collector.pod_counts pm)
      <= MonitorAgent.total_pods (Collector.pod_counts pm).
Proof.
  destruct (getPodMetrics_counts "acme-web" "prod" steady) as (p & w' & Hrun & Hcounts & _).
  destruct p as [pm|e]; [|vm_compute in Hrun; discriminate].
  exists pm, w'. split; [exact Hrun|]. exact (proj1 (Hcounts pm eq_refl)).
Defined.

Example collectMetrics_steady :
  fst (Collector.collectSummary "acme-web" "prod" steady)
  = Ok {| MonitorAgent.deployment :=
            MonitorAgent.Measured
              {| MonitorAgent.m_replicas := 2; MonitorAgent.ready_replicas := 2;
                 MonitorAgent.available_replicas := 2;
                 MonitorAgent.unavailable_replicas := 0;
                 MonitorAgent.updated_replicas := 2 |};
          MonitorAgent.pods :=
            MonitorAgent.Measured
              {| MonitorAgent.total_pods := 2; MonitorAgent.running_pods := 1;
                 MonitorAgent.ready_pods := 1 |};
          MonitorAgent.service :=
            MonitorAgent.Measured
              {| MonitorAgent.sm_type := Some "ClusterIP";
                 MonitorAgent.cluster_ip := Some "10.0.0.7" |};
          MonitorAgent.health :=
            {| MonitorAgent.hc_status := "healthy"; MonitorAgent.status_code := Some 200;
               MonitorAgent.response_time := Some "12ms";
               MonitorAgent.hc_message := "Health check passed" |} |}.
Proof. reflexivity. Qed.

(** ** Monitor: when the verdict is unknown *)

Lemma generateMonitoringReport_unknown_iff (app ns : string)
    (samples : list MonitorAgent.Sample) :
  (MonitorAgent.overall_health (MonitorAgent.generateMonitoringReport app ns samples)
   = "unknown" <-> validSamples samples = []) /\
  (MonitorAgent.metrics (MonitorAgent.generateMonitoringReport app ns samples) = None
   <-> validSamples samples = []).
Proof.
  unfold MonitorAgent.generateMonitoringReport. fold (validSamples samples).
  destruct (length (validSamples samples) =? 0)%nat eqn:Hlen.
  - apply Nat.eqb_eq, nil_length_inv in Hlen. by rewrite Hlen.
  - apply Nat.eqb_neq in Hlen. cbn.
    assert (validSamples samples <> []) by (intros Heq; by rewrite Heq in Hlen).
    split; (split; [|done]).
    + destruct (Qle_bool 90 _); [discriminate|]. destruct (Qle_bool 70 _); discriminate.
    + discriminate.
Qed.

Lemma validSamples_collected (samples : list MonitorAgent.Sample) :
  Forall (fun r => isCollected r = true) samples -> validSamples samples = samples.
Proof.
  unfold validSamples. induction 1 as [|r rs Hr _ IH]; [done|].
  rewrite filter_cons_True; [by rewrite IH|]. by destruct r.
Qed.

Section Campaigns.
Context {W : Type}.
Context `{!AppsV1Api W, !Timer W}.
Variable collect : string -> string -> M W MonitorAgent.Metrics.
Hypothesis collect_returns :
  forall app ns w, exists m w', collect app ns w = (Ok m, w').

(** With a collection that returns, every sample is a collected one. *)
Lemma monitoringLoop_all_collected (remaining : nat) (app ns : string) (i n : Z)
    (results : list MonitorAgent.Sample) (w : W) :
  exists (new : list MonitorAgent.Sample) (w' : W),
    MonitorAgent.monitoringLoop collect remaining app ns i n results w
    = (Ok (results ++ new), w') /\
    length new = remaining /\
    Forall (fun r => isCollected r = true) new.
Proof.
  revert i results w. induction remaining as [|remaining IH]; intros i results w.
  - exists [], w. rewrite app_nil_r. by repeat split.
  - cbn [MonitorAgent.monitoringLoop]. unfold bind at 1.
    unfold MonitorAgent.monitoringIteration, try_catch, bind, ret,
      MonitorAgent.now, MonitorAgent.sleepM.
    destruct (collect_returns app ns w) as (m & w1 & ->).
    destruct (i <? n - 1).
    + destruct (IH (i + 1) (results ++ [MonitorAgent.Collected (Date_now w) m])
                  (sleep (30 * 1000) w1)) as (new & w' & Hrun & Hlen & Hall).
      exists (MonitorAgent.Collected (Date_now w) m :: new), w'.
      split; [rewrite Hrun; by rewrite <- app_assoc|]. split; [cbn; lia|].
      by constructor.
    + destruct (IH (i + 1) (results ++ [MonitorAgent.Collected (Date_now w) m]) w1)
        as (new & w' & Hrun & Hlen & Hall).
      exists (MonitorAgent.Collected (Date_now w) m :: new), w'.
      split; [rewrite Hrun; by rewrite <- app_assoc|]. split; [cbn; lia|].
      by constructor.
Qed.

Lemma monitor_with_returning_collection (grafana : option string)
    (params : MonitorAgent.MonitorParams) (w w1 : W)
    (d : Deployment) (ds : list Deployment) :
  listNamespacedDeployment (monitorNamespace params)
    ("deployment-id=" +:+ MonitorAgent.deployment_id params) w = (Ok (d :: ds), w1) ->
  exists (res : MonitorAgent.MonitorResult) (w' : W),
    MonitorAgent.monitor collect grafana params w = (Ok res, w') /\
    (MonitorAgent.health_status res = "unknown" <-> monitorDuration params < 30) /\
    (MonitorAgent.res_metrics res = None <-> monitorDuration params < 30).
Proof.
  intros Hlist. unfold MonitorAgent.monitor.
  fold (monitorNamespace params). fold (monitorDuration params).
  unfold bind at 1.
  unfold MonitorAgent.findDeploymentById, try_catch, bind at 1, ret. rewrite Hlist. cbn.
  unfold bind, MonitorAgent.performMonitoring.
  destruct (monitoringLoop_all_collected (Z.to_nat (monitorDuration params / 30))
              (name (dep_metadata d)) (monitorNamespace params) 0
              (monitorDuration params / 30) [] w1) as (samples & w' & -> & Hlen & Hall).
  cbn [app]. eexists _, w'. split; [reflexivity|]. cbn.
  destruct (generateMonitoringReport_unknown_iff (name (dep_metadata d))
              (monitorNamespace params) samples) as [Hunknown Hmetrics].
  rewrite Hunknown, Hmetrics, (validSamples_collected samples Hall).
  assert (samples = [] <-> monitorDuration params < 30); [|done].
  split.
  - intros ->. cbn in Hlen.
    destruct (Z.lt_ge_cases (monitorDuration params) 30) as [|Hge]; [done|].
    assert (1 <= monitorDuration params / 30) by (apply Z.div_le_lower_bound; lia). lia.
  - intros Hlt. apply nil_length_inv. rewrite Hlen.
    assert (monitorDuration params / 30 <= 0); [|lia].
    destruct (Z.lt_ge_cases (monitorDuration params) 0) as [Hneg|Hpos].
    + assert (monitorDuration params / 30 < 0) by (apply Z.div_lt_upper_bound; lia). lia.
    + rewrite Z.div_small; lia.
Qed.

End Campaigns.

(** X16.  With the collectors of the agent, once the deployment was found,
    [monitor] returns (no failure of the cluster or of the probe makes it
    throw), and its verdict is ['unknown'] exactly when the duration is
    below 30 seconds, that is, when no sample is taken.  A cluster that
    refuses every read during the campaign therefore yields a verdict drawn
    from the samples, with metrics, not the report for missing data. *)
Theorem monitor_unknown_only_without_samples {W : Type}
    `{!AppsV1Api W, !Timer W, !Collector.MetricsApi W, !CoreV1Api W, !Axios W}
    (grafana : option string) (params : MonitorAgent.MonitorParams) (w w1 : W)
    (d : Deployment) (ds : list Deployment) :
  listNamespacedDeployment (monitorNamespace params)
    ("deployment-id=" +:+ MonitorAgent.deployment_id params) w = (Ok (d :: ds), w1) ->
  exists (res : MonitorAgent.MonitorResult) (w' : W),
    MonitorAgent.monitor Collector.collectSummary grafana params w = (Ok res, w') /\
    (MonitorAgent.health_status res = "unknown" <-> monitorDuration params < 30) /\
    (MonitorAgent.res_metrics res = None <-> monitorDuration params < 30).
Proof.
  apply monitor_with_returning_collection.
  intros app ns w0.
  destruct (collectMetrics_total app ns w0) as (m & w' & _ & Hrun & _).
  by eexists _, _.
Qed.

Lemma monitor_unknown_only_without_samples_witness :
  exists (res : MonitorAgent.MonitorResult) (w' : Snapshot.World),
    MonitorAgent.monitor Collector.collectSummary None (monitorFor "id-7" 60) blackout
    = (Ok res, w') /\
    (MonitorAgent.health_status res = "unknown" <-> 60 < 30).
Proof.
  assert (Hfound : listNamespacedDeployment (monitorNamespace (monitorFor "id-7" 60))
                     ("deployment-id=" +:+ MonitorAgent.deployment_id (monitorFor "id-7" 60))
                     blackout = (Ok [Examples.web], blackout)) by reflexivity.
  destruct (monitor_unknown_only_without_samples None (monitorFor "id-7" 60)
              blackout blackout Examples.web [] Hfound) as (res & w' & Hrun & Hiff & _).
  exists res, w'. split; [exact Hrun | exact Hiff].
Defined.

(** A campaign of one minute in a cluster that refuses every read after the
    lookup: two samples, none with data, and yet a verdict. *)
Example monitor_blackout :
  match fst (MonitorAgent.monitor Collector.collectSummary None (monitorFor "id-7" 60)
               blackout) with
  | Ok res =>
      MonitorAgent.health_status res = "unhealthy" /\
      MonitorAgent.res_alerts res
      = [ "Low replica count detected"; "Insufficient running pods";
          "Health check success rate below 80%" ] /\
      (data_points_of res = Some 2%nat)
  | Throw _ => False
  end.
Proof. vm_compute. repeat split. Qed.

(** ** Resource quantities *)

Lemma digit_cases (d : Z) :
  isDigit d ->
  d = 0 \/ d = 1 \/ d = 2 \/ d = 3 \/ d = 4 \/ d = 5 \/ d = 6 \/ d = 7 \/ d = 8 \/ d = 9.
Proof. unfold isDigit. lia. Qed.

Ltac each_digit H :=
  apply digit_cases in H;
  repeat (destruct H as [H | H]); subst.

Lemma digitValue_digitChar (d : Z) :
  isDigit d -> Collector.digitValue 10 (digitChar d) = Some d.
Proof. intros H. each_digit H; reflexivity. Qed.

Lemma readDigits_numeral (ds : list Z) (acc : Z) (rest : string) :
  Forall isDigit ds ->
  Collector.readDigits 10 (Some acc) (numeral ds +:+ rest)
  = Collector.readDigits 10 (Some (foldl (fun a d => a * 10 + d) acc ds)) rest.
Proof.
  intros Hds. revert acc. induction Hds as [|d ds Hd _ IH]; intros acc; [done|].
  change (numeral (d :: ds) +:+ rest) with (String (digitChar d) (numeral ds +:+ rest)).
  cbn [Collector.readDigits]. rewrite (digitValue_digitChar d Hd). cbn [default].
  apply IH.
Qed.

(** A string that starts with a decimal digit is read in radix 10 with a
    positive sign, unless it starts with [0x]. *)
Lemma readInteger_after_digit (d : Z) (rest : string) :
  isDigit d ->
  (rest = "m" \/ rest = "Mi" \/
   exists d2 tail, isDigit d2 /\ rest = String (digitChar d2) tail) ->
  Collector.readInteger (String (digitChar d) rest)
  = match Collector.readDigits 10 None (String (digitChar d) rest) with
    | Some n => Some (1, n)
    | None => None
    end.
Proof.
  intros Hd [-> | [-> | (d2 & tail & Hd2 & ->)]].
  - each_digit Hd; reflexivity.
  - each_digit Hd; reflexivity.
  - each_digit Hd; try reflexivity. each_digit Hd2; reflexivity.
Qed.

(** What is read of a decimal numeral followed by a unit. *)
Lemma readInteger_numeral (ds : list Z) (unit : string) :
  ds <> [] -> Forall isDigit ds ->
  unit = "m" \/ unit = "Mi" ->
  Collector.readInteger (numeral ds +:+ unit) = Some (1, numeralValue ds).
Proof.
  intros Hne Hds Hunit. destruct ds as [|d ds]; [done|].
  apply Forall_cons in Hds as [Hd Hds].
  change (numeral (d :: ds) +:+ unit) with (String (digitChar d) (numeral ds +:+ unit)).
  rewrite readInteger_after_digit; [|exact Hd|].
  - cbn [Collector.readDigits]. rewrite (digitValue_digitChar d Hd). cbn [default].
    rewrite (readDigits_numeral ds _ unit Hds). unfold numeralValue. cbn [foldl].
    destruct Hunit as [-> | ->]; cbn [Collector.readDigits];
      match goal with
      | |- context [Collector.digitValue 10 ?c] =>
          change (Collector.digitValue 10 c) with (@None Z)
      end; reflexivity.
  - destruct ds as [|d2 ds].
    + destruct Hunit as [-> | ->]; [by left | by right; left].
    + right; right. apply Forall_cons in Hds as [Hd2 _]. by exists d2, (numeral ds +:+ unit).
Qed.

Lemma toNumber_exact (n : Z) :
  n <= Collector.maxExact -> Collector.toNumber 1 n = Collector.Int n.
Proof.
  intros Hn. unfold Collector.toNumber.
  destruct (n =? 0) eqn:E; [apply Z.eqb_eq in E; by subst|].
  rewrite (proj2 (Z.leb_le _ _) Hn). by rewrite Z.mul_1_l.
Qed.

Lemma toNumber_rounded (n : Z) :
  Collector.maxExact < n -> Collector.toNumber 1 n = Collector.Rounded n.
Proof.
  intros Hn. unfold Collector.toNumber, Collector.maxExact in *.
  rewrite (proj2 (Z.eqb_neq _ _)) by lia.
  rewrite (proj2 (Z.leb_gt _ _)) by lia. by rewrite Z.mul_1_l.
Qed.

Lemma endsWith_append (a b : string) : TestWriterAgent.endsWith (a +:+ b) b = true.
Proof.
  induction a as [|c a IH].
  - change ("" +:+ b) with b.
    destruct b; cbn [TestWriterAgent.endsWith]; by rewrite String.eqb_refl.
  - change (String c a +:+ b) with (String c (a +:+ b)).
    cbn [TestWriterAgent.endsWith]. rewrite IH. apply orb_true_r.
Qed.

Lemma endsWith_Mi_not_m (a : string) : TestWriterAgent.endsWith (a +:+ "Mi") "m" = false.
Proof.
  induction a as [|c a IH]; [reflexivity|].
  change (String c a +:+ "Mi") with (String c (a +:+ "Mi")).
  cbn [TestWriterAgent.endsWith]. rewrite IH, orb_false_r.
  apply String.eqb_neq. intros [= _ H]. by destruct a.
Qed.

(** X17.  How [extractResourceValue] reads a quantity.  For a decimal
    numeral of value [n]: while [n] is at most [2^53], [{n}Mi] is read as
    the number [n] and [{n}m] as the quotient of [n] by 1000 in the
    arithmetic of doubles; above [2^53] the number read is the double that
    the runtime rounds [n] to, which need not be [n].  A quantity that ends
    neither in [m] nor in [Mi] (a plain count of cores, [Gi], [Ki]) is
    returned as the string it is; an absent or empty quantity gives
    [null]. *)
Theorem extractResourceValue_units (ds : list Z) :
  ds <> [] -> Forall isDigit ds ->
  let n := numeralValue ds in
  (n <= Collector.maxExact ->
   Collector.extractResourceValue (Some (numeral ds +:+ "m"))
   = Collector.RNumber (Collector.Quotient (Collector.Int n) 1000) /\
   Collector.extractResourceValue (Some (numeral ds +:+ "Mi"))
   = Collector.RNumber (Collector.Int n)) /\
  (Collector.maxExact < n ->
   Collector.extractResourceValue (Some (numeral ds +:+ "m"))
   = Collector.RNumber (Collector.Quotient (Collector.Rounded n) 1000) /\
   Collector.extractResourceValue (Some (numeral ds +:+ "Mi"))
   = Collector.RNumber (Collector.Rounded n)) /\
  (forall s : string,
      truthy s = true ->
      TestWriterAgent.endsWith s "m" = false ->
      TestWriterAgent.endsWith s "Mi" = false ->
      Collector.extractResourceValue (Some s) = Collector.RString s) /\
  Collector.extractResourceValue None = Collector.RNull /\
  Collector.extractResourceValue (Some "") = Collector.RNull.
Proof.
  intros Hne Hds n.
  assert (Htruthy : forall u, truthy (numeral ds +:+ u) = true).
  { intros u. by destruct ds. }
  assert (Hm : Collector.extractResourceValue (Some (numeral ds +:+ "m"))
               = Collector.RNumber (Collector.Quotient (Collector.toNumber 1 n) 1000)).
  { unfold Collector.extractResourceValue, Collector.parseInt.
    rewrite Htruthy, endsWith_append. cbn [negb].
    by rewrite (readInteger_numeral ds "m" Hne Hds (or_introl eq_refl)). }
  assert (HMi : Collector.extractResourceValue (Some (numeral ds +:+ "Mi"))
                = Collector.RNumber (Collector.toNumber 1 n)).
  { unfold Collector.extractResourceValue, Collector.parseInt.
    rewrite Htruthy, endsWith_Mi_not_m, endsWith_append. cbn [negb].
    by rewrite (readInteger_numeral ds "Mi" Hne Hds (or_intror eq_refl)). }
  split; [|split; [|repeat split]].
  - intros Hn. by rewrite Hm, HMi, (toNumber_exact n Hn).
  - intros Hn. by rewrite Hm, HMi, (toNumber_rounded n Hn).
  - intros s Hs Hnm HnMi. unfold Collector.extractResourceValue. by rewrite Hs, Hnm, HnMi.
Qed.

Lemma extractResourceValue_units_witness :
  Collector.extractResourceValue (Some "250m")
  = Collector.RNumber (Collector.Quotient (Collector.Int 250) 1000) /\
  Collector.extractResourceValue (Some "512Mi") = Collector.RNumber (Collector.Int 512) /\
  Collector.extractResourceValue (Some "9007199254740993Mi")
  = Collector.RNumber (Collector.Rounded 9007199254740993).
Proof.
  assert (Hds : Forall isDigit [2; 5; 0]) by (repeat constructor; unfold isDigit; lia).
  assert (Hds' : Forall isDigit [5; 1; 2]) by (repeat constructor; unfold isDigit; lia).
  assert (Hds'' : Forall isDigit [9; 0; 0; 7; 1; 9; 9; 2; 5; 4; 7; 4; 0; 9; 9; 3])
    by (repeat constructor; unfold isDigit; lia).
  split; [|split].
  - exact (proj1 (proj1 (extractResourceValue_units [2; 5; 0] ltac:(discriminate) Hds)
                   ltac:(vm_compute; discriminate))).
  - exact (proj2 (proj1 (extractResourceValue_units [5; 1; 2] ltac:(discriminate) Hds')
                   ltac:(vm_compute; discriminate))).
  - exact (proj2 (proj1 (proj2 (extractResourceValue_units
                                  [9; 0; 0; 7; 1; 9; 9; 2; 5; 4; 7; 4; 0; 9; 9; 3]
                                  ltac:(discriminate) Hds''))
                   ltac:(reflexivity))).
Defined.

Example extractResourceValue_examples :
  Collector.extractResourceValue (Some "1Gi") = Collector.RString "1Gi" /\
  Collector.extractResourceValue (Some "2") = Collector.RString "2" /\
  Collector.extractResourceValue (Some "m")
  = Collector.RNumber (Collector.Quotient Collector.NaN 1000) /\
  Collector.extractResourceValue (Some "1.5m")
  = Collector.RNumber (Collector.Quotient (Collector.Int 1) 1000) /\
  Collector.extractResourceValue (Some "0x10Mi") = Collector.RNumber (Collector.Int 16) /\
  Collector.extractResourceValue (Some "-0Mi") = Collector.RNumber Collector.NegativeZero /\
  Collector.extractResourceValue
    (Some (String (ascii_of_N 194) (String (ascii_of_N 160) "5Mi")))
  = Collector.RNumber (Collector.Int 5).
Proof. repeat split. Qed.

(** ** The deploy operation *)

(** In the live cluster [ensureNamespace] returns and touches the namespaces
    only. *)
Lemma Lab_ensureNamespace (ns : string) (w : Lab.World) :
  exists w1 : Lab.World,
    Provision.ensureNamespace ns w = (Ok tt, w1) /\
    Lab.cluster w1 = Lab.cluster w /\ Lab.now w1 = Lab.now w /\
    Lab.issued w1 = Lab.issued w /\
    Lab.namespaces w1
    = match Lab.namespaces w !! ns with
      | Some _ => Lab.namespaces w
      | None => <[ns := labels (Provision.namespaceManifest ns)]> (Lab.namespaces w)
      end.
Proof.
  unfold Provision.ensureNamespace, try_catch. cbn. unfold Lab.onNamespaces. cbn.
  destruct (Lab.namespaces w !! ns) eqn:E; cbn.
  - eexists. by repeat split.
  - change (Provision.isNotFound Mem.notFound) with true. cbn. rewrite E.
    eexists. by repeat split.
Qed.

(** Each block of the applier acts on the cluster of the live world as it
    does on the cluster alone. *)
Lemma Lab_applyDeployment (ns id : string) (d : Deployment)
    (rs : list DeployedResource) (w : Lab.World) :
  applyDeployment ns id d rs w = Lab.onCluster (applyDeployment ns id d rs) w.
Proof.
  unfold applyDeployment, bind, try_catch, ret, throw. cbn. unfold Lab.onCluster. cbn.
  destruct (Mem.deployments (Lab.cluster w) !! _) eqn:E; cbn; [|reflexivity].
  rewrite isConflict_conflict. cbn. by rewrite E.
Qed.

Lemma Lab_applyService (ns id : string) (s : Service)
    (rs : list DeployedResource) (w : Lab.World) :
  applyService ns id s rs w = Lab.onCluster (applyService ns id s rs) w.
Proof.
  unfold applyService, bind, try_catch, ret, throw. cbn. unfold Lab.onCluster. cbn.
  destruct (Mem.services (Lab.cluster w) !! _) eqn:E; cbn; [|reflexivity].
  by rewrite isConflict_conflict.
Qed.

Lemma Lab_applyIngress (ns id : string) (i : Ingress)
    (rs : list DeployedResource) (w : Lab.World) :
  applyIngress ns id i rs w = Lab.onCluster (applyIngress ns id i rs) w.
Proof.
  unfold applyIngress, bind, try_catch, ret, throw. cbn. unfold Lab.onCluster. cbn.
  destruct (Mem.ingresses (Lab.cluster w) !! _) eqn:E; cbn; [|reflexivity].
  rewrite isConflict_conflict. cbn. by rewrite E.
Qed.

(** A step of the applier in the live world: an optional block. *)
Lemma Lab_block {A : Type} (o : option A)
    (blockL : A -> list DeployedResource -> M Lab.World (list DeployedResource))
    (blockC : A -> list DeployedResource -> M Mem.Cluster (list DeployedResource))
    (rs : list DeployedResource) (w : Lab.World) :
  (forall a rs w, blockL a rs w = Lab.onCluster (blockC a rs) w) ->
  match o with
  | Some a => blockL a rs
  | None => ret rs
  end w
  = Lab.onCluster (match o with
                   | Some a => blockC a rs
                   | None => ret rs
                   end) w.
Proof.
  intros H. destruct o as [a|]; [apply H|]. unfold Lab.onCluster, ret. by destruct w.
Qed.

(** Sequencing commutes with the embedding of the cluster. *)
Lemma onCluster_bind {A B : Type} (c : M Mem.Cluster A) (cL : M Lab.World A)
    (k : A -> M Mem.Cluster B) (kL : A -> M Lab.World B) (w : Lab.World) :
  cL w = Lab.onCluster c w ->
  (forall a w, kL a w = Lab.onCluster (k a) w) ->
  bind cL kL w = Lab.onCluster (bind c k) w.
Proof.
  intros Hc Hk. unfold bind. rewrite Hc. unfold Lab.onCluster.
  destruct (c (Lab.cluster w)) as [[a|e] c1]; [|reflexivity].
  rewrite Hk. unfold Lab.onCluster. cbn. by destruct (k a c1).
Qed.

(** Hence the applier as a whole does. *)
Lemma Lab_deployToKubernetes (cfg : KubernetesConfig) (ns app id : string) (w : Lab.World) :
  deployToKubernetes cfg ns app id w
  = Lab.onCluster (deployToKubernetes cfg ns app id) w.
Proof.
  unfold deployToKubernetes.
  apply onCluster_bind; [apply Lab_block, Lab_applyDeployment|].
  intros rs0 w0.
  apply onCluster_bind; [apply Lab_block, Lab_applyService|].
  intros rs1 w1.
  apply onCluster_bind; [apply Lab_block, Lab_applyIngress|].
  intros rs2 w2. unfold Lab.onCluster, ret. by destruct w2.
Qed.

(** While no deployment of the polled name exists, every poll fails and
    pauses, and the wait ends with the timeout error at the deadline. *)
Lemma Lab_waitLoop_absent (k : nat) :
  forall (fuel : nat) (app ns : string) (T start : Z) (w : Lab.World),
    noDeployment ns app w ->
    Lab.now w - start = T - 5000 * Z.of_nat k ->
    (k < fuel)%nat ->
    waitLoop fuel app ns T start w
    = Some (Throw (timeoutError app T), atTime (start + T) w).
Proof.
  induction k as [|k IH]; intros fuel app ns T start w Habsent Hnow Hfuel;
    (destruct fuel as [|fuel]; [lia|]); cbn [waitLoop]; cbn [Date_now Lab.timer].
  - rewrite (proj2 (Z.ltb_ge _ _)) by lia.
    do 2 f_equal. destruct w. unfold atTime. cbn in *. f_equal. lia.
  - rewrite (proj2 (Z.ltb_lt _ _)) by lia.
    unfold pollOnce, try_catch, bind, ret, sleepM.
    cbn [readNamespacedDeployment Lab.apps]. unfold Lab.onCluster.
    cbn [readNamespacedDeployment Mem.apps]. unfold noDeployment in Habsent.
    rewrite Habsent. cbn [sleep Lab.timer Lab.cluster Lab.namespaces Lab.now Lab.issued].
    rewrite (IH fuel app ns T start); [reflexivity|exact Habsent|cbn; lia|lia].
Qed.

(** X18.  [deploy] waits for a deployment named after the repository, not
    after the descriptor it applied.  In the live cluster, when the
    descriptor's name differs from the application name derived from the
    repository and no deployment of that name exists in the namespace,
    [deploy] fails with the timeout error 300000 ms after it started,
    however ready the applied deployment is; and what it applied stays: the
    namespace exists and the stamped deployment is stored under the
    descriptor's name. *)
Theorem deploy_waits_for_the_repository_name (fuel : nat) (params : Deploy.Params)
    (repository : string) (cfg : KubernetesConfig) (d : Deployment) (w : Lab.World) :
  Deploy.repository params = Some repository ->
  Deploy.kubernetes_config params = Some cfg ->
  deployment cfg = Some d ->
  name (dep_metadata d) <> Provision.appNameOfRepository repository ->
  noDeployment (namespaceOf params) (Provision.appNameOfRepository repository) w ->
  (60 < fuel)%nat ->
  exists w' : Lab.World,
    Deploy.deploy fuel params w
    = Some (Throw (timeoutError (Provision.appNameOfRepository repository) 300000), w') /\
    Lab.now w' = Lab.now w + 300000 /\
    Mem.deployments (Lab.cluster w') !! (namespaceOf params, name (dep_metadata d))
    = Some (stampDeployment d (fst (Deploy.uuidv4 w))) /\
    is_Some (Lab.namespaces w' !! namespaceOf params).
Proof.
  intros Hrepo Hcfg Hd Hname Habsent Hfuel.
  unfold Deploy.deploy.
  change (default (default "staging" (Deploy.environment params)) (Deploy.namespace params))
    with (namespaceOf params).
  set (ns := namespaceOf params) in *.
  set (app := Provision.appNameOfRepository repository) in *.
  destruct (Deploy.uuidv4 w) as [id w0] eqn:Hid.
  assert (Hw0 : Lab.cluster w0 = Lab.cluster w /\ Lab.namespaces w0 = Lab.namespaces w
                /\ Lab.now w0 = Lab.now w).
  { cbn in Hid. injection Hid as _ <-. by repeat split. }
  destruct Hw0 as (Hc0 & Hn0 & Ht0).
  rewrite Hrepo. fold app.
  destruct (Lab_ensureNamespace ns w0) as (w1 & Hens & Hc1 & Ht1 & _ & Hns1).
  rewrite Hens, Hcfg, Lab_deployToKubernetes. unfold Lab.onCluster.
  destruct (Mem_deployToKubernetes cfg ns app id (Lab.cluster w1))
    as (rs & c1 & Hrun & Hdeps).
  rewrite Hrun, Hd in *.
  match goal with
  | |- context [waitForDeployment fuel app ns None ?x] => set (w2 := x)
  end.
  assert (Habsent2 : noDeployment ns app w2).
  { unfold noDeployment, w2. cbn [Lab.cluster]. rewrite Hdeps.
    rewrite lookup_insert_ne by congruence. rewrite Hc1, Hc0. exact Habsent. }
  unfold waitForDeployment. cbn [default].
  rewrite (Lab_waitLoop_absent 60 fuel app ns defaultTimeoutMs (Date_now w2) w2 Habsent2);
    [|cbn [Date_now Lab.timer]; unfold defaultTimeoutMs; change (Z.of_nat 60) with 60; lia
     |exact Hfuel].
  eexists. split; [reflexivity|].
  cbn [atTime Lab.now Lab.cluster Lab.namespaces Date_now Lab.timer w2].
  split; [unfold defaultTimeoutMs, w2; cbn; lia|].
  split.
  - unfold w2. cbn [Lab.cluster]. rewrite Hdeps. cbn [fst]. apply lookup_insert_eq.
  - unfold w2. cbn [Lab.namespaces]. rewrite Hns1.
    destruct (Lab.namespaces w0 !! ns) eqn:E; [by rewrite E|].
    rewrite lookup_insert_eq. by eexists.
Qed.

Lemma deploy_waits_for_the_repository_name_witness :
  exists w' : Lab.World,
    Deploy.deploy 61 (requestFor (Some "acme/site") (Some (onlyDeployment Examples.web)))
      (Lab.start Mem.empty)
    = Some (Throw (timeoutError "acme-site" 300000), w') /\
    Lab.now w' = 300000.
Proof.
  destruct (deploy_waits_for_the_repository_name 61
              (requestFor (Some "acme/site") (Some (onlyDeployment Examples.web)))
              "acme/site" (onlyDeployment Examples.web) Examples.web (Lab.start Mem.empty)
              eq_refl eq_refl eq_refl ltac:(vm_compute; discriminate) eq_refl ltac:(lia))
    as (w' & Hrun & Hnow & _).
  exists w'. split; [exact Hrun | exact Hnow].
Defined.

(** X19.  [deploy] looks at its request late.  In the live cluster, a
    request without [repository] fails with a [TypeError] before any call to
    the cluster: cluster and namespaces are as they were.  A request with a
    repository but without [kubernetes_config] fails with a [TypeError] too,
    but only after the namespace was ensured: the namespace exists
    afterwards, created if it was not there, and the cluster objects are
    untouched. *)
Theorem deploy_checks_its_request_late (fuel : nat) (params : Deploy.Params) (w : Lab.World) :
  (Deploy.repository params = None ->
   exists w' : Lab.World,
     Deploy.deploy fuel params w = Some (Throw (Deploy.typeError "split"), w') /\
     Lab.cluster w' = Lab.cluster w /\ Lab.namespaces w' = Lab.namespaces w) /\
  (is_Some (Deploy.repository params) -> Deploy.kubernetes_config params = None ->
   exists w' : Lab.World,
     Deploy.deploy fuel params w = Some (Throw (Deploy.typeError "deployment"), w') /\
     Lab.cluster w' = Lab.cluster w /\
     is_Some (Lab.namespaces w' !! namespaceOf params) /\
     (forall other, other <> namespaceOf params ->
                    Lab.namespaces w' !! other = Lab.namespaces w !! other)).
Proof.
  unfold Deploy.deploy.
  change (default (default "staging" (Deploy.environment params)) (Deploy.namespace params))
    with (namespaceOf params).
  set (ns := namespaceOf params).
  cbn [Deploy.uuidv4 Lab.uuid].
  split.
  - intros ->. eexists. by repeat split.
  - intros [repository ->] ->.
    match goal with
    | |- context [Provision.ensureNamespace ns ?x] =>
        destruct (Lab_ensureNamespace ns x) as (w1 & Hens & Hc1 & _ & _ & Hns1)
    end.
    rewrite Hens. cbn [Lab.cluster Lab.namespaces] in *.
    exists w1. split; [reflexivity|]. split; [exact Hc1|].
    rewrite Hns1. destruct (Lab.namespaces w !! ns) eqn:E.
    + split; [by rewrite E | done].
    + split; [rewrite lookup_insert_eq; by eexists|].
      intros other Hother. by rewrite lookup_insert_ne.
Qed.

Lemma deploy_checks_its_request_late_witness :
  (exists w' : Lab.World,
      Deploy.deploy 1 (requestFor None None) (Lab.start Mem.empty)
      = Some (Throw (Deploy.typeError "split"), w') /\
      Lab.namespaces w' = ∅) /\
  (exists w' : Lab.World,
      Deploy.deploy 1 (requestFor (Some "acme/site") None) (Lab.start Mem.empty)
      = Some (Throw (Deploy.typeError "deployment"), w') /\
      is_Some (Lab.namespaces w' !! "prod")).
Proof.
  split.
  - destruct (proj1 (deploy_checks_its_request_late 1 (requestFor None None)
                       (Lab.start Mem.empty)) eq_refl) as (w' & Hrun & _ & Hns).
    exists w'. split; [exact Hrun | exact Hns].
  - destruct (proj2 (deploy_checks_its_request_late 1 (requestFor (Some "acme/site") None)
                       (Lab.start Mem.empty)) (ex_intro _ "acme/site" eq_refl) eq_refl)
      as (w' & Hrun & _ & Hns & _).
    exists w'. split; [exact Hrun | exact Hns].
Defined.

(** For every cluster API the address resolution returns, and not the empty
    string. *)
Lemma getServiceUrl_total {W : Type} `{!CoreV1Api W, !NetworkingV1Api W}
    (app ns env : string) (w : W) :
  exists (url : string) (w' : W), getServiceUrl app ns env w = (Ok url, w') /\ url <> "".
Proof.
  destruct (ingressTier_total app ns w) as (o & w1 & Htier & _ & Hne).
  unfold getServiceUrl, try_catch, bind, ret. rewrite Htier.
  destruct o as [url|].
  - eexists _, _. split; [done|]. by apply Hne.
  - destruct (readNamespacedService _ ns w1) as [[s|e] w2].
    + eexists _, _. split; [done|]. apply serviceTiers_nonempty.
    + eexists _, _. split; [done|]. apply clusterLocalUrl_nonempty.
Qed.

(** X20.  Once the readiness wait has returned, [deploy] succeeds: the
    address resolution cannot fail it.  For every cluster API, when the
    namespace was ensured, the configuration applied and the wait returned,
    [deploy] returns status [success] and rollout status [completed], the
    identifier it drew (the one stamped on the resources), the resources
    list of the applier, the environment defaulted to [staging] and the
    namespace defaulted to the environment, and a non-empty address. *)
Theorem deploy_succeeds_once_ready {W : Type}
    `{!AppsV1Api W, !CoreV1Api W, !NetworkingV1Api W, !Timer W}
    `{!Provision.NamespaceApi W, !Deploy.Uuid W}
    (fuel : nat) (params : Deploy.Params) (repository : string) (cfg : KubernetesConfig)
    (w w1 w2 w3 : W) (rs : list DeployedResource) (b : bool) :
  let id := fst (Deploy.uuidv4 w) in
  let app := Provision.appNameOfRepository repository in
  Deploy.repository params = Some repository ->
  Deploy.kubernetes_config params = Some cfg ->
  Provision.ensureNamespace (namespaceOf params) (snd (Deploy.uuidv4 w)) = (Ok tt, w1) ->
  deployToKubernetes cfg (namespaceOf params) app id w1 = (Ok rs, w2) ->
  waitForDeployment fuel app (namespaceOf params) None w2 = Some (Ok b, w3) ->
  exists (url : string) (w' : W),
    getServiceUrl app (namespaceOf params) (environmentOf params) w3 = (Ok url, w') /\
    url <> "" /\
    Deploy.deploy fuel params w
    = Some (Ok {| Deploy.deployment_id := id;
                  Deploy.status := "success";
                  Deploy.res_environment := environmentOf params;
                  Deploy.res_namespace := namespaceOf params;
                  Deploy.deployment_url := url;
                  Deploy.deployed_resources := rs;
                  Deploy.rollout_status := "completed" |}, w').
Proof.
  intros id app Hrepo Hcfg Hens Hrun Hwait.
  destruct (getServiceUrl_total app (namespaceOf params) (environmentOf params) w3)
    as (url & w' & Hurl & Hne).
  exists url, w'. split; [exact Hurl|]. split; [exact Hne|].
  unfold Deploy.deploy.
  change (default "staging" (Deploy.environment params)) with (environmentOf params).
  change (default (environmentOf params) (Deploy.namespace params)) with (namespaceOf params).
  subst id. destruct (Deploy.uuidv4 w) as [id w0]. cbn [fst snd] in *.
  rewrite Hrepo. fold app. by rewrite Hens, Hcfg, Hrun, Hwait, Hurl.
Qed.

Lemma deploy_succeeds_once_ready_witness :
  exists (url : string) (w' : Lab.World),
    url <> "" /\
    Deploy.deploy 1 (requestFor (Some "acme/site") (Some (onlyDeployment siteDeployment)))
      (Lab.start Mem.empty)
    = Some (Ok {| Deploy.deployment_id := "id-0";
                  Deploy.status := "success";
                  Deploy.res_environment := "prod";
                  Deploy.res_namespace := "prod";
                  Deploy.deployment_url := url;
                  Deploy.deployed_resources :=
                    [ {| r_type := TDeployment; r_name := "acme-site"; r_status := created |} ];
                  Deploy.rollout_status := "completed" |}, w').
Proof.
  edestruct (deploy_succeeds_once_ready 1
               (requestFor (Some "acme/site") (Some (onlyDeployment siteDeployment)))
               "acme/site" (onlyDeployment siteDeployment) (Lab.start Mem.empty))
    as (url & w' & _ & Hne & Hrun);
    [reflexivity | reflexivity | reflexivity | reflexivity | reflexivity |].
  exists url, w'. split; [exact Hne | exact Hrun].
Defined.
